(** * ControlBoard_nws_ros2: joint-state network wrapper server

    A shallow embedding of
    [src/devices/controlBoard_nws_ros2/ControlBoard_nws_ros2.cpp].

    - C++ [double] is binary64: Rocq's primitive [float].
    - The members of the class are the fields of the record [ControlBoard];
      every member function is a computation in the monad [M], which threads
      the object, collects the externally visible effects (log lines, thread
      start/stop, creation, opening and destruction of devices, published
      messages) as a list of [Event]s, and aborts on a failed [yCAssert].
    - The attached device, the plugin factory, the periodic thread and the
      node clock belong to YARP and ROS 2; they enter as data ([PolyDriver],
      [Env], [Cycle]). *)

From Stdlib Require Import Floats ZArith Uint63 Reals Lia.
From stdpp Require Import gmap strings list.

Local Open Scope string_scope.
Local Open Scope list_scope.

(** ** Numbers *)

Definition double : Type := float.

(** [M_PI] of <cmath>: the binary64 value nearest to pi. *)
Definition M_PI : double := 0x1.921fb54442d18p+1%float.

(** The conversion of the source, [degrees / 180.0 * M_PI], over any carrier
    with a division and a multiplication. *)
Definition convertDegreesToRadians_in {D : Type}
    (div mul : D -> D -> D) (c180 pi : D) (degrees : D) : D :=
  mul (div degrees c180) pi.

(** convert degrees to radiants for ROS messages *)
Definition convertDegreesToRadians : double -> double :=
  convertDegreesToRadians_in PrimFloat.div PrimFloat.mul 180%float M_PI.



(** A [size_t] converted to [double]. *)
Definition double_of_size (n : nat) : double :=
  PrimFloat.of_uint63 (Uint63.of_Z (Z.of_nat n)).

(** [std::accumulate(first, last, 0.0)]. *)
Definition accumulate (l : list double) : double :=
  fold_left PrimFloat.add l 0%float.

(** [std::vector::resize(n)]: truncate, or pad with value-initialised
    elements. *)
Definition resize {A : Type} (d : A) (n : nat) (l : list A) : list A :=
  take n l ++ replicate (n - length l) d.

(** ** YARP values and configurations *)

Inductive Value :=
| VNull
| VInt (z : Z)
| VFloat64 (d : double)
| VString (s : string).

Definition isFloat64 (v : Value) : bool :=
  match v with VFloat64 _ => true | _ => false end.

Definition asFloat64 (v : Value) : double :=
  match v with
  | VFloat64 d => d
  | _ => 0%float
  end.

Definition asString (v : Value) : string :=
  match v with VString s => s | _ => "" end.

(** A [Searchable] / [Property]: keys to values.  [open] copies [config]
    into [prop] through its text form, which keeps keys and value types. *)
Abbreviation Property := (gmap string Value).

Definition check (p : Property) (key : string) : bool :=
  bool_decide (is_Some (p !! key)).

Definition find (p : Property) (key : string) : Value :=
  default VNull (p !! key).

(** ** The device interfaces *)

Inductive JointTypeEnum :=
| VOCAB_JOINTTYPE_REVOLUTE
| VOCAB_JOINTTYPE_PRISMATIC
| VOCAB_JOINTTYPE_UNKNOWN.

Definition is_revolute (t : JointTypeEnum) : bool :=
  match t with VOCAB_JOINTTYPE_REVOLUTE => true | _ => false end.

(** What a bulk read leaves in the caller's array: at each index the value
    written, if any. *)
Definition Writes : Type := nat -> option double.

(** The array after the device wrote into it through [data()]. *)
Definition poke (w : Writes) (buf : list double) : list double :=
  imap (fun i old => default old (w i)) buf.

(** Readings change from one sampling cycle to the next: the read methods
    take the instant of the call. *)
Definition instant : Type := nat.

Record IPositionControl := {
  (** [None]: the call returns false. *)
  getAxes : option Z
}.

Record IEncodersTimed := {
  (** return flag, writes into [encs], writes into [times] *)
  getEncodersTimed : instant -> bool * Writes * Writes;
  getEncoderSpeeds : instant -> bool * Writes
}.

Record ITorqueControl := {
  getTorques : instant -> bool * Writes
}.

Record IAxisInfo := {
  (** [None]: the call returns false. *)
  getAxisName : nat -> option string;
  (** The classification stored in the out-parameter, if any; the return
      flag is never looked at. *)
  getJointType : nat -> option JointTypeEnum
}.

Record DeviceImpl := {
  impl_IPositionControl : option IPositionControl;
  impl_IEncodersTimed : option IEncodersTimed;
  impl_ITorqueControl : option ITorqueControl;
  impl_IAxisInfo : option IAxisInfo
}.

(** A [PolyDriver]: the object identity and the wrapped implementation, if
    it was opened successfully. *)
Record PolyDriver := {
  poly_id : nat;
  poly_dd : option DeviceImpl
}.

Definition isValid (p : PolyDriver) : bool :=
  bool_decide (is_Some (poly_dd p)).

Definition view {I : Type} (sel : DeviceImpl -> option I) (p : PolyDriver)
  : option I :=
  poly_dd p ≫= sel.

(** ** Messages and the object *)

Record JointState := {
  header_stamp : Z;                (* nanoseconds of the node clock *)
  name : list string;
  position : list double;
  velocity : list double;
  effort : list double
}.

(** Modelled from the spec: [yarp::os::Stamp] is a class of YARP; its code
    is not among the sources.  Of the envelope the model keeps what [run]
    puts into it, the time handed to [update].  The sequence number that
    [update] also advances is private to YARP and is read nowhere in this
    file; it is left out. *)
Record Stamp := {
  stamp_time : double
}.

(** Modelled from the spec: [yarp::os::Stamp::update(double)], of which
    only the call is in the sources; it stores the time it is given. *)

Definition Stamp_update (t : double) (s : Stamp) : Stamp :=
  {| stamp_time := t |}.

Record ControlBoard := {
  (* PeriodicThread *)
  thread_period : double;
  running : bool;
  (* configuration *)
  period : double;
  nodeName : string;
  topicName : string;
  m_publisher : option string;
  (* the bound device *)
  subdevice_ptr : option PolyDriver;
  subdevice_owned : bool;
  subdevice_joints : nat;
  subdevice_ready : bool;
  iPositionControl : option IPositionControl;
  iEncodersTimed : option IEncodersTimed;
  iTorqueControl : option ITorqueControl;
  iAxisInfo : option IAxisInfo;
  (* sampling *)
  jointNames : list string;
  times : list double;
  ros_struct : JointState;
  time : Stamp;
  counter : N
}.

Inductive LogLevel := LDebug | LInfo | LWarning | LError.

(** A value handed to the logger next to a text: an argument of a
    printf-style format, or an item streamed with [<<]. *)
Inductive LogArg :=
| AString (s : string)
| ADouble (d : double)
| AInt (z : Z)
| ASize (n : nat).

(** The effects a call has outside the object.
    - [Log]: a line whose text is one literal.
    - [Logf]: a line given as a printf-style format and its arguments.
    - [Logs]: a line streamed with [<<], item by item.
    - [DeviceNew]: [new PolyDriver].
    - [DeviceOpen]: [open(p)] on a [PolyDriver] gave a valid device.
    - [DeviceClose], [DeviceDelete]: [close()] and [delete] on a device.
    - [Publish pub msg]: [publish(msg)] called through the publisher
      pointer [pub]. *)
Inductive Event :=
| Log (lvl : LogLevel) (text : string)
| Logf (lvl : LogLevel) (format : string) (args : list LogArg)
| Logs (lvl : LogLevel) (items : list LogArg)
| ThreadStart
| ThreadStop
| DeviceNew (id : nat)
| DeviceOpen (id : nat)
| DeviceClose (id : nat)
| DeviceDelete (id : nat)
| CreatePublisher (topic : string)
| Publish (pub : option string) (msg : JointState).

Definition is_log (e : Event) : bool :=
  match e with Log _ _ | Logf _ _ _ | Logs _ _ => true | _ => false end.

(** A log line, or the creation or opening of a device: what [open] may do
    before it reaches the publisher and the thread. *)
Definition is_log_or_open (e : Event) : bool :=
  is_log e ||
  match e with DeviceNew _ | DeviceOpen _ => true | _ => false end.

Definition is_destroy (e : Event) : bool :=
  match e with DeviceClose _ | DeviceDelete _ => true | _ => false end.

(** ** The monad of member functions *)

Definition M (A : Type) : Type :=
  ControlBoard -> option (A * ControlBoard * list Event).

Definition ret {A : Type} (a : A) : M A := fun s => Some (a, s, []).

Definition bind {A B : Type} (m : M A) (k : A -> M B) : M B := fun s =>
  match m s with
  | None => None
  | Some (a, s1, e1) =>
      match k a s1 with
      | None => None
      | Some (b, s2, e2) => Some (b, s2, e1 ++ e2)
      end
  end.

Declare Scope cb_scope.
Delimit Scope cb_scope with cb.
Notation "'let*' x ':=' m 'in' k" := (bind m (fun x => k))
  (at level 10, x name, m at level 100, k at level 200) : cb_scope.
Notation "'do' m 'then' k" := (bind m (fun _ => k))
  (at level 10, m at level 100, k at level 200) : cb_scope.
Local Open Scope cb_scope.

Definition get : M ControlBoard := fun s => Some (s, s, []).
Definition modify (f : ControlBoard -> ControlBoard) : M unit :=
  fun s => Some (tt, f s, []).
Definition emit (e : Event) : M unit := fun s => Some (tt, s, [e]).
Definition yCAssert (b : bool) : M unit :=
  fun s => if b then Some (tt, s, []) else None.

Definition yCError (text : string) : M unit := emit (Log LError text).
Definition yCWarning (text : string) : M unit := emit (Log LWarning text).
Definition yCInfo (text : string) : M unit := emit (Log LInfo text).
Definition yCDebug (text : string) : M unit := emit (Log LDebug text).

(** The same macros with a format and arguments, and as streams. *)
Definition yCErrorf (format : string) (args : list LogArg) : M unit :=
  emit (Logf LError format args).
Definition yCWarningf (format : string) (args : list LogArg) : M unit :=
  emit (Logf LWarning format args).
Definition yCErrors (items : list LogArg) : M unit :=
  emit (Logs LError items).
Definition yCInfos (items : list LogArg) : M unit :=
  emit (Logs LInfo items).

(** Result, final object and effects of a call that did not abort. *)
Definition result {A : Type} (o : option (A * ControlBoard * list Event))
  : option A := (fun x => x.1.1) <$> o.
Definition final {A : Type} (o : option (A * ControlBoard * list Event))
  : option ControlBoard := (fun x => x.1.2) <$> o.
Definition effects {A : Type} (o : option (A * ControlBoard * list Event))
  : list Event := default [] ((fun x => x.2) <$> o).

(** ** Assignments to members *)

Definition set_header_stamp (v : Z) (m : JointState) : JointState :=
  {| header_stamp := v; name := name m; position := position m;
     velocity := velocity m; effort := effort m |}.

Definition set_name (v : list string) (m : JointState) : JointState :=
  {| header_stamp := header_stamp m; name := v; position := position m;
     velocity := velocity m; effort := effort m |}.

Definition set_position (v : list double) (m : JointState) : JointState :=
  {| header_stamp := header_stamp m; name := name m; position := v;
     velocity := velocity m; effort := effort m |}.

Definition set_velocity (v : list double) (m : JointState) : JointState :=
  {| header_stamp := header_stamp m; name := name m; position := position m;
     velocity := v; effort := effort m |}.

Definition set_effort (v : list double) (m : JointState) : JointState :=
  {| header_stamp := header_stamp m; name := name m; position := position m;
     velocity := velocity m; effort := v |}.

Definition set_thread_period (v : double) (s : ControlBoard) : ControlBoard :=
  {| thread_period := v; running := running s; period := period s;
     nodeName := nodeName s; topicName := topicName s;
     m_publisher := m_publisher s; subdevice_ptr := subdevice_ptr s;
     subdevice_owned := subdevice_owned s;
     subdevice_joints := subdevice_joints s;
     subdevice_ready := subdevice_ready s;
     iPositionControl := iPositionControl s;
     iEncodersTimed := iEncodersTimed s; iTorqueControl := iTorqueControl s;
     iAxisInfo := iAxisInfo s; jointNames := jointNames s; times := times s;
     ros_struct := ros_struct s; time := time s; counter := counter s |}.

Definition set_running (v : bool) (s : ControlBoard) : ControlBoard :=
  {| thread_period := thread_period s; running := v; period := period s;
     nodeName := nodeName s; topicName := topicName s;
     m_publisher := m_publisher s; subdevice_ptr := subdevice_ptr s;
     subdevice_owned := subdevice_owned s;
     subdevice_joints := subdevice_joints s;
     subdevice_ready := subdevice_ready s;
     iPositionControl := iPositionControl s;
     iEncodersTimed := iEncodersTimed s; iTorqueControl := iTorqueControl s;
     iAxisInfo := iAxisInfo s; jointNames := jointNames s; times := times s;
     ros_struct := ros_struct s; time := time s; counter := counter s |}.

Definition set_period (v : double) (s : ControlBoard) : ControlBoard :=
  {| thread_period := thread_period s; running := running s; period := v;
     nodeName := nodeName s; topicName := topicName s;
     m_publisher := m_publisher s; subdevice_ptr := subdevice_ptr s;
     subdevice_owned := subdevice_owned s;
     subdevice_joints := subdevice_joints s;
     subdevice_ready := subdevice_ready s;
     iPositionControl := iPositionControl s;
     iEncodersTimed := iEncodersTimed s; iTorqueControl := iTorqueControl s;
     iAxisInfo := iAxisInfo s; jointNames := jointNames s; times := times s;
     ros_struct := ros_struct s; time := time s; counter := counter s |}.

Definition set_nodeName (v : string) (s : ControlBoard) : ControlBoard :=
  {| thread_period := thread_period s; running := running s;
     period := period s; nodeName := v; topicName := topicName s;
     m_publisher := m_publisher s; subdevice_ptr := subdevice_ptr s;
     subdevice_owned := subdevice_owned s;
     subdevice_joints := subdevice_joints s;
     subdevice_ready := subdevice_ready s;
     iPositionControl := iPositionControl s;
     iEncodersTimed := iEncodersTimed s; iTorqueControl := iTorqueControl s;
     iAxisInfo := iAxisInfo s; jointNames := jointNames s; times := times s;
     ros_struct := ros_struct s; time := time s; counter := counter s |}.

Definition set_topicName (v : string) (s : ControlBoard) : ControlBoard :=
  {| thread_period := thread_period s; running := running s;
     period := period s; nodeName := nodeName s; topicName := v;
     m_publisher := m_publisher s; subdevice_ptr := subdevice_ptr s;
     subdevice_owned := subdevice_owned s;
     subdevice_joints := subdevice_joints s;
     subdevice_ready := subdevice_ready s;
     iPositionControl := iPositionControl s;
     iEncodersTimed := iEncodersTimed s; iTorqueControl := iTorqueControl s;
     iAxisInfo := iAxisInfo s; jointNames := jointNames s; times := times s;
     ros_struct := ros_struct s; time := time s; counter := counter s |}.

Definition set_m_publisher (v : option string) (s : ControlBoard) : ControlBoard :=
  {| thread_period := thread_period s; running := running s;
     period := period s; nodeName := nodeName s; topicName := topicName s;
     m_publisher := v; subdevice_ptr := subdevice_ptr s;
     subdevice_owned := subdevice_owned s;
     subdevice_joints := subdevice_joints s;
     subdevice_ready := subdevice_ready s;
     iPositionControl := iPositionControl s;
     iEncodersTimed := iEncodersTimed s; iTorqueControl := iTorqueControl s;
     iAxisInfo := iAxisInfo s; jointNames := jointNames s; times := times s;
     ros_struct := ros_struct s; time := time s; counter := counter s |}.

Definition set_subdevice_ptr (v : option PolyDriver) (s : ControlBoard) : ControlBoard :=
  {| thread_period := thread_period s; running := running s;
     period := period s; nodeName := nodeName s; topicName := topicName s;
     m_publisher := m_publisher s; subdevice_ptr := v;
     subdevice_owned := subdevice_owned s;
     subdevice_joints := subdevice_joints s;
     subdevice_ready := subdevice_ready s;
     iPositionControl := iPositionControl s;
     iEncodersTimed := iEncodersTimed s; iTorqueControl := iTorqueControl s;
     iAxisInfo := iAxisInfo s; jointNames := jointNames s; times := times s;
     ros_struct := ros_struct s; time := time s; counter := counter s |}.

Definition set_subdevice_owned (v : bool) (s : ControlBoard) : ControlBoard :=
  {| thread_period := thread_period s; running := running s;
     period := period s; nodeName := nodeName s; topicName := topicName s;
     m_publisher := m_publisher s; subdevice_ptr := subdevice_ptr s;
     subdevice_owned := v; subdevice_joints := subdevice_joints s;
     subdevice_ready := subdevice_ready s;
     iPositionControl := iPositionControl s;
     iEncodersTimed := iEncodersTimed s; iTorqueControl := iTorqueControl s;
     iAxisInfo := iAxisInfo s; jointNames := jointNames s; times := times s;
     ros_struct := ros_struct s; time := time s; counter := counter s |}.

Definition set_subdevice_joints (v : nat) (s : ControlBoard) : ControlBoard :=
  {| thread_period := thread_period s; running := running s;
     period := period s; nodeName := nodeName s; topicName := topicName s;
     m_publisher := m_publisher s; subdevice_ptr := subdevice_ptr s;
     subdevice_owned := subdevice_owned s; subdevice_joints := v;
     subdevice_ready := subdevice_ready s;
     iPositionControl := iPositionControl s;
     iEncodersTimed := iEncodersTimed s; iTorqueControl := iTorqueControl s;
     iAxisInfo := iAxisInfo s; jointNames := jointNames s; times := times s;
     ros_struct := ros_struct s; time := time s; counter := counter s |}.

Definition set_subdevice_ready (v : bool) (s : ControlBoard) : ControlBoard :=
  {| thread_period := thread_period s; running := running s;
     period := period s; nodeName := nodeName s; topicName := topicName s;
     m_publisher := m_publisher s; subdevice_ptr := subdevice_ptr s;
     subdevice_owned := subdevice_owned s;
     subdevice_joints := subdevice_joints s; subdevice_ready := v;
     iPositionControl := iPositionControl s;
     iEncodersTimed := iEncodersTimed s; iTorqueControl := iTorqueControl s;
     iAxisInfo := iAxisInfo s; jointNames := jointNames s; times := times s;
     ros_struct := ros_struct s; time := time s; counter := counter s |}.

Definition set_iPositionControl (v : option IPositionControl) (s : ControlBoard) : ControlBoard :=
  {| thread_period := thread_period s; running := running s;
     period := period s; nodeName := nodeName s; topicName := topicName s;
     m_publisher := m_publisher s; subdevice_ptr := subdevice_ptr s;
     subdevice_owned := subdevice_owned s;
     subdevice_joints := subdevice_joints s;
     subdevice_ready := subdevice_ready s; iPositionControl := v;
     iEncodersTimed := iEncodersTimed s; iTorqueControl := iTorqueControl s;
     iAxisInfo := iAxisInfo s; jointNames := jointNames s; times := times s;
     ros_struct := ros_struct s; time := time s; counter := counter s |}.

Definition set_iEncodersTimed (v : option IEncodersTimed) (s : ControlBoard) : ControlBoard :=
  {| thread_period := thread_period s; running := running s;
     period := period s; nodeName := nodeName s; topicName := topicName s;
     m_publisher := m_publisher s; subdevice_ptr := subdevice_ptr s;
     subdevice_owned := subdevice_owned s;
     subdevice_joints := subdevice_joints s;
     subdevice_ready := subdevice_ready s;
     iPositionControl := iPositionControl s; iEncodersTimed := v;
     iTorqueControl := iTorqueControl s; iAxisInfo := iAxisInfo s;
     jointNames := jointNames s; times := times s;
     ros_struct := ros_struct s; time := time s; counter := counter s |}.

Definition set_iTorqueControl (v : option ITorqueControl) (s : ControlBoard) : ControlBoard :=
  {| thread_period := thread_period s; running := running s;
     period := period s; nodeName := nodeName s; topicName := topicName s;
     m_publisher := m_publisher s; subdevice_ptr := subdevice_ptr s;
     subdevice_owned := subdevice_owned s;
     subdevice_joints := subdevice_joints s;
     subdevice_ready := subdevice_ready s;
     iPositionControl := iPositionControl s;
     iEncodersTimed := iEncodersTimed s; iTorqueControl := v;
     iAxisInfo := iAxisInfo s; jointNames := jointNames s; times := times s;
     ros_struct := ros_struct s; time := time s; counter := counter s |}.

Definition set_iAxisInfo (v : option IAxisInfo) (s : ControlBoard) : ControlBoard :=
  {| thread_period := thread_period s; running := running s;
     period := period s; nodeName := nodeName s; topicName := topicName s;
     m_publisher := m_publisher s; subdevice_ptr := subdevice_ptr s;
     subdevice_owned := subdevice_owned s;
     subdevice_joints := subdevice_joints s;
     subdevice_ready := subdevice_ready s;
     iPositionControl := iPositionControl s;
     iEncodersTimed := iEncodersTimed s; iTorqueControl := iTorqueControl s;
     iAxisInfo := v; jointNames := jointNames s; times := times s;
     ros_struct := ros_struct s; time := time s; counter := counter s |}.

Definition set_jointNames (v : list string) (s : ControlBoard) : ControlBoard :=
  {| thread_period := thread_period s; running := running s;
     period := period s; nodeName := nodeName s; topicName := topicName s;
     m_publisher := m_publisher s; subdevice_ptr := subdevice_ptr s;
     subdevice_owned := subdevice_owned s;
     subdevice_joints := subdevice_joints s;
     subdevice_ready := subdevice_ready s;
     iPositionControl := iPositionControl s;
     iEncodersTimed := iEncodersTimed s; iTorqueControl := iTorqueControl s;
     iAxisInfo := iAxisInfo s; jointNames := v; times := times s;
     ros_struct := ros_struct s; time := time s; counter := counter s |}.

Definition set_times (v : list double) (s : ControlBoard) : ControlBoard :=
  {| thread_period := thread_period s; running := running s;
     period := period s; nodeName := nodeName s; topicName := topicName s;
     m_publisher := m_publisher s; subdevice_ptr := subdevice_ptr s;
     subdevice_owned := subdevice_owned s;
     subdevice_joints := subdevice_joints s;
     subdevice_ready := subdevice_ready s;
     iPositionControl := iPositionControl s;
     iEncodersTimed := iEncodersTimed s; iTorqueControl := iTorqueControl s;
     iAxisInfo := iAxisInfo s; jointNames := jointNames s; times := v;
     ros_struct := ros_struct s; time := time s; counter := counter s |}.

Definition set_ros_struct (v : JointState) (s : ControlBoard) : ControlBoard :=
  {| thread_period := thread_period s; running := running s;
     period := period s; nodeName := nodeName s; topicName := topicName s;
     m_publisher := m_publisher s; subdevice_ptr := subdevice_ptr s;
     subdevice_owned := subdevice_owned s;
     subdevice_joints := subdevice_joints s;
     subdevice_ready := subdevice_ready s;
     iPositionControl := iPositionControl s;
     iEncodersTimed := iEncodersTimed s; iTorqueControl := iTorqueControl s;
     iAxisInfo := iAxisInfo s; jointNames := jointNames s; times := times s;
     ros_struct := v; time := time s; counter := counter s |}.

Definition set_time (v : Stamp) (s : ControlBoard) : ControlBoard :=
  {| thread_period := thread_period s; running := running s;
     period := period s; nodeName := nodeName s; topicName := topicName s;
     m_publisher := m_publisher s; subdevice_ptr := subdevice_ptr s;
     subdevice_owned := subdevice_owned s;
     subdevice_joints := subdevice_joints s;
     subdevice_ready := subdevice_ready s;
     iPositionControl := iPositionControl s;
     iEncodersTimed := iEncodersTimed s; iTorqueControl := iTorqueControl s;
     iAxisInfo := iAxisInfo s; jointNames := jointNames s; times := times s;
     ros_struct := ros_struct s; time := v; counter := counter s |}.

Definition set_counter (v : N) (s : ControlBoard) : ControlBoard :=
  {| thread_period := thread_period s; running := running s;
     period := period s; nodeName := nodeName s; topicName := topicName s;
     m_publisher := m_publisher s; subdevice_ptr := subdevice_ptr s;
     subdevice_owned := subdevice_owned s;
     subdevice_joints := subdevice_joints s;
     subdevice_ready := subdevice_ready s;
     iPositionControl := iPositionControl s;
     iEncodersTimed := iEncodersTimed s; iTorqueControl := iTorqueControl s;
     iAxisInfo := iAxisInfo s; jointNames := jointNames s; times := times s;
     ros_struct := ros_struct s; time := time s; counter := v |}.

(** ** The environment *)

(** What a call meets outside the object: the plugin factory (the
    implementation a fresh [PolyDriver] wraps after [open(p)], if that
    succeeded), the identity of that fresh [PolyDriver], and whether
    [PeriodicThread::start] manages to start the thread. *)
Record Env := {
  plugins : Property -> option DeviceImpl;
  fresh_id : nat;
  start_ok : bool
}.

(** One invocation of the periodic task: the instant seen by the device,
    the reading of the node clock, and the indeterminate initial value of
    the local [jType]. *)
Record Cycle := {
  cyc_instant : instant;
  cyc_clock : Z;
  cyc_jType : JointTypeEnum
}.

(** Modelled from the spec: the class declaration (ControlBoard_nws_ros2.h)
    is not among the sources; the default period is the documented 0.02 s,
    which the log line of [open] repeats. *)
Definition default_period : double := 0x1.47ae147ae147bp-6%float.

(** Modelled from the spec: the member initialisers of the class
    declaration are not among the sources; a constructed object is Closed,
    with nothing bound, empty buffers and the thread at the default
    period. *)
Definition ControlBoard_nws_ros2 : ControlBoard :=
  {| thread_period := default_period; running := false;
     period := default_period; nodeName := ""; topicName := "";
     m_publisher := None; subdevice_ptr := None; subdevice_owned := false;
     subdevice_joints := 0; subdevice_ready := false;
     iPositionControl := None; iEncodersTimed := None;
     iTorqueControl := None; iAxisInfo := None;
     jointNames := []; times := [];
     ros_struct := {| header_stamp := 0; name := []; position := [];
                      velocity := []; effort := [] |};
     time := {| stamp_time := 0%float |};
     counter := 0%N |}.

(** Modelled from the spec: the declaration of [counter] is in the class
    declaration (ControlBoard_nws_ros2.h), which is not among the sources,
    and the spec is silent on it.  The source means it for the sequence
    field of the message header ([ros_struct.header.seq = counter++],
    commented out in [run]), a 32-bit unsigned integer; it is taken as
    such, so that [++counter] wraps around at [counter_modulus]. *)
Definition counter_bits : N := 32.

Definition counter_modulus : N := 2 ^ counter_bits.

(** ** PeriodicThread *)

Definition isRunning : M bool := fun s => ret (running s) s.

Definition stop : M unit :=
  do emit ThreadStop then modify (set_running false).

Definition setPeriod (p : double) : M unit := modify (set_thread_period p).

Definition start (env : Env) : M bool :=
  if start_ok env then
    do emit ThreadStart then
    do modify (set_running true) then
    ret true
  else ret false.

(** ** Member functions *)

Definition closePorts : M unit :=
  yCWarning "FIXME: closePorts() is not implemented yet!".

Definition closeDevice : M unit :=
  let* s := get in
  (* If the subdevice is owned, close and delete the device *)
  do (if subdevice_owned s then
        match subdevice_ptr s with
        | None => yCAssert false
        | Some d =>
            do emit (DeviceClose (poly_id d)) then
            emit (DeviceDelete (poly_id d))
        end
      else ret tt) then
  do modify (set_subdevice_ptr None) then
  do modify (set_subdevice_owned false) then
  do modify (set_subdevice_joints 0) then
  do modify (set_subdevice_ready false) then
  do modify (set_times []) then
  (* Clear all interfaces *)
  do modify (set_iPositionControl None) then
  do modify (set_iEncodersTimed None) then
  do modify (set_iTorqueControl None) then
  modify (set_iAxisInfo None).

Definition close : M bool :=
  (* Ensure that the device is not running *)
  let* r := isRunning in
  do (if r then stop else ret tt) then
  do closeDevice then
  do closePorts then
  ret true.

(** The loop of [updateAxisName]: [n] iterations are left, [i] is the
    index, [tmpVect] the names so far.  [inl i]: the query failed at [i]. *)
Fixpoint collectAxisNames (ax : IAxisInfo) (n i : nat)
    (tmpVect : list string) : nat + list string :=
  match n with
  | 0 => inr tmpVect
  | S n' =>
      match getAxisName ax i with
      | None => inl i
      | Some tmp => collectAxisNames ax n' (S i) (tmpVect ++ [tmp])
      end
  end.

Definition updateAxisName : M bool :=
  let* s := get in
  match iAxisInfo s with
  | None => do yCAssert false then ret false
  | Some ax =>
      match collectAxisNames ax (subdevice_joints s) 0 [] with
      | inl i =>
          do yCErrorf "Joint name for axis %zu not found!" [ASize i] then
          ret false
      | inr tmpVect =>
          do yCAssert (bool_decide (length tmpVect = subdevice_joints s)) then
          do modify (set_jointNames tmpVect) then
          ret true
      end
  end.

Definition resize_ros_struct (n : nat) (m : JointState) : JointState :=
  set_effort (resize 0%float n (effort m))
    (set_velocity (resize 0%float n (velocity m))
      (set_position (resize 0%float n (position m))
        (set_name (resize "" n (name m)) m))).

(** The two arguments every line of [setDevice] starts with:
    [nodeName.c_str(), topicName.c_str()]. *)
Definition named (s : ControlBoard) : list LogArg :=
  [AString (nodeName s); AString (topicName s)].

(** [driver] is a reference: the [yCAssert(driver)] of the source holds. *)
Definition setDevice (driver : PolyDriver) (owned : bool) : M bool :=
  (* Save the pointer and subDeviceOwned *)
  do modify (set_subdevice_ptr (Some driver)) then
  do modify (set_subdevice_owned owned) then
  do modify (set_iPositionControl (view impl_IPositionControl driver)) then
  match view impl_IPositionControl driver with
  | None =>
      let* s := get in
      do yCErrorf
           "<%s - %s>: IPositionControl interface was not found in subdevice. Quitting"
           (named s) then
      ret false
  | Some pc =>
  do modify (set_iEncodersTimed (view impl_IEncodersTimed driver)) then
  if negb (bool_decide (is_Some (view impl_IEncodersTimed driver))) then
      let* s := get in
      do yCErrorf
           "<%s - %s>: IEncodersTimed interface was not found in subdevice. Quitting"
           (named s) then
      ret false
  else
  do modify (set_iTorqueControl (view impl_ITorqueControl driver)) then
  do (if negb (bool_decide (is_Some (view impl_ITorqueControl driver))) then
        let* s := get in
        yCWarningf
          "<%s - %s>: ITorqueControl interface was not found in subdevice."
          (named s)
      else ret tt) then
  do modify (set_iAxisInfo (view impl_IAxisInfo driver)) then
  if negb (bool_decide (is_Some (view impl_IAxisInfo driver))) then
      let* s := get in
      do yCErrorf
           "<%s - %s>: IAxisInfo interface was not found in subdevice. Quitting"
           (named s) then
      ret false
  else
  (* Get the number of controlled joints *)
  match getAxes pc with
  | None =>
      let* s := get in
      do yCErrorf "<%s - %s>: Failed to get axes number for subdevice "
           (named s) then
      ret false
  | Some tmp_axes =>
  if (tmp_axes <=? 0)%Z then
      let* s := get in
      do yCErrorf
           "<%s - %s>: attached device has an invalid number of joints (%d)"
           (named s ++ [AInt tmp_axes]) then
      ret false
  else
  do modify (set_subdevice_joints (Z.to_nat tmp_axes)) then
  let* s := get in
  do modify (set_times (resize 0%float (subdevice_joints s) (times s))) then
  do modify (set_ros_struct
               (resize_ros_struct (subdevice_joints s) (ros_struct s))) then
  let* named := updateAxisName in
  if negb named then ret false else
  ret true
  end end.

(** For the simulator, if a subdevice parameter is given to the wrapper, it
    will open it and attach to immediately.

    [new PolyDriver] shows as [DeviceNew], and [subDeviceOwned->open(p)] as
    [DeviceOpen] when it gives a valid driver: from then on there is a
    device that someone has to close.  After a failed open the function
    returns without deleting the [PolyDriver] it created. *)
Definition openAndAttachSubDevice (env : Env) (prop : Property) : M bool :=
  do emit (DeviceNew (fresh_id env)) then
  let subdevice := asString (find prop "subdevice") in
  let p := <["device" := VString subdevice]> (delete "device" prop) in
  (* if errors occurred during open, quit here. *)
  do yCDebug "opening subdevice" then
  let subDeviceOwned :=
    {| poly_id := fresh_id env; poly_dd := plugins env p |} in
  if negb (isValid subDeviceOwned) then
    do yCError "opening subdevice... FAILED" then
    ret false
  else
    do emit (DeviceOpen (poly_id subDeviceOwned)) then
    setDevice subDeviceOwned true.

(** The tail of [open] after the period and subdevice stages. *)
Definition open_names (env : Env) (config : Property) : M bool :=
  (* check for nodeName parameter *)
  if negb (check config "nodeName") then
    let* s := get in
    do yCErrors [AString (nodeName s);
                 AString " cannot find nodeName parameter"] then
    ret false
  else
  do modify (set_nodeName (asString (find config "nodeName"))) then
  let* s := get in
  do yCInfos [AString "nodeName is "; AString (nodeName s)] then
  do yCWarning "FIXME: nodeName is not currently used!" then
  (* check for topicName parameter *)
  if negb (check config "topicName") then
    do yCErrors [AString (nodeName s);
                 AString " cannot find topicName parameter"] then
    ret false
  else
  do modify (set_topicName (asString (find config "topicName"))) then
  let* s := get in
  do yCInfos [AString "topicName is "; AString (topicName s)] then
  do emit (CreatePublisher (topicName s)) then
  do modify (set_m_publisher (Some (topicName s))) then
  (* In case attach is not deferred and the controlboard already owns a
     valid device we can start the thread. Otherwise this will happen when
     attachAll is called *)
  if subdevice_ready s then
    do setPeriod (period s) then
    let* started := start env in
    if negb started then
      do yCError "Error starting thread" then
      ret false
    else ret true
  else ret true.

(** The middle of [open]: the optional subdevice. *)
Definition open_subdevice (env : Env) (config : Property) : M bool :=
  let prop := config in
  (* Check if we need to create subdevice or if they are passed later on
     thorugh attachAll() *)
  if check prop "subdevice" then
    let* attached := openAndAttachSubDevice env prop in
    if negb attached then
      do yCError "Error while opening subdevice" then
      ret false
    else
      do modify (set_subdevice_ready true) then
      open_names env config
  else open_names env config.

Definition open (env : Env) (config : Property) : M bool :=
  let prop := config in
  (* Check parameter, so if both are present we use the correct one *)
  if check prop "period" then
    if negb (isFloat64 (find prop "period")) then
      do yCError "'period' parameter is not a double value" then
      ret false
    else
      do modify (set_period (asFloat64 (find prop "period"))) then
      let* s := get in
      if (period s <=? 0)%float then
        do yCErrors [AString "'period' parameter is not valid, read value is";
                     ADouble (period s)] then
        ret false
      else open_subdevice env config
  else
    do yCDebug "'period' parameter missing, using default thread period = 0.02s" then
    do modify (set_period default_period) then
    open_subdevice env config.

(** [poly] is a reference: see [setDevice]. *)
Definition attach (env : Env) (poly : PolyDriver) : M bool :=
  let* s := get in
  (* Check if we already instantiated a subdevice previously *)
  if subdevice_ready s then ret false else
  let* bound := setDevice poly false in
  if negb bound then ret false else
  let* s := get in
  do setPeriod (period s) then
  let* started := start env in
  if negb started then
    do yCError "Error starting thread" then
    ret false
  else ret true.

Definition detach : M bool :=
  let* s := get in
  (* check if we already instantiated a subdevice previously *)
  if subdevice_owned s then ret false else
  (* Ensure that the device is not running *)
  let* r := isRunning in
  do (if r then stop else ret tt) then
  do closeDevice then
  ret true.

(** A [PolyDriverList]: keys and drivers. *)
Definition attachAll (env : Env) (p : list (string * PolyDriver)) : M bool :=
  match p with
  | [] =>
      do yCError "No devices found" then
      ret false
  | [(key, poly)] =>
      if negb (isValid poly) then
        do yCErrorf "Device %s is not valid" [AString key] then
        ret false
      else attach env poly
  | _ =>
      do yCError "Cannot attach more than one device" then
      ret false
  end.

Definition detachAll : M bool := detach.

(** The conversion loop of [run]: [n] iterations are left, [i] is the
    index, [jType] the local that [getJointType] writes when it classifies
    the joint.  The vectors hold [subdevice_joints] elements after
    [setDevice]; an index beyond that changes nothing here. *)
Fixpoint convertLoop (ax : IAxisInfo) (n i : nat) (jType : JointTypeEnum)
    (pos vel : list double) : list double * list double :=
  match n with
  | 0 => (pos, vel)
  | S n' =>
      let jType := default jType (getJointType ax i) in
      if is_revolute jType then
        convertLoop ax n' (S i) jType
          (alter convertDegreesToRadians i pos)
          (alter convertDegreesToRadians i vel)
      else convertLoop ax n' (S i) jType pos vel
  end.

(** [m_publisher] is dereferenced without a check: the publication goes
    through whatever the pointer holds, a null pointer before [open]. *)
Definition run (c : Cycle) : M unit :=
  let* s := get in
  match iEncodersTimed s, iAxisInfo s with
  | Some enc, Some ax =>
      let '(positionsOk, wpos, wtimes) :=
        getEncodersTimed enc (cyc_instant c) in
      do modify (set_ros_struct
                   (set_position (poke wpos (position (ros_struct s)))
                                 (ros_struct s))) then
      do modify (set_times (poke wtimes (times s))) then
      let '(speedsOk, wvel) := getEncoderSpeeds enc (cyc_instant c) in
      let* s := get in
      do modify (set_ros_struct
                   (set_velocity (poke wvel (velocity (ros_struct s)))
                                 (ros_struct s))) then
      do (match iTorqueControl s with
          | Some trq =>
              let '(torqueOk, weff) := getTorques trq (cyc_instant c) in
              let* s := get in
              modify (set_ros_struct
                        (set_effort (poke weff (effort (ros_struct s)))
                                    (ros_struct s)))
          | None => ret tt
          end) then
      (* Update the port envelope time by averaging all timestamps *)
      let* s := get in
      do modify (set_time
                   (Stamp_update
                      (accumulate (times s)
                       / double_of_size (subdevice_joints s))%float
                      (time s))) then
      (* Data from HW have been gathered few lines before *)
      let* s := get in
      let '(pos, vel) :=
        convertLoop ax (subdevice_joints s) 0 (cyc_jType c)
          (position (ros_struct s)) (velocity (ros_struct s)) in
      do modify (set_ros_struct
                   (set_velocity vel (set_position pos (ros_struct s)))) then
      let* s := get in
      do modify (set_ros_struct (set_name (jointNames s) (ros_struct s))) then
      let* s := get in
      do modify (set_ros_struct (set_header_stamp (cyc_clock c) (ros_struct s))) then
      let* s := get in
      do modify (set_counter ((counter s + 1) mod counter_modulus)%N) then
      let* s := get in
      emit (Publish (m_publisher s) (ros_struct s))
  | _, _ => yCAssert false
  end.

(** ** State predicates of the lifecycle *)

(** No device is bound: what [closeDevice] establishes. *)
Definition Unbound (s : ControlBoard) : Prop :=
  subdevice_ptr s = None /\ subdevice_owned s = false /\
  subdevice_joints s = 0 /\ subdevice_ready s = false /\
  times s = [] /\
  iPositionControl s = None /\ iEncodersTimed s = None /\
  iTorqueControl s = None /\ iAxisInfo s = None.

(** Closed or Configured: the loop does not run and nothing is bound.  The
    two differ in whether [open] has stored a configuration. *)
Definition Closed (s : ControlBoard) : Prop :=
  running s = false /\ Unbound s.

(** The configuration part of the object. *)
Definition configuration (s : ControlBoard)
  : double * string * string * option string :=
  (period s, nodeName s, topicName s, m_publisher s).

(** The Device Binding: device, ownership, joint count, guard flag and the
    four capability references. *)
Definition binding (s : ControlBoard) :=
  (subdevice_ptr s, subdevice_owned s, subdevice_joints s, subdevice_ready s,
   iPositionControl s, iEncodersTimed s, iTorqueControl s, iAxisInfo s).

(** The Sample Buffer: the timestamps and the vectors of the message. *)
Definition sample_buffer (s : ControlBoard) : list double * JointState :=
  (times s, ros_struct s).

(** The assertion of [closeDevice]: an owned device is there to delete. *)
Definition owned_is_bound (s : ControlBoard) : Prop :=
  subdevice_owned s = true -> is_Some (subdevice_ptr s).

(** What no bind touches: the thread, the configuration and the guard flag
    of [attach]. *)
Definition bind_frame (s s' : ControlBoard) : Prop :=
  running s' = running s /\ thread_period s' = thread_period s /\
  configuration s' = configuration s /\
  subdevice_ready s' = subdevice_ready s /\
  time s' = time s /\ counter s' = counter s.

(** The driver [openAndAttachSubDevice] creates for a configuration: what
    the factory makes of the configuration with the subdevice as device. *)
Definition subdevice_of (env : Env) (config : Property) : PolyDriver :=
  {| poly_id := fresh_id env;
     poly_dd :=
       plugins env
         (<["device" := VString (asString (find config "subdevice"))]>
            (delete "device" config)) |}.

(** The devices [setDevice] accepts: the three mandatory interfaces, a
    positive joint count and a name for every joint below it. *)
Definition bindable (driver : PolyDriver) : Prop :=
  exists pc enc ax n,
    view impl_IPositionControl driver = Some pc /\
    view impl_IEncodersTimed driver = Some enc /\
    view impl_IAxisInfo driver = Some ax /\
    getAxes pc = Some n /\ (0 < n)%Z /\
    forall i, i < Z.to_nat n -> is_Some (getAxisName ax i).

(** A [period] that is present but not a float64, or not positive. *)
Definition bad_period (config : Property) : Prop :=
  exists v, config !! "period" = Some v /\
    (isFloat64 v = false \/ (asFloat64 v <=? 0)%float = true).

(** The configurations [open] must refuse. *)
Definition bad_config (config : Property) : Prop :=
  config !! "nodeName" = None \/ config !! "topicName" = None \/
  bad_period config.

(** ** Calls and reachable objects *)

(** The calls the host and the thread make on the object. *)
Inductive Call :=
| CallOpen (env : Env) (config : Property)
| CallClose
| CallAttach (env : Env) (poly : PolyDriver)
| CallAttachAll (env : Env) (p : list (string * PolyDriver))
| CallDetach
| CallDetachAll
| CallRun (c : Cycle).

Definition perform (c : Call) : M bool :=
  match c with
  | CallOpen env config => open env config
  | CallClose => close
  | CallAttach env poly => attach env poly
  | CallAttachAll env p => attachAll env p
  | CallDetach => detach
  | CallDetachAll => detachAll
  | CallRun c => do run c then ret true
  end.

(** The periodic task only runs while the thread does. *)
Definition enabled (c : Call) (s : ControlBoard) : Prop :=
  match c with
  | CallRun _ => running s = true
  | _ => True
  end.

(** The objects a sequence of completed calls and completed cycles leads
    to, one after the other.  In the source the cycles run on the thread
    while the host calls the member functions; what a cycle sees when it
    overlaps a call is outside this relation. *)
Inductive reachable : ControlBoard -> Prop :=
| reach_init : reachable ControlBoard_nws_ros2
| reach_step s c r s' ev :
    reachable s -> enabled c s -> perform c s = Some (r, s', ev) ->
    reachable s'.

(** The object after [c] was performed on it, when that did not abort. *)
Definition after (c : Call) (s : ControlBoard) : ControlBoard :=
  default s (final (perform c s)).

(** ** What the member functions leave behind *)

(** The object [closeDevice] leaves behind, and what it destroys. *)
Definition released (s : ControlBoard) : ControlBoard :=
  set_iAxisInfo None (set_iTorqueControl None (set_iEncodersTimed None
    (set_iPositionControl None (set_times [] (set_subdevice_ready false
      (set_subdevice_joints 0 (set_subdevice_owned false
        (set_subdevice_ptr None s)))))))).

Definition destroyed (s : ControlBoard) : list Event :=
  match subdevice_owned s, subdevice_ptr s with
  | true, Some d => [DeviceClose (poly_id d); DeviceDelete (poly_id d)]
  | _, _ => []
  end.

Definition stopped (s : ControlBoard) : list Event :=
  if running s then [ThreadStop] else [].

(** The object of [setDevice] once the four views are stored. *)
Definition viewed (driver : PolyDriver) (owned : bool) (s : ControlBoard)
  : ControlBoard :=
  set_iAxisInfo (view impl_IAxisInfo driver)
    (set_iTorqueControl (view impl_ITorqueControl driver)
      (set_iEncodersTimed (view impl_IEncodersTimed driver)
        (set_iPositionControl (view impl_IPositionControl driver)
          (set_subdevice_owned owned
            (set_subdevice_ptr (Some driver) s))))).

(** The object of [setDevice] once the buffers are sized for [n] joints. *)
Definition sized (n : nat) (s : ControlBoard) : ControlBoard :=
  set_ros_struct (resize_ros_struct n (ros_struct s))
    (set_times (resize 0%float n (times s))
      (set_subdevice_joints n s)).

(** The warning of [setDevice] about a missing torque interface. *)
Definition torque_warning (driver : PolyDriver) (s : ControlBoard)
  : list Event :=
  if negb (bool_decide (is_Some (view impl_ITorqueControl driver))) then
    [Logf LWarning
       "<%s - %s>: ITorqueControl interface was not found in subdevice."
       (named s)]
  else [].

(** ** One sampling cycle, read off [run] *)

(** The buffers as the reads of the cycle leave them: what the device wrote
    this time, and the previous contents everywhere else. *)
Definition raw_position (c : Cycle) (enc : IEncodersTimed) (s : ControlBoard)
  : list double :=
  poke (getEncodersTimed enc (cyc_instant c)).1.2 (position (ros_struct s)).

Definition raw_times (c : Cycle) (enc : IEncodersTimed) (s : ControlBoard)
  : list double :=
  poke (getEncodersTimed enc (cyc_instant c)).2 (times s).

Definition raw_velocity (c : Cycle) (enc : IEncodersTimed) (s : ControlBoard)
  : list double :=
  poke (getEncoderSpeeds enc (cyc_instant c)).2 (velocity (ros_struct s)).

Definition raw_effort (c : Cycle) (s : ControlBoard) : list double :=
  match iTorqueControl s with
  | Some trq => poke (getTorques trq (cyc_instant c)).2 (effort (ros_struct s))
  | None => effort (ros_struct s)
  end.

(** The representative timestamp of the cycle. *)
Definition sample_mean (c : Cycle) (enc : IEncodersTimed) (s : ControlBoard)
  : double :=
  (accumulate (raw_times c enc s) / double_of_size (subdevice_joints s))%float.

Definition converted (c : Cycle) (enc : IEncodersTimed) (ax : IAxisInfo)
    (s : ControlBoard) : list double * list double :=
  convertLoop ax (subdevice_joints s) 0 (cyc_jType c)
    (raw_position c enc s) (raw_velocity c enc s).

(** The message of the cycle. *)
Definition outgoing (c : Cycle) (enc : IEncodersTimed) (ax : IAxisInfo)
    (s : ControlBoard) : JointState :=
  {| header_stamp := cyc_clock c;
     name := jointNames s;
     position := (converted c enc ax s).1;
     velocity := (converted c enc ax s).2;
     effort := raw_effort c s |}.

(** The object after the cycle. *)
Definition sampled (c : Cycle) (enc : IEncodersTimed) (ax : IAxisInfo)
    (s : ControlBoard) : ControlBoard :=
  set_counter ((counter s + 1) mod counter_modulus)%N
    (set_time (Stamp_update (sample_mean c enc s) (time s))
      (set_times (raw_times c enc s)
        (set_ros_struct (outgoing c enc ax s) s))).


(** The unit conversion applied to joint [i] of type [t]. *)
Definition to_ros (t : JointTypeEnum) (x : double) : double :=
  if is_revolute t then convertDegreesToRadians x else x.

(** ** Devices and configurations used in the examples *)

Definition table (l : list double) : Writes := fun i => l !! i.
Definition no_writes : Writes := fun _ => None.

(** A three-joint board.  At instant 0 every read succeeds; from instant 1
    on every read fails and writes nothing.  The per-joint timestamps are
    [ts]; the joint types are revolute, [t], revolute. *)
Definition board_enc (ts : list double) : IEncodersTimed :=
  {| getEncodersTimed := fun k =>
       match k with
       | 0 => (true, table [180; 90; 90]%float, table ts)
       | _ => (false, no_writes, no_writes)
       end;
     getEncoderSpeeds := fun k =>
       match k with
       | 0 => (true, table [90; 1; 180]%float)
       | _ => (false, no_writes)
       end |}.

Definition board_trq : ITorqueControl :=
  {| getTorques := fun k =>
       match k with
       | 0 => (true, table [5; 6; 7]%float)
       | _ => (false, no_writes)
       end |}.

Definition board_ax (t : JointTypeEnum) : IAxisInfo :=
  {| getAxisName := fun i => ["shoulder"; "slider"; "elbow"] !! i;
     getJointType := fun i =>
       [VOCAB_JOINTTYPE_REVOLUTE; t; VOCAB_JOINTTYPE_REVOLUTE] !! i |}.

Definition board (t : JointTypeEnum) (ts : list double) : DeviceImpl :=
  {| impl_IPositionControl := Some {| getAxes := Some 3%Z |};
     impl_IEncodersTimed := Some (board_enc ts);
     impl_ITorqueControl := Some board_trq;
     impl_IAxisInfo := Some (board_ax t) |}.

Definition board_poly (id : nat) (t : JointTypeEnum) (ts : list double)
  : PolyDriver :=
  {| poly_id := id; poly_dd := Some (board t ts) |}.

(** The same board without the optional torque interface. *)
Definition without_torque (d : DeviceImpl) : DeviceImpl :=
  {| impl_IPositionControl := impl_IPositionControl d;
     impl_IEncodersTimed := impl_IEncodersTimed d;
     impl_ITorqueControl := None;
     impl_IAxisInfo := impl_IAxisInfo d |}.

(** A two-joint device whose second joint has no name. *)
Definition nameless_ax : IAxisInfo :=
  {| getAxisName := fun i => ["wrist"] !! i;
     getJointType := fun _ => Some VOCAB_JOINTTYPE_REVOLUTE |}.

Definition nameless : DeviceImpl :=
  {| impl_IPositionControl := Some {| getAxes := Some 2%Z |};
     impl_IEncodersTimed := Some (board_enc []);
     impl_ITorqueControl := None;
     impl_IAxisInfo := Some nameless_ax |}.

(** A device with none of the interfaces. *)
Definition bare : DeviceImpl :=
  {| impl_IPositionControl := None; impl_IEncodersTimed := None;
     impl_ITorqueControl := None; impl_IAxisInfo := None |}.

(** A device whose joint count is not positive. *)
Definition jointless : DeviceImpl :=
  {| impl_IPositionControl := Some {| getAxes := Some 0%Z |};
     impl_IEncodersTimed := Some (board_enc []);
     impl_ITorqueControl := None;
     impl_IAxisInfo := Some (board_ax VOCAB_JOINTTYPE_UNKNOWN) |}.

Definition bare_poly : PolyDriver := {| poly_id := 4; poly_dd := Some bare |}.
Definition jointless_poly : PolyDriver :=
  {| poly_id := 5; poly_dd := Some jointless |}.
Definition torqueless_poly : PolyDriver :=
  {| poly_id := 6;
     poly_dd := Some (without_torque (board VOCAB_JOINTTYPE_PRISMATIC [])) |}.
Definition nameless_poly : PolyDriver :=
  {| poly_id := 3; poly_dd := Some nameless |}.

(** A host whose factory builds the three-joint board for every subdevice
    and whose threads start. *)
Definition sim_env : Env :=
  {| plugins := fun _ => Some (board VOCAB_JOINTTYPE_PRISMATIC [1; 2; 3]%float);
     fresh_id := 7;
     start_ok := true |}.

(** The same host when its thread cannot be started. *)
Definition stalled_env : Env :=
  {| plugins := plugins sim_env; fresh_id := 8; start_ok := false |}.

Definition cycle0 : Cycle :=
  {| cyc_instant := 0; cyc_clock := 5000000000;
     cyc_jType := VOCAB_JOINTTYPE_UNKNOWN |}.

Definition cycle1 : Cycle :=
  {| cyc_instant := 1; cyc_clock := 5020000000;
     cyc_jType := VOCAB_JOINTTYPE_UNKNOWN |}.

(** A configuration without subdevice: the device is attached later. *)
Definition config_deferred : Property :=
  {[ "nodeName" := VString "cb_node";
     "topicName" := VString "/joint_states" ]}.

(** An opened controller waiting for its device, and the same controller
    bound to the three-joint board and running. *)
Definition opened : ControlBoard :=
  after (CallOpen sim_env config_deferred) ControlBoard_nws_ros2.

Definition attached (t : JointTypeEnum) (ts : list double) : ControlBoard :=
  after (CallAttach sim_env (board_poly 1 t ts)) opened.

(** Configurations used in the examples. *)
Definition config_subdevice : Property :=
  {[ "subdevice" := VString "fakeMotionControl";
     "nodeName" := VString "cb_node";
     "topicName" := VString "/joint_states" ]}.

Definition config_no_nodeName : Property :=
  {[ "subdevice" := VString "fakeMotionControl";
     "topicName" := VString "/joint_states" ]}.

Definition config_negative_period : Property :=
  {[ "period" := VFloat64 (-1)%float;
     "nodeName" := VString "cb_node";
     "topicName" := VString "/joint_states" ]}.

Definition config_no_topicName : Property :=
  {[ "nodeName" := VString "cb_node" ]}.

Definition config_integer_period : Property :=
  {[ "period" := VInt 1;
     "nodeName" := VString "cb_node";
     "topicName" := VString "/joint_states" ]}.

(** ** Notions for the life cycle as a whole *)

(** The thread invokes [run] once per period: the cycles in order. *)
Fixpoint run_all (cs : list Cycle) : M unit :=
  match cs with
  | [] => ret tt
  | c :: cs => do run c then run_all cs
  end.

(** The classification the loop of [run] holds when it has queried joint
    [i]: the last one that [getJointType] stored, or else the value [jType]
    had when the loop was entered. *)
Fixpoint effective_type (ax : IAxisInfo) (jType : JointTypeEnum) (i : nat)
  : JointTypeEnum :=
  match i with
  | 0 => default jType (getJointType ax 0)
  | S k => default (effective_type ax jType k) (getJointType ax (S k))
  end.

(** The messages among the effects, in order. *)
Definition published (ev : list Event) : list JointState :=
  omap (fun e => match e with Publish _ m => Some m | _ => None end) ev.

(** The vectors [run] indexes hold one entry per joint. *)
Definition buffers_sized (s : ControlBoard) : Prop :=
  length (times s) = subdevice_joints s /\
  (subdevice_joints s = 0 \/
   (length (position (ros_struct s)) = subdevice_joints s /\
    length (velocity (ros_struct s)) = subdevice_joints s /\
    length (effort (ros_struct s)) = subdevice_joints s)).

(** What holds of every object the host can reach. *)
Definition well_formed (s : ControlBoard) : Prop :=
  (subdevice_ready s = true ->
   subdevice_owned s = true /\ 0 < subdevice_joints s) /\
  (running s = true -> 0 < subdevice_joints s) /\
  buffers_sized s.

(** A host whose factory has no plugin to offer. *)
Definition empty_env : Env :=
  {| plugins := fun _ => None; fresh_id := 9; start_ok := true |}.

(** A device that lacks only the timed encoders. *)
Definition blind : DeviceImpl :=
  {| impl_IPositionControl := Some {| getAxes := Some 3%Z |};
     impl_IEncodersTimed := None;
     impl_ITorqueControl := Some board_trq;
     impl_IAxisInfo := Some (board_ax VOCAB_JOINTTYPE_PRISMATIC) |}.

Definition blind_poly : PolyDriver :=
  {| poly_id := 10; poly_dd := Some blind |}.

(** A board whose type query only ever answers for joint 0. *)
Definition sticky_ax : IAxisInfo :=
  {| getAxisName := getAxisName (board_ax VOCAB_JOINTTYPE_UNKNOWN);
     getJointType := fun i =>
       match i with 0 => Some VOCAB_JOINTTYPE_REVOLUTE | _ => None end |}.

Definition sticky_poly : PolyDriver :=
  {| poly_id := 11;
     poly_dd := Some
       {| impl_IPositionControl := Some {| getAxes := Some 3%Z |};
          impl_IEncodersTimed := Some (board_enc [1; 2; 3]%float);
          impl_ITorqueControl := None;
          impl_IAxisInfo := Some sticky_ax |} |}.

(** The same board on an opened controller, bound and running. *)
Definition sticky_attached : ControlBoard :=
  after (CallAttach sim_env sticky_poly) opened.





(** * Properties *)

(** Unfolds the monad so that a member function computes on a symbolic
    object. *)
Ltac exec :=
  cbv [bind ret get modify emit yCAssert yCError yCWarning yCInfo yCDebug
       yCErrorf yCWarningf yCErrors yCInfos
       isRunning stop setPeriod closePorts];
  cbn [fst snd].

(** ** The building blocks on small inputs *)

Example convertDegreesToRadians_180 :
  convertDegreesToRadians 180%float = M_PI.
Proof. reflexivity. Qed.

Example convertDegreesToRadians_90 :
  convertDegreesToRadians 90%float = (M_PI / 2)%float.
Proof. reflexivity. Qed.

Example mean_of_three :
  (accumulate [1; 2; 3] / double_of_size 3)%float = 2%float.
Proof. reflexivity. Qed.

Example resize_pads : resize 0%float 3 [1%float] = [1; 0; 0]%float.
Proof. reflexivity. Qed.

Example resize_truncates : resize "" 1 ["a"; "b"; "c"] = ["a"].
Proof. reflexivity. Qed.

Example poke_partial :
  poke (table [7%float]) [1; 2; 3]%float = [7; 2; 3]%float.
Proof. reflexivity. Qed.

Example convertLoop_keeps_last_type :
  convertLoop
    {| getAxisName := fun _ => None;
       getJointType := fun i =>
         match i with 0 => Some VOCAB_JOINTTYPE_REVOLUTE | _ => None end |}
    2 0 VOCAB_JOINTTYPE_UNKNOWN [180; 180]%float [0; 0]%float
  = ([M_PI; M_PI], [0; 0])%float.
Proof. reflexivity. Qed.

(** ** close, closeDevice, detach *)

Lemma closeDevice_eq (s : ControlBoard) :
  owned_is_bound s ->
  closeDevice s = Some (tt, released s, destroyed s).
Proof.
  intros Hinv. unfold closeDevice, destroyed. exec.
  destruct (subdevice_owned s) eqn:Ho.
  - destruct (Hinv Ho) as [d Hd]. rewrite Hd. reflexivity.
  - destruct (subdevice_ptr s); reflexivity.
Qed.

Lemma released_Unbound (s : ControlBoard) : Unbound (released s).
Proof. unfold Unbound. simpl. tauto. Qed.

Lemma released_owned_is_bound (s : ControlBoard) : owned_is_bound (released s).
Proof. intros H. discriminate H. Qed.

Lemma close_eq (s : ControlBoard) :
  owned_is_bound s ->
  close s =
    Some (true, released (set_running false s),
          stopped s ++ destroyed s ++
          [Log LWarning "FIXME: closePorts() is not implemented yet!"]).
Proof.
  intros Hinv. unfold close, stopped. exec.
  destruct (running s) eqn:Hr.
  - rewrite closeDevice_eq by exact Hinv. reflexivity.
  - rewrite closeDevice_eq by exact Hinv.
    assert (E : set_running false s = s).
    { destruct s. simpl in Hr. subst. reflexivity. }
    rewrite E. reflexivity.
Qed.

(** C9: [close] always returns success and leaves the controller Closed
    (not running, binding released, ownership flag cleared, joint count
    zero, capability references cleared); a second [close] returns success
    again, leaves the object exactly as it was and destroys no device: its
    only effect is the warning of [closePorts].  The premise is the
    assertion of [closeDevice], which every reachable object satisfies
    ([reachable_owned_is_bound]). *)
Theorem close_idempotent (s : ControlBoard) :
  owned_is_bound s ->
  exists s1 ev1,
    close s = Some (true, s1, ev1) /\
    Closed s1 /\
    close s1 =
      Some (true, s1,
            [Log LWarning "FIXME: closePorts() is not implemented yet!"]) /\
    filter is_destroy (effects (close s1)) = [].
Proof.
  intros Hinv. rewrite (close_eq s Hinv).
  eexists _, _. split; [reflexivity|].
  split; [split; [reflexivity | apply released_Unbound]|].
  assert (Hc : close (released (set_running false s)) =
    Some (true, released (set_running false s),
          [Log LWarning "FIXME: closePorts() is not implemented yet!"])).
  { rewrite close_eq by apply released_owned_is_bound.
    destruct s. vm_compute. reflexivity. }
  rewrite Hc. split; reflexivity.
Qed.

Lemma close_idempotent_witness :
  let s := after (CallOpen sim_env config_subdevice) ControlBoard_nws_ros2 in
  owned_is_bound s /\
  exists s1 ev1,
    close s = Some (true, s1, ev1) /\
    Closed s1 /\
    close s1 =
      Some (true, s1,
            [Log LWarning "FIXME: closePorts() is not implemented yet!"]) /\
    filter is_destroy (effects (close s1)) = [].
Proof.
  intros s.
  assert (H : owned_is_bound s).
  { intros _. vm_compute. eexists. reflexivity. }
  split; [exact H | exact (close_idempotent s H)].
Defined.

Lemma detach_eq (s : ControlBoard) :
  detach s =
    if subdevice_owned s then Some (false, s, [])
    else Some (true, released (set_running false s), stopped s).
Proof.
  unfold detach, stopped. exec.
  destruct (subdevice_owned s) eqn:Ho; [reflexivity|].
  assert (Hinv : forall s0, subdevice_owned s0 = false -> owned_is_bound s0)
    by (intros s0 H0 H1; congruence).
  destruct (running s) eqn:Hr.
  - rewrite closeDevice_eq by (apply Hinv; exact Ho).
    unfold destroyed. simpl. rewrite Ho. reflexivity.
  - rewrite closeDevice_eq by (apply Hinv; exact Ho).
    unfold destroyed. rewrite Ho.
    assert (E : set_running false s = s).
    { destruct s. simpl in Hr. subst. reflexivity. }
    rewrite E. reflexivity.
Qed.

(** C8: [detach] returns false and changes nothing when the binding is
    self-owned.  Otherwise it returns true, stops the loop if it runs (and
    only then), and releases the binding: the controller is left not
    running and unbound, with the configuration stored by [open] intact,
    which is the Configured state. *)
Theorem detach_owned_or_released (s : ControlBoard) :
  (subdevice_owned s = true -> detach s = Some (false, s, [])) /\
  (subdevice_owned s = false ->
   exists s',
     detach s = Some (true, s', stopped s) /\
     (running s = true -> stopped s = [ThreadStop]) /\
     Closed s' /\
     configuration s' = configuration s).
Proof.
  rewrite detach_eq. split; intros Ho; rewrite Ho; [reflexivity|].
  exists (released (set_running false s)).
  split; [reflexivity|].
  split; [intros Hr; unfold stopped; rewrite Hr; reflexivity|].
  split; [split; [reflexivity | apply released_Unbound] | reflexivity].
Qed.

Lemma detach_owned_or_released_witness :
  let own := after (CallOpen sim_env config_subdevice) ControlBoard_nws_ros2 in
  let ext := attached VOCAB_JOINTTYPE_PRISMATIC [1; 2; 3]%float in
  (subdevice_owned own = true /\ detach own = Some (false, own, [])) /\
  (subdevice_owned ext = false /\
   exists s',
     detach ext = Some (true, s', stopped ext) /\
     (running ext = true -> stopped ext = [ThreadStop]) /\
     Closed s' /\
     configuration s' = configuration ext).
Proof.
  intros own ext.
  assert (H1 : subdevice_owned own = true) by (vm_compute; reflexivity).
  assert (H2 : subdevice_owned ext = false) by (vm_compute; reflexivity).
  split.
  - split; [exact H1 | exact (proj1 (detach_owned_or_released own) H1)].
  - split; [exact H2 | exact (proj2 (detach_owned_or_released ext) H2)].
Defined.

(** ** open: the period setting *)

(** C10: a [period] stored as an integer, however positive, is not a
    float64: [open] logs the error and returns failure, leaving the object
    as it was. *)
Theorem open_rejects_integer_period
    (env : Env) (config : Property) (s : ControlBoard) (n : Z) :
  config !! "period" = Some (VInt n) ->
  (0 < n)%Z ->
  open env config s =
    Some (false, s, [Log LError "'period' parameter is not a double value"]).
Proof.
  intros Hp _. unfold open, check, find. rewrite Hp. reflexivity.
Qed.

Lemma open_rejects_integer_period_witness :
  config_integer_period !! "period" = Some (VInt 1) /\
  (0 < 1)%Z /\
  open sim_env config_integer_period ControlBoard_nws_ros2 =
    Some (false, ControlBoard_nws_ros2,
          [Log LError "'period' parameter is not a double value"]).
Proof.
  assert (H : config_integer_period !! "period" = Some (VInt 1))
    by (vm_compute; reflexivity).
  split; [exact H|]. split; [lia|].
  exact (open_rejects_integer_period sim_env _ ControlBoard_nws_ros2 1 H
           ltac:(lia)).
Defined.

(** ** setDevice and updateAxisName *)

Lemma collectAxisNames_length (ax : IAxisInfo) (n i : nat)
    (acc v : list string) :
  collectAxisNames ax n i acc = inr v -> length v = length acc + n.
Proof.
  revert i acc. induction n as [|n IH]; intros i acc H; simpl in H.
  - injection H as <-. lia.
  - destruct (getAxisName ax i) as [tmp|]; [|discriminate].
    apply IH in H. rewrite length_app in H. simpl in H. lia.
Qed.

Lemma collectAxisNames_fails (ax : IAxisInfo) (n i j : nat)
    (acc : list string) :
  i <= j < i + n -> getAxisName ax j = None ->
  exists k, collectAxisNames ax n i acc = inl k.
Proof.
  revert i acc. induction n as [|n IH]; intros i acc Hj Hnone; [lia|].
  simpl. destruct (getAxisName ax i) as [tmp|] eqn:Hi.
  - apply IH; [|exact Hnone].
    destruct (decide (i = j)) as [->|]; [congruence | lia].
  - eexists. reflexivity.
Qed.

Lemma collectAxisNames_succeeds (ax : IAxisInfo) (n i : nat)
    (acc : list string) :
  (forall j, i <= j < i + n -> is_Some (getAxisName ax j)) ->
  exists v, collectAxisNames ax n i acc = inr v.
Proof.
  revert i acc. induction n as [|n IH]; intros i acc Hall; simpl.
  - eexists. reflexivity.
  - destruct (Hall i ltac:(lia)) as [tmp ->].
    apply IH. intros j Hj. apply Hall. lia.
Qed.

Lemma updateAxisName_eq (s : ControlBoard) (ax : IAxisInfo) :
  iAxisInfo s = Some ax ->
  updateAxisName s =
    match collectAxisNames ax (subdevice_joints s) 0 [] with
    | inl i =>
        Some (false, s,
              [Logf LError "Joint name for axis %zu not found!" [ASize i]])
    | inr tmpVect => Some (true, set_jointNames tmpVect s, [])
    end.
Proof.
  intros Hax. unfold updateAxisName. exec. rewrite Hax.
  destruct (collectAxisNames ax (subdevice_joints s) 0 []) as [i|v] eqn:Hc.
  - reflexivity.
  - apply collectAxisNames_length in Hc. simpl in Hc.
    rewrite bool_decide_eq_true_2 by exact Hc. reflexivity.
Qed.

(** [setDevice] on a device that has the mandatory interfaces and a
    positive joint count: everything hinges on the joint names. *)
Lemma setDevice_names (driver : PolyDriver) (owned : bool) (s : ControlBoard)
    (pc : IPositionControl) (enc : IEncodersTimed) (ax : IAxisInfo) (n : Z) :
  view impl_IPositionControl driver = Some pc ->
  view impl_IEncodersTimed driver = Some enc ->
  view impl_IAxisInfo driver = Some ax ->
  getAxes pc = Some n -> (0 < n)%Z ->
  setDevice driver owned s =
    match collectAxisNames ax (Z.to_nat n) 0 [] with
    | inl i =>
        Some (false, sized (Z.to_nat n) (viewed driver owned s),
              torque_warning driver s ++
              [Logf LError "Joint name for axis %zu not found!" [ASize i]])
    | inr tmpVect =>
        Some (true,
              set_jointNames tmpVect
                (sized (Z.to_nat n) (viewed driver owned s)),
              torque_warning driver s)
    end.
Proof.
  intros Hpc Henc Hax Hn Hpos.
  unfold setDevice, torque_warning. exec.
  rewrite Hpc, Henc, Hax, Hn. simpl.
  destruct (n <=? 0)%Z eqn:Hle; [lia|].
  destruct (view impl_ITorqueControl driver) as [trq|] eqn:Htrq; simpl;
    match goal with
    | |- context [updateAxisName ?st] =>
        rewrite (updateAxisName_eq st ax) by reflexivity
    end;
    unfold viewed, sized; rewrite Hpc, Henc, Hax, Htrq; simpl;
    destruct (collectAxisNames ax (Z.to_nat n) 0 []) as [i|v];
    simpl; reflexivity.
Qed.

(** [setDevice] never aborts; it stores the device and the ownership flag,
    only logs, and leaves the thread and the configuration alone. *)
Lemma setDevice_frame (driver : PolyDriver) (owned : bool) (s : ControlBoard) :
  exists r s' ev,
    setDevice driver owned s = Some (r, s', ev) /\
    bind_frame s s' /\
    subdevice_ptr s' = Some driver /\ subdevice_owned s' = owned /\
    forallb is_log ev = true.
Proof.
  destruct (view impl_IPositionControl driver) as [pc|] eqn:Hpc;
    [destruct (view impl_IEncodersTimed driver) as [enc|] eqn:Henc;
      [destruct (view impl_IAxisInfo driver) as [ax|] eqn:Hax;
        [destruct (getAxes pc) as [n|] eqn:Hn;
          [destruct (n <=? 0)%Z eqn:Hle|]|]|]|].
  6: { unfold setDevice. exec. rewrite Hpc. simpl.
       eexists _, _, _. split; [reflexivity|]. repeat split. }
  5: { unfold setDevice. exec. rewrite Hpc, Henc. simpl.
       eexists _, _, _. split; [reflexivity|]. repeat split. }
  4: { unfold setDevice. exec. rewrite Hpc, Henc, Hax. simpl.
       destruct (view impl_ITorqueControl driver); simpl;
         (eexists _, _, _; split; [reflexivity|]; repeat split). }
  3: { unfold setDevice. exec. rewrite Hpc, Henc, Hax, Hn. simpl.
       destruct (view impl_ITorqueControl driver); simpl;
         (eexists _, _, _; split; [reflexivity|]; repeat split). }
  1: { unfold setDevice. exec. rewrite Hpc, Henc, Hax, Hn, Hle. simpl.
       destruct (view impl_ITorqueControl driver); simpl;
         (eexists _, _, _; split; [reflexivity|]; repeat split). }
  rewrite (setDevice_names driver owned s pc enc ax n) by (assumption || lia).
  unfold torque_warning.
  destruct (collectAxisNames ax (Z.to_nat n) 0 []) as [i|v];
    destruct (view impl_ITorqueControl driver); simpl;
    (eexists _, _, _; split; [reflexivity|]; repeat split).
Qed.

(** C5: [setDevice] fails when the position, timed-encoder or axis-info
    interface is missing, and then the Sample Buffer is exactly what it was
    (nothing is resized); it fails when the device reports zero or fewer
    joints; and a device that only lacks the torque interface is bound
    successfully. *)
Theorem setDevice_capabilities
    (driver : PolyDriver) (owned : bool) (s : ControlBoard) :
  (view impl_IPositionControl driver = None \/
   view impl_IEncodersTimed driver = None \/
   view impl_IAxisInfo driver = None ->
   exists s' ev,
     setDevice driver owned s = Some (false, s', ev) /\
     sample_buffer s' = sample_buffer s) /\
  (forall pc n,
     view impl_IPositionControl driver = Some pc ->
     getAxes pc = Some n -> (n <= 0)%Z ->
     exists s' ev, setDevice driver owned s = Some (false, s', ev)) /\
  (forall pc enc ax n,
     view impl_IPositionControl driver = Some pc ->
     view impl_IEncodersTimed driver = Some enc ->
     view impl_IAxisInfo driver = Some ax ->
     view impl_ITorqueControl driver = None ->
     getAxes pc = Some n -> (0 < n)%Z ->
     (forall i, i < Z.to_nat n -> is_Some (getAxisName ax i)) ->
     exists s' ev, setDevice driver owned s = Some (true, s', ev)).
Proof.
  split; [|split].
  - intros Hmiss. unfold setDevice. exec.
    destruct (view impl_IPositionControl driver) as [pc|] eqn:Hpc; simpl;
      [|eexists _, _; split; reflexivity].
    destruct (view impl_IEncodersTimed driver) as [enc|] eqn:Henc; simpl;
      [|eexists _, _; split; reflexivity].
    destruct (view impl_IAxisInfo driver) as [ax|] eqn:Hax;
      [destruct Hmiss as [H|[H|H]]; discriminate H|].
    destruct (view impl_ITorqueControl driver); simpl;
      (eexists _, _; split; reflexivity).
  - intros pc n Hpc Hn Hle. unfold setDevice. exec. rewrite Hpc. simpl.
    destruct (view impl_IEncodersTimed driver) as [enc|]; simpl;
      [|eexists _, _; reflexivity].
    destruct (view impl_IAxisInfo driver) as [ax|];
      destruct (view impl_ITorqueControl driver); simpl;
      try (eexists _, _; reflexivity);
      rewrite Hn; apply Z.leb_le in Hle; rewrite Hle; simpl;
      eexists _, _; reflexivity.
  - intros pc enc ax n Hpc Henc Hax Htrq Hn Hpos Hnames.
    rewrite (setDevice_names driver owned s pc enc ax n) by assumption.
    destruct (collectAxisNames_succeeds ax (Z.to_nat n) 0 []) as [v Hv].
    { intros j Hj. apply Hnames. lia. }
    rewrite Hv. eexists _, _. reflexivity.
Qed.

Lemma setDevice_capabilities_witness :
  (exists s' ev,
     setDevice bare_poly false ControlBoard_nws_ros2 = Some (false, s', ev) /\
     sample_buffer s' = sample_buffer ControlBoard_nws_ros2) /\
  (exists s' ev,
     setDevice jointless_poly false ControlBoard_nws_ros2
       = Some (false, s', ev)) /\
  (exists s' ev,
     setDevice torqueless_poly false ControlBoard_nws_ros2
       = Some (true, s', ev)).
Proof.
  split; [|split].
  - apply (proj1 (setDevice_capabilities bare_poly false
                    ControlBoard_nws_ros2)).
    left. reflexivity.
  - apply (proj1 (proj2 (setDevice_capabilities jointless_poly false
                           ControlBoard_nws_ros2))
             {| getAxes := Some 0%Z |} 0%Z); [reflexivity|reflexivity|lia].
  - eapply (proj2 (proj2 (setDevice_capabilities torqueless_poly false
                            ControlBoard_nws_ros2))
              _ _ _ 3%Z); [reflexivity..|lia|].
    intros i Hi.
    do 3 (destruct i as [|i]; [eexists; reflexivity|]).
    simpl in Hi. lia.
Defined.

Lemma length_resize {A : Type} (d : A) (n : nat) (l : list A) :
  length (resize d n l) = n.
Proof.
  unfold resize. rewrite length_app, length_take, length_replicate. lia.
Qed.

(** C6 (as the code has it): when the name query of some joint fails,
    [setDevice] returns failure and the Joint Name Table keeps the contents
    it had before the call, so the names collected so far are dropped.
    What the bind stored before reaching the names stays: the device, the
    ownership flag, the capability references, the joint count and the
    Sample Buffer resized to that count. *)
Theorem setDevice_name_failure
    (driver : PolyDriver) (owned : bool) (s : ControlBoard)
    (pc : IPositionControl) (enc : IEncodersTimed) (ax : IAxisInfo)
    (n : Z) (i : nat) :
  view impl_IPositionControl driver = Some pc ->
  view impl_IEncodersTimed driver = Some enc ->
  view impl_IAxisInfo driver = Some ax ->
  getAxes pc = Some n -> (0 < n)%Z ->
  i < Z.to_nat n -> getAxisName ax i = None ->
  exists s' ev,
    setDevice driver owned s = Some (false, s', ev) /\
    jointNames s' = jointNames s /\
    binding s' =
      (Some driver, owned, Z.to_nat n, subdevice_ready s,
       Some pc, Some enc, view impl_ITorqueControl driver, Some ax) /\
    length (times s') = Z.to_nat n /\
    length (position (ros_struct s')) = Z.to_nat n /\
    length (velocity (ros_struct s')) = Z.to_nat n /\
    length (effort (ros_struct s')) = Z.to_nat n.
Proof.
  intros Hpc Henc Hax Hn Hpos Hi Hnone.
  rewrite (setDevice_names driver owned s pc enc ax n) by assumption.
  destruct (collectAxisNames_fails ax (Z.to_nat n) 0 i []) as [k Hk];
    [lia | exact Hnone |].
  rewrite Hk. eexists _, _. split; [reflexivity|].
  unfold binding, sized, viewed. simpl.
  rewrite Hpc, Henc, Hax, !length_resize. repeat split.
Qed.

Lemma setDevice_name_failure_witness :
  exists s' ev,
    setDevice nameless_poly false ControlBoard_nws_ros2
      = Some (false, s', ev) /\
    jointNames s' = jointNames ControlBoard_nws_ros2 /\
    binding s' =
      (Some nameless_poly, false, Z.to_nat 2,
       subdevice_ready ControlBoard_nws_ros2,
       impl_IPositionControl nameless, impl_IEncodersTimed nameless,
       view impl_ITorqueControl nameless_poly, impl_IAxisInfo nameless) /\
    length (times s') = Z.to_nat 2 /\
    length (position (ros_struct s')) = Z.to_nat 2 /\
    length (velocity (ros_struct s')) = Z.to_nat 2 /\
    length (effort (ros_struct s')) = Z.to_nat 2.
Proof.
  eapply (setDevice_name_failure nameless_poly false ControlBoard_nws_ros2
            _ _ _ 2%Z 1);
    [reflexivity | reflexivity | reflexivity | reflexivity | lia
    | simpl; lia | reflexivity].
Defined.

(** C6, the claim as written fails: the second joint of [nameless] has no
    name, [setDevice] returns failure, and the object is not back where it
    was: the device, its interfaces, the joint count 2 and two-element
    buffers are still there. *)
Lemma setDevice_name_failure_not_rolled_back :
  getAxisName nameless_ax 1 = None /\
  Unbound ControlBoard_nws_ros2 /\
  exists s' ev,
    setDevice nameless_poly false ControlBoard_nws_ros2
      = Some (false, s', ev) /\
    ~ Unbound s' /\
    subdevice_ptr s' = Some nameless_poly /\
    subdevice_joints s' = 2 /\
    is_Some (iEncodersTimed s') /\ is_Some (iAxisInfo s') /\
    times s' = [0; 0]%float /\
    position (ros_struct s') = [0; 0]%float.
Proof.
  split; [reflexivity|]. split; [repeat split|].
  eexists _, _. split; [vm_compute; reflexivity|].
  split; [|repeat split; eexists; reflexivity].
  intros (H & _). discriminate H.
Qed.

(** ** open and attach *)

Lemma forallb_log_or_open (ev : list Event) :
  forallb is_log ev = true -> forallb is_log_or_open ev = true.
Proof.
  induction ev as [|e ev IH]; [reflexivity|]. simpl.
  intros H. apply andb_true_iff in H as [He Hrest].
  unfold is_log_or_open at 1. rewrite He, (IH Hrest). reflexivity.
Qed.

Lemma openAndAttachSubDevice_frame (env : Env) (prop : Property)
    (s : ControlBoard) :
  exists r s' ev,
    openAndAttachSubDevice env prop s = Some (r, s', ev) /\
    bind_frame s s' /\
    forallb is_log_or_open ev = true /\
    (owned_is_bound s -> owned_is_bound s') /\
    (r = true -> subdevice_owned s' = true).
Proof.
  unfold openAndAttachSubDevice. exec.
  destruct (isValid _) eqn:Hv; simpl.
  - destruct (setDevice_frame
      {| poly_id := fresh_id env;
         poly_dd := plugins env
           (<["device" := VString (asString (find prop "subdevice"))]>
              (delete "device" prop)) |} true s)
      as (r & s' & ev & Heq & Hframe & Hptr & Hown & Hlog).
    rewrite Heq. eexists _, _, _. split; [reflexivity|].
    split; [exact Hframe|].
    split; [simpl; apply forallb_log_or_open; exact Hlog|].
    split; [intros _ _; rewrite Hptr; eexists; reflexivity|].
    intros _. exact Hown.
  - eexists _, _, _. split; [reflexivity|].
    split; [repeat split|]. split; [reflexivity|].
    split; [tauto | discriminate].
Qed.

(** The tail of [open] leaves the binding alone; when a name is missing it
    fails before the publisher is created and the thread started. *)
Lemma open_names_frame (env : Env) (config : Property) (s : ControlBoard) :
  exists r s' ev,
    open_names env config s = Some (r, s', ev) /\
    binding s' = binding s /\ sample_buffer s' = sample_buffer s /\
    jointNames s' = jointNames s /\ period s' = period s /\
    (config !! "nodeName" = None \/ config !! "topicName" = None ->
     r = false /\ running s' = running s /\
     thread_period s' = thread_period s /\
     m_publisher s' = m_publisher s /\ forallb is_log_or_open ev = true).
Proof.
  unfold open_names, check, start. exec.
  destruct (config !! "nodeName") as [vn|] eqn:Hn; simpl.
  2: { eexists _, _, _. split; [reflexivity|]. repeat split. }
  destruct (config !! "topicName") as [vt|] eqn:Ht; simpl.
  2: { eexists _, _, _. split; [reflexivity|]. repeat split. }
  destruct (subdevice_ready s) eqn:Hr; [destruct (start_ok env)|]; simpl;
    (eexists _, _, _; split; [reflexivity|];
     unfold binding, sample_buffer; simpl; rewrite ?Hr;
     do 4 (split; [reflexivity|]); intros [H|H]; discriminate H).
Qed.

Lemma binding_owned_is_bound (s s' : ControlBoard) :
  binding s' = binding s -> owned_is_bound s -> owned_is_bound s'.
Proof.
  unfold binding, owned_is_bound. intros H Hinv Ho.
  injection H as Hp Hown _ _ _ _ _ _. rewrite Hp. apply Hinv. congruence.
Qed.

Lemma open_subdevice_frame (env : Env) (config : Property)
    (s : ControlBoard) :
  exists r s' ev,
    open_subdevice env config s = Some (r, s', ev) /\
    period s' = period s /\
    (owned_is_bound s -> owned_is_bound s') /\
    (config !! "subdevice" = None ->
     binding s' = binding s /\ sample_buffer s' = sample_buffer s /\
     jointNames s' = jointNames s) /\
    (config !! "nodeName" = None \/ config !! "topicName" = None ->
     r = false /\ running s' = running s /\
     thread_period s' = thread_period s /\
     m_publisher s' = m_publisher s /\ forallb is_log_or_open ev = true) /\
    (is_Some (config !! "subdevice") -> r = true ->
     subdevice_ready s' = true /\ subdevice_owned s' = true).
Proof.
  unfold open_subdevice, check. exec.
  destruct (config !! "subdevice") as [v|] eqn:Hsub; simpl.
  - destruct (openAndAttachSubDevice_frame env config s)
      as (r1 & s1 & e1 & Heq1 & Hf1 & Hlog1 & Hinv1 & Hown1).
    rewrite Heq1. destruct Hf1 as (Hrun & Hthr & Hcfg & Hrdy & _ & _).
    unfold configuration in Hcfg. injection Hcfg as Hper _ _ Hpub.
    destruct r1; simpl.
    + destruct (open_names_frame env config (set_subdevice_ready true s1))
        as (r2 & s2 & e2 & Heq2 & Hb2 & _ & _ & Hper2 & Hmiss2).
      rewrite Heq2. eexists _, _, _. split; [reflexivity|].
      split; [simpl in Hper2; congruence|].
      split.
      { intros Hinv. apply (binding_owned_is_bound _ _ Hb2).
        intros Ho. apply (Hinv1 Hinv). exact Ho. }
      split; [discriminate|].
      split.
      { intros Hm. destruct (Hmiss2 Hm) as (-> & Hr2 & Ht2 & Hp2 & Hl2).
        simpl in Hr2, Ht2, Hp2.
        repeat split; try congruence.
        rewrite forallb_app, Hlog1, Hl2. reflexivity. }
      intros _ _. unfold binding in Hb2. simpl in Hb2.
      injection Hb2 as _ Ho _ Hr _ _ _ _.
      rewrite Hr, Ho. split; [reflexivity | apply Hown1; reflexivity].
    + eexists _, _, _. split; [reflexivity|].
      split; [exact Hper|]. split; [exact Hinv1|].
      split; [discriminate|].
      split; [|discriminate].
      intros _. repeat split; try assumption.
      rewrite forallb_app, Hlog1. reflexivity.
  - destruct (open_names_frame env config s)
      as (r2 & s2 & e2 & Heq2 & Hb2 & Hbuf2 & Hjn2 & Hper2 & Hmiss2).
    rewrite Heq2. eexists _, _, _. split; [reflexivity|].
    split; [exact Hper2|].
    split; [apply binding_owned_is_bound; exact Hb2|].
    split; [intros _; repeat split; assumption|].
    split; [exact Hmiss2|].
    intros [x Hx]. discriminate Hx.
Qed.

Lemma Closed_frame (s s' : ControlBoard) :
  binding s' = binding s -> sample_buffer s' = sample_buffer s ->
  running s' = running s -> Closed s -> Closed s'.
Proof.
  unfold binding, sample_buffer, Closed, Unbound.
  intros Hb Hbuf Hr (Hrun & H). 
  injection Hb as -> -> -> -> -> -> -> ->. injection Hbuf as -> _.
  rewrite Hr. split; assumption.
Qed.

(** [open] never aborts.  What it does to the object, stage by stage. *)
Lemma open_frame (env : Env) (config : Property) (s : ControlBoard) :
  exists r s' ev,
    open env config s = Some (r, s', ev) /\
    (owned_is_bound s -> owned_is_bound s') /\
    (is_Some (config !! "subdevice") -> r = true ->
     subdevice_ready s' = true /\ subdevice_owned s' = true) /\
    (bad_config config ->
     r = false /\ running s' = running s /\
     thread_period s' = thread_period s /\
     m_publisher s' = m_publisher s /\ forallb is_log_or_open ev = true) /\
    (bad_period config \/ config !! "subdevice" = None ->
     binding s' = binding s /\ sample_buffer s' = sample_buffer s /\
     jointNames s' = jointNames s).
Proof.
  unfold open, check, find, bad_config, bad_period. exec.
  destruct (config !! "period") as [v|] eqn:Hp; simpl.
  - destruct (isFloat64 v) eqn:Hf; simpl.
    + destruct v as [|z|d|str]; try discriminate Hf. simpl.
      destruct (d <=? 0)%float eqn:Hle; simpl.
      * eexists _, _, _. split; [reflexivity|].
        split; [intros H; exact H|]. split; [discriminate|].
        split; repeat split.
      * destruct (open_subdevice_frame env config (set_period d s))
          as (r & s' & ev & Heq & Hper & Hinv & Hnosub & Hmiss & Hsub).
        rewrite Heq. eexists _, _, _. split; [reflexivity|].
        split; [exact Hinv|]. split; [exact Hsub|].
        split.
        { intros [Hn|[Ht|(v' & Hv' & Hbad)]].
          - apply Hmiss. left. exact Hn.
          - apply Hmiss. right. exact Ht.
          - injection Hv' as <-. simpl in Hbad.
            destruct Hbad; congruence. }
        intros [(v' & Hv' & Hbad)|Hns].
        { injection Hv' as <-. simpl in Hbad. destruct Hbad; congruence. }
        apply Hnosub. exact Hns.
    + eexists _, _, _. split; [reflexivity|].
      split; [intros H; exact H|]. split; [discriminate|].
      split; repeat split.
  - destruct (open_subdevice_frame env config (set_period default_period s))
      as (r & s' & ev & Heq & Hper & Hinv & Hnosub & Hmiss & Hsub).
    rewrite Heq. eexists _, _, _. split; [reflexivity|].
    split; [exact Hinv|]. split; [exact Hsub|].
    split.
    { intros [Hn|[Ht|(v' & Hv' & Hbad)]].
      - destruct (Hmiss (or_introl Hn)) as (-> & ? & ? & ? & ?).
        repeat split; assumption.
      - destruct (Hmiss (or_intror Ht)) as (-> & ? & ? & ? & ?).
        repeat split; assumption.
      - discriminate Hv'. }
    intros [(v' & Hv' & Hbad)|Hns]; [discriminate Hv'|].
    apply Hnosub. exact Hns.
Qed.

(** C4 (as the code has it): the guard of [attach] is the flag
    [subdevice_ready], which only [open] sets, after it created and bound
    its own subdevice.  With the flag set, in particular after every
    successful [open] of a configuration naming a subdevice, [attach]
    returns false and leaves the object, binding included, as it was. *)
Theorem attach_after_subdevice
    (env : Env) (poly : PolyDriver) (s : ControlBoard) :
  (subdevice_ready s = true -> attach env poly s = Some (false, s, [])) /\
  (forall env0 config s0 ev,
     is_Some (config !! "subdevice") ->
     open env0 config s0 = Some (true, s, ev) ->
     attach env poly s = Some (false, s, [])).
Proof.
  assert (Hguard :
    subdevice_ready s = true -> attach env poly s = Some (false, s, [])).
  { intros Hr. unfold attach. exec. rewrite Hr. reflexivity. }
  split; [exact Hguard|].
  intros env0 config s0 ev Hsub Hopen. apply Hguard.
  destruct (open_frame env0 config s0)
    as (r & s' & ev' & Heq & _ & Hready & _ & _).
  rewrite Heq in Hopen. injection Hopen as -> -> _.
  apply Hready; [exact Hsub | reflexivity].
Qed.

Lemma attach_after_subdevice_witness :
  let s := after (CallOpen sim_env config_subdevice) ControlBoard_nws_ros2 in
  let poly := board_poly 2 VOCAB_JOINTTYPE_PRISMATIC [1; 2; 3]%float in
  (subdevice_ready s = true /\ attach sim_env poly s = Some (false, s, [])) /\
  (is_Some (config_subdevice !! "subdevice") /\
   (exists ev, open sim_env config_subdevice ControlBoard_nws_ros2
               = Some (true, s, ev)) /\
   attach sim_env poly s = Some (false, s, [])).
Proof.
  intros s poly.
  assert (Hr : subdevice_ready s = true) by (vm_compute; reflexivity).
  assert (Hs : is_Some (config_subdevice !! "subdevice"))
    by (vm_compute; eexists; reflexivity).
  assert (Ho : open sim_env config_subdevice ControlBoard_nws_ros2
               = Some (true, s, effects (open sim_env config_subdevice
                                           ControlBoard_nws_ros2)))
    by (vm_compute; reflexivity).
  split.
  - split; [exact Hr|].
    exact (proj1 (attach_after_subdevice sim_env poly s) Hr).
  - split; [exact Hs|]. split; [eexists; exact Ho|].
    exact (proj2 (attach_after_subdevice sim_env poly s) _ _ _ _ Hs Ho).
Defined.

(** C4, the claim as written fails.  [attach] itself never sets the guard
    flag: after an external attach of device 1, a further [attach] of
    device 2 is not rejected by the guard and binds the controller to
    device 2, whether the thread start that follows succeeds (the call
    returns true) or not. *)
Lemma second_attach_rebinds :
  let d1 := board_poly 1 VOCAB_JOINTTYPE_PRISMATIC [1; 2; 3]%float in
  let d2 := board_poly 2 VOCAB_JOINTTYPE_PRISMATIC [1; 2; 3]%float in
  exists s1 s2 ev2 s2' ev2',
    attach sim_env d1 ControlBoard_nws_ros2 = Some (true, s1, [ThreadStart]) /\
    poly_id <$> subdevice_ptr s1 = Some 1 /\
    subdevice_ready s1 = false /\
    attach sim_env d2 s1 = Some (true, s2, ev2) /\
    poly_id <$> subdevice_ptr s2 = Some 2 /\
    attach stalled_env d2 s1 = Some (false, s2', ev2') /\
    poly_id <$> subdevice_ptr s2' = Some 2.
Proof.
  intros d1 d2.
  exists (after (CallAttach sim_env d1) ControlBoard_nws_ros2).
  eexists _, _, _, _.
  split; [vm_compute; reflexivity|].
  split; [vm_compute; reflexivity|].
  split; [vm_compute; reflexivity|].
  split; [vm_compute; reflexivity|].
  split; [vm_compute; reflexivity|].
  split; vm_compute; reflexivity.
Qed.

(** ** run *)

(** [run] aborts only on its two assertions.  Otherwise it publishes one
    message, whatever the reads reported. *)
Lemma run_eq (c : Cycle) (s : ControlBoard)
    (enc : IEncodersTimed) (ax : IAxisInfo) :
  iEncodersTimed s = Some enc -> iAxisInfo s = Some ax ->
  run c s = Some (tt, sampled c enc ax s, [Publish (m_publisher s) (outgoing c enc ax s)]).
Proof.
  intros Henc Hax.
  unfold run, sampled, outgoing, converted, sample_mean, raw_effort,
    raw_position, raw_times, raw_velocity.
  exec. rewrite Henc, Hax.
  destruct (getEncodersTimed enc (cyc_instant c)) as [[positionsOk wpos] wtimes].
  destruct (getEncoderSpeeds enc (cyc_instant c)) as [speedsOk wvel].
  simpl.
  destruct (iTorqueControl s) as [trq|];
    [destruct (getTorques trq (cyc_instant c)) as [torqueOk weff]|];
    simpl;
    destruct (convertLoop ax (subdevice_joints s) 0 (cyc_jType c)
                (poke wpos (position (ros_struct s)))
                (poke wvel (velocity (ros_struct s)))) as [pos vel];
    simpl; reflexivity.
Qed.

Lemma run_aborts (c : Cycle) (s : ControlBoard) :
  iEncodersTimed s = None \/ iAxisInfo s = None -> run c s = None.
Proof.
  intros H. unfold run. exec.
  destruct (iEncodersTimed s), (iAxisInfo s); try reflexivity.
  destruct H; discriminate.
Qed.



Lemma length_poke (w : Writes) (buf : list double) :
  length (poke w buf) = length buf.
Proof. unfold poke. apply length_imap. Qed.

(** The loop started at [i] does not touch the indices below [i]. *)
Lemma convertLoop_before (ax : IAxisInfo) (n i : nat) (jType : JointTypeEnum)
    (pos vel : list double) (j : nat) :
  j < i ->
  (convertLoop ax n i jType pos vel).1 !! j = pos !! j /\
  (convertLoop ax n i jType pos vel).2 !! j = vel !! j.
Proof.
  revert i jType pos vel.
  induction n as [|n IH]; intros i jType pos vel Hj; simpl; [tauto|].
  destruct (is_revolute (default jType (getJointType ax i))).
  - destruct (IH (S i) (default jType (getJointType ax i))
                (alter convertDegreesToRadians i pos)
                (alter convertDegreesToRadians i vel) ltac:(lia))
      as [-> ->].
    rewrite !list_lookup_alter_ne by lia. tauto.
  - apply IH. lia.
Qed.

(** A joint that [getJointType] classifies is converted exactly when it is
    revolute, whatever the classification left in [jType] before. *)
Lemma convertLoop_lookup (ax : IAxisInfo) (n i : nat) (jType : JointTypeEnum)
    (pos vel : list double) (j : nat) (t : JointTypeEnum) :
  i <= j < i + n -> getJointType ax j = Some t ->
  (convertLoop ax n i jType pos vel).1 !! j = to_ros t <$> pos !! j /\
  (convertLoop ax n i jType pos vel).2 !! j = to_ros t <$> vel !! j.
Proof.
  revert i jType pos vel.
  induction n as [|n IH]; intros i jType pos vel Hj Ht; [lia|].
  simpl. destruct (decide (i = j)) as [->|Hne].
  - rewrite Ht. simpl. unfold to_ros.
    destruct (is_revolute t).
    + destruct (convertLoop_before ax n (S j) t
                  (alter convertDegreesToRadians j pos)
                  (alter convertDegreesToRadians j vel) j ltac:(lia))
        as [-> ->].
      rewrite !list_lookup_alter_eq. tauto.
    + destruct (convertLoop_before ax n (S j) t pos vel j ltac:(lia))
        as [-> ->].
      destruct (pos !! j), (vel !! j); simpl; tauto.
  - destruct (is_revolute (default jType (getJointType ax i))).
    + destruct (IH (S i) (default jType (getJointType ax i))
                  (alter convertDegreesToRadians i pos)
                  (alter convertDegreesToRadians i vel) ltac:(lia) Ht)
        as [-> ->].
      rewrite !list_lookup_alter_ne by exact Hne. tauto.
    + apply IH; [lia | exact Ht].
Qed.




(** [run] stores the mean of the per-joint timestamps in the envelope
    [time], and stamps the message with the reading of the node clock. *)
Lemma run_mean_and_stamp
    (c : Cycle) (s : ControlBoard) (enc : IEncodersTimed) (ax : IAxisInfo) :
  iEncodersTimed s = Some enc -> iAxisInfo s = Some ax ->
  exists s' msg,
    run c s = Some (tt, s', [Publish (m_publisher s) msg]) /\
    stamp_time (time s') =
      (accumulate (raw_times c enc s)
       / double_of_size (subdevice_joints s))%float /\
    header_stamp msg = cyc_clock c.
Proof.
  intros Henc Hax. rewrite (run_eq c s enc ax Henc Hax).
  eexists _, _. split; [reflexivity|]. split; reflexivity.
Qed.

(** C1, evaluated: with per-joint timestamps [1; 2; 3] the mean 2 is
    computed and kept in the envelope [time], and with [10; 20; 30] the
    mean 20; both messages are stamped 5000000000, the reading of the node
    clock, and at another reading of the clock the stamp follows the clock.
    The stamp of the published message is not the representative
    timestamp. *)
Theorem run_stamp_is_clock_not_mean :
  exists s1 msg1 s2 msg2 s3 msg3,
    run cycle0 (attached VOCAB_JOINTTYPE_PRISMATIC [1; 2; 3]%float)
      = Some (tt, s1, [Publish (Some "/joint_states") msg1]) /\
    run cycle0 (attached VOCAB_JOINTTYPE_PRISMATIC [10; 20; 30]%float)
      = Some (tt, s2, [Publish (Some "/joint_states") msg2]) /\
    run {| cyc_instant := 0; cyc_clock := 7000000000;
           cyc_jType := VOCAB_JOINTTYPE_UNKNOWN |}
        (attached VOCAB_JOINTTYPE_PRISMATIC [1; 2; 3]%float)
      = Some (tt, s3, [Publish (Some "/joint_states") msg3]) /\
    stamp_time (time s1) = 2%float /\
    stamp_time (time s2) = 20%float /\
    stamp_time (time s3) = 2%float /\
    header_stamp msg1 = 5000000000%Z /\
    header_stamp msg2 = 5000000000%Z /\
    header_stamp msg3 = 7000000000%Z.
Proof.
  eexists _, _, _, _, _, _.
  split; [vm_compute; reflexivity|].
  split; [vm_compute; reflexivity|].
  split; [vm_compute; reflexivity|].
  repeat split; vm_compute; reflexivity.
Qed.

(** ** Reachable objects *)

(** [attach] never aborts and keeps the assertion of [closeDevice]. *)
Lemma attach_frame (env : Env) (poly : PolyDriver) (s : ControlBoard) :
  exists r s' ev,
    attach env poly s = Some (r, s', ev) /\
    (owned_is_bound s -> owned_is_bound s').
Proof.
  unfold attach, start. exec.
  destruct (subdevice_ready s).
  { eexists _, _, _. split; [reflexivity | tauto]. }
  destruct (setDevice_frame poly false s)
    as (r & s1 & e1 & Heq & _ & Hptr & _ & _).
  rewrite Heq.
  assert (Hb : owned_is_bound s1)
    by (intros _; rewrite Hptr; eexists; reflexivity).
  destruct r; simpl; [destruct (start_ok env); simpl|];
    (eexists _, _, _; split; [reflexivity|]; intros _; exact Hb).
Qed.

Lemma attachAll_frame (env : Env) (p : list (string * PolyDriver))
    (s : ControlBoard) :
  exists r s' ev,
    attachAll env p s = Some (r, s', ev) /\
    (owned_is_bound s -> owned_is_bound s').
Proof.
  unfold attachAll. exec.
  destruct p as [|[key poly] [|q p]].
  - eexists _, _, _. split; [reflexivity | tauto].
  - destruct (isValid poly); simpl.
    + apply attach_frame.
    + eexists _, _, _. split; [reflexivity | tauto].
  - eexists _, _, _. split; [reflexivity | tauto].
Qed.

Lemma perform_owned_is_bound (c : Call) (s s' : ControlBoard)
    (r : bool) (ev : list Event) :
  owned_is_bound s -> perform c s = Some (r, s', ev) -> owned_is_bound s'.
Proof.
  intros Hinv Hstep. destruct c as [env config| |env poly|env p| | |c]; simpl in Hstep.
  - destruct (open_frame env config s) as (r0 & s0 & e0 & Heq & Hkeep & _).
    rewrite Heq in Hstep. injection Hstep as _ <- _. exact (Hkeep Hinv).
  - rewrite (close_eq s Hinv) in Hstep. injection Hstep as _ <- _.
    apply released_owned_is_bound.
  - destruct (attach_frame env poly s) as (r0 & s0 & e0 & Heq & Hkeep).
    rewrite Heq in Hstep. injection Hstep as _ <- _. exact (Hkeep Hinv).
  - destruct (attachAll_frame env p s) as (r0 & s0 & e0 & Heq & Hkeep).
    rewrite Heq in Hstep. injection Hstep as _ <- _. exact (Hkeep Hinv).
  - rewrite detach_eq in Hstep. destruct (subdevice_owned s).
    + injection Hstep as _ <- _. exact Hinv.
    + injection Hstep as _ <- _. apply released_owned_is_bound.
  - unfold detachAll in Hstep. rewrite detach_eq in Hstep.
    destruct (subdevice_owned s).
    + injection Hstep as _ <- _. exact Hinv.
    + injection Hstep as _ <- _. apply released_owned_is_bound.
  - unfold bind, ret in Hstep.
    destruct (iEncodersTimed s) as [enc|] eqn:Henc;
      [destruct (iAxisInfo s) as [ax|] eqn:Hax|].
    + rewrite (run_eq c s enc ax Henc Hax) in Hstep.
      injection Hstep as _ <- _. exact Hinv.
    + rewrite (run_aborts c s) in Hstep by (right; exact Hax).
      discriminate Hstep.
    + rewrite (run_aborts c s) in Hstep by (left; exact Henc).
      discriminate Hstep.
Qed.

(** In every object the host can reach, an owned device is bound: the
    assertion of [closeDevice] never fails, and [close] always returns. *)
Lemma reachable_owned_is_bound (s : ControlBoard) :
  reachable s -> owned_is_bound s.
Proof.
  induction 1 as [|s c r s' ev _ IH _ Hstep].
  - intros H. discriminate H.
  - exact (perform_owned_is_bound c s s' r ev IH Hstep).
Qed.

Lemma reachable_close_returns (s : ControlBoard) :
  reachable s -> exists s' ev, close s = Some (true, s', ev) /\ Closed s'.
Proof.
  intros Hs. rewrite (close_eq s (reachable_owned_is_bound s Hs)).
  eexists _, _. split; [reflexivity|].
  split; [reflexivity | apply released_Unbound].
Qed.

(** * Further properties of the code *)

(** ** The conversion loop and the sampling cycle *)

Lemma convertLoop_length (ax : IAxisInfo) (n i : nat) (jType : JointTypeEnum)
    (pos vel : list double) :
  length (convertLoop ax n i jType pos vel).1 = length pos /\
  length (convertLoop ax n i jType pos vel).2 = length vel.
Proof.
  revert i jType pos vel.
  induction n as [|n IH]; intros i jType pos vel; simpl; [tauto|].
  destruct (is_revolute (default jType (getJointType ax i))).
  - destruct (IH (S i) (default jType (getJointType ax i))
                (alter convertDegreesToRadians i pos)
                (alter convertDegreesToRadians i vel)) as [-> ->].
    rewrite !length_alter. tauto.
  - apply IH.
Qed.

(** The loop entered at [i] with [jType] treats joint [i + k] by the
    classification it holds there. *)
Lemma convertLoop_effective (ax : IAxisInfo) (n : nat)
    (jType : JointTypeEnum) (pos vel : list double) (j : nat) :
  j < n ->
  (convertLoop ax n 0 jType pos vel).1 !! j
    = to_ros (effective_type ax jType j) <$> pos !! j /\
  (convertLoop ax n 0 jType pos vel).2 !! j
    = to_ros (effective_type ax jType j) <$> vel !! j.
Proof.
  (* generalised over the entry index [i] and the classification held on
     entry, which is [effective_type] of the joint before *)
  assert (Hgen : forall n i jt pos vel j,
    i <= j < i + n ->
    (forall k, i <= k -> effective_type ax jType k =
       match k with
       | 0 => default jt (getJointType ax 0)
       | S k' => default (if decide (k = i) then jt
                          else effective_type ax jType k')
                         (getJointType ax k)
       end) ->
    (convertLoop ax n i jt pos vel).1 !! j
      = to_ros (effective_type ax jType j) <$> pos !! j /\
    (convertLoop ax n i jt pos vel).2 !! j
      = to_ros (effective_type ax jType j) <$> vel !! j).
  { clear. intros n. induction n as [|n IH]; intros i jt pos vel j Hj Hent;
      [lia|].
    simpl.
    assert (Hi : effective_type ax jType i = default jt (getJointType ax i)).
    { rewrite (Hent i) by lia. destruct i; [reflexivity|].
      rewrite decide_True by reflexivity. reflexivity. }
    destruct (decide (i = j)) as [<-|Hne].
    - rewrite Hi. unfold to_ros.
      destruct (is_revolute (default jt (getJointType ax i))).
      + destruct (convertLoop_before ax n (S i)
                    (default jt (getJointType ax i))
                    (alter convertDegreesToRadians i pos)
                    (alter convertDegreesToRadians i vel) i ltac:(lia))
          as [-> ->].
        rewrite !list_lookup_alter_eq. tauto.
      + destruct (convertLoop_before ax n (S i)
                    (default jt (getJointType ax i)) pos vel i ltac:(lia))
          as [-> ->].
        destruct (pos !! i), (vel !! i); simpl; tauto.
    - assert (Hnext : forall k, S i <= k ->
        effective_type ax jType k =
        match k with
        | 0 => default (default jt (getJointType ax i)) (getJointType ax 0)
        | S k' => default (if decide (k = S i)
                           then default jt (getJointType ax i)
                           else effective_type ax jType k')
                          (getJointType ax k)
        end).
      { intros k Hk. destruct k as [|k']; [lia|]. simpl.
        destruct (decide (S k' = S i)) as [E|E]; [|reflexivity].
        injection E as ->. rewrite Hi. reflexivity. }
      destruct (is_revolute (default jt (getJointType ax i))).
      + destruct (IH (S i) (default jt (getJointType ax i))
                    (alter convertDegreesToRadians i pos)
                    (alter convertDegreesToRadians i vel) j
                    ltac:(lia) Hnext) as [-> ->].
        rewrite !list_lookup_alter_ne by exact Hne. tauto.
      + apply IH; [lia | exact Hnext]. }
  intros Hj. apply Hgen; [lia|].
  intros k _. destruct k as [|k']; [reflexivity|]. simpl.
  destruct (decide (S k' = 0)); [lia | reflexivity].
Qed.





(** X1: the local [jType] of [run] is not reset between joints.  Joint [i]
    is converted according to the classification the loop holds once it
    has queried joint [i]: the one [getJointType] stored for the nearest
    joint at or below [i] for which it stored one, and the initial,
    indeterminate [jType] if there is none. *)
Theorem run_uses_last_classification
    (c : Cycle) (s : ControlBoard) (enc : IEncodersTimed) (ax : IAxisInfo)
    (i : nat) :
  iEncodersTimed s = Some enc -> iAxisInfo s = Some ax ->
  i < subdevice_joints s ->
  exists s' msg,
    run c s = Some (tt, s', [Publish (m_publisher s) msg]) /\
    position msg !! i =
      to_ros (effective_type ax (cyc_jType c) i)
        <$> raw_position c enc s !! i /\
    velocity msg !! i =
      to_ros (effective_type ax (cyc_jType c) i)
        <$> raw_velocity c enc s !! i /\
    (getJointType ax i = None ->
     effective_type ax (cyc_jType c) i =
       match i with
       | 0 => cyc_jType c
       | S k => effective_type ax (cyc_jType c) k
       end).
Proof.
  intros Henc Hax Hi. rewrite (run_eq c s enc ax Henc Hax).
  eexists _, _. split; [reflexivity|].
  destruct (convertLoop_effective ax (subdevice_joints s) (cyc_jType c)
              (raw_position c enc s) (raw_velocity c enc s) i Hi)
    as [Hp Hv].
  split; [exact Hp|]. split; [exact Hv|].
  intros Hnone. destruct i; simpl; rewrite Hnone; reflexivity.
Qed.

Lemma run_uses_last_classification_witness :
  let s := sticky_attached in
  let enc := board_enc [1; 2; 3]%float in
  (iEncodersTimed s = Some enc /\ iAxisInfo s = Some sticky_ax /\
   2 < subdevice_joints s) /\
  exists s' msg,
    run cycle0 s = Some (tt, s', [Publish (m_publisher s) msg]) /\
    position msg !! 2 =
      to_ros (effective_type sticky_ax (cyc_jType cycle0) 2)
        <$> raw_position cycle0 enc s !! 2 /\
    velocity msg !! 2 =
      to_ros (effective_type sticky_ax (cyc_jType cycle0) 2)
        <$> raw_velocity cycle0 enc s !! 2 /\
    (getJointType sticky_ax 2 = None ->
     effective_type sticky_ax (cyc_jType cycle0) 2 =
       effective_type sticky_ax (cyc_jType cycle0) 1).
Proof.
  intros s enc.
  assert (H1 : iEncodersTimed s = Some enc) by (vm_compute; reflexivity).
  assert (H2 : iAxisInfo s = Some sticky_ax) by (vm_compute; reflexivity).
  assert (H3 : 2 < subdevice_joints s) by (vm_compute; lia).
  split; [repeat split; assumption|].
  exact (run_uses_last_classification cycle0 s enc sticky_ax 2 H1 H2 H3).
Defined.

(** X2: one sampling cycle of a controller that has its publisher and the
    two interfaces [run] asserts.  The message goes out through that
    publisher.  The cycle changes the buffers, the envelope time and the
    counter, and nothing else: the binding, the thread, the configuration
    and the Joint Name Table are as before; the envelope time becomes the
    mean of the timestamps; the counter advances by one and wraps around at
    its modulus; every vector keeps its length; and the names of the
    message are the Joint Name Table. *)
Theorem run_keeps_shape
    (c : Cycle) (s : ControlBoard) (enc : IEncodersTimed) (ax : IAxisInfo)
    (topic : string) :
  iEncodersTimed s = Some enc -> iAxisInfo s = Some ax ->
  m_publisher s = Some topic ->
  exists s' msg,
    run c s = Some (tt, s', [Publish (Some topic) msg]) /\
    binding s' = binding s /\ running s' = running s /\
    thread_period s' = thread_period s /\
    configuration s' = configuration s /\
    jointNames s' = jointNames s /\
    counter s' = ((counter s + 1) mod counter_modulus)%N /\
    (counter s' < counter_modulus)%N /\
    stamp_time (time s') = sample_mean c enc s /\
    length (times s') = length (times s) /\
    length (position msg) = length (position (ros_struct s)) /\
    length (velocity msg) = length (velocity (ros_struct s)) /\
    length (effort msg) = length (effort (ros_struct s)) /\
    name msg = jointNames s.
Proof.
  intros Henc Hax Hpub. rewrite (run_eq c s enc ax Henc Hax), Hpub.
  eexists _, _. split; [reflexivity|].
  unfold sampled, outgoing, converted, binding, configuration. simpl.
  destruct (convertLoop_length ax (subdevice_joints s) 0 (cyc_jType c)
              (raw_position c enc s) (raw_velocity c enc s)) as [Hp Hv].
  rewrite Hp, Hv. unfold raw_times, raw_position, raw_velocity, raw_effort.
  rewrite !length_poke.
  do 6 (split; [reflexivity|]).
  split; [apply N.mod_lt; discriminate|].
  do 4 (split; [reflexivity|]).
  split; [|reflexivity].
  destruct (iTorqueControl s); [apply length_poke | reflexivity].
Qed.

Lemma run_keeps_shape_witness :
  let s := attached VOCAB_JOINTTYPE_PRISMATIC [1; 2; 3]%float in
  let enc := board_enc [1; 2; 3]%float in
  let ax := board_ax VOCAB_JOINTTYPE_PRISMATIC in
  let c := cycle0 in
  (iEncodersTimed s = Some enc /\ iAxisInfo s = Some ax /\
   m_publisher s = Some "/joint_states") /\
  exists s' msg,
    run c s = Some (tt, s', [Publish (Some "/joint_states") msg]) /\
    binding s' = binding s /\ running s' = running s /\
    thread_period s' = thread_period s /\
    configuration s' = configuration s /\
    jointNames s' = jointNames s /\
    counter s' = ((counter s + 1) mod counter_modulus)%N /\
    (counter s' < counter_modulus)%N /\
    stamp_time (time s') = sample_mean c enc s /\
    length (times s') = length (times s) /\
    length (position msg) = length (position (ros_struct s)) /\
    length (velocity msg) = length (velocity (ros_struct s)) /\
    length (effort msg) = length (effort (ros_struct s)) /\
    name msg = jointNames s.
Proof.
  intros s enc ax c.
  assert (H1 : iEncodersTimed s = Some enc) by (vm_compute; reflexivity).
  assert (H2 : iAxisInfo s = Some ax) by (vm_compute; reflexivity).
  assert (H3 : m_publisher s = Some "/joint_states")
    by (vm_compute; reflexivity).
  split; [repeat split; assumption|].
  exact (run_keeps_shape c s enc ax _ H1 H2 H3).
Defined.

(** ** Consecutive cycles *)

Lemma counter_modulus_nonzero : counter_modulus <> 0%N.
Proof. discriminate. Qed.

Lemma run_all_spec (cs : list Cycle) :
  forall (s : ControlBoard) (enc : IEncodersTimed) (ax : IAxisInfo),
  iEncodersTimed s = Some enc -> iAxisInfo s = Some ax ->
  exists s' msgs,
    run_all cs s = Some (tt, s', Publish (m_publisher s) <$> msgs) /\
    header_stamp <$> msgs = cyc_clock <$> cs /\
    Forall (fun m => name m = jointNames s) msgs /\
    ((counter s < counter_modulus)%N ->
     counter s' =
       ((counter s + N.of_nat (length cs)) mod counter_modulus)%N) /\
    binding s' = binding s /\ jointNames s' = jointNames s /\
    running s' = running s /\ configuration s' = configuration s /\
    (iTorqueControl s = None ->
     Forall (fun m => effort m = effort (ros_struct s)) msgs /\
     effort (ros_struct s') = effort (ros_struct s)).
Proof.
  induction cs as [|c cs IH]; intros s enc ax Henc Hax.
  - exists s, []. simpl. unfold ret.
    split; [reflexivity|]. split; [reflexivity|]. split; [constructor|].
    split.
    { intros Hlt. rewrite N.add_0_r, N.mod_small by exact Hlt. reflexivity. }
    do 4 (split; [reflexivity|]).
    intros _. split; [constructor | reflexivity].
  - cbn [run_all]. unfold bind. rewrite (run_eq c s enc ax Henc Hax).
    destruct (IH (sampled c enc ax s) enc ax Henc Hax)
      as (s' & msgs & Heq & Hst & Hnm & Hcnt & Hb & Hjn & Hr & Hcfg & Htrq).
    rewrite Heq. exists s', (outgoing c enc ax s :: msgs).
    split; [reflexivity|].
    split; [rewrite !fmap_cons, Hst; reflexivity|].
    split; [constructor; [reflexivity | exact Hnm]|].
    split.
    { intros _. rewrite Hcnt by (apply N.mod_lt, counter_modulus_nonzero).
      cbn [sampled counter set_counter].
      rewrite N.Div0.add_mod_idemp_l. f_equal.
      cbn [length]. lia. }
    split; [exact Hb|]. split; [exact Hjn|]. split; [exact Hr|].
    split; [exact Hcfg|].
    intros Hnone.
    assert (Heff : effort (ros_struct (sampled c enc ax s))
                   = effort (ros_struct s)).
    { simpl. unfold raw_effort. rewrite Hnone. reflexivity. }
    destruct (Htrq Hnone) as [Hall Hlast].
    rewrite Heff in Hall, Hlast.
    split; [constructor; [exact Heff | exact Hall] | exact Hlast].
Qed.

(** X3: consecutive cycles compose.  From a controller with its publisher
    and the two interfaces [run] asserts, any number of cycles goes through
    without abort, publishes exactly one message per cycle through that
    publisher and has no other effect; the messages are stamped with the
    readings of the node clock in order and all carry the Joint Name
    Table; the counter has advanced by the number of cycles, modulo its
    modulus; and the binding, the thread and the configuration stay as
    they were. *)
Theorem run_all_publishes_each_cycle
    (cs : list Cycle) (s : ControlBoard)
    (enc : IEncodersTimed) (ax : IAxisInfo) (topic : string) :
  iEncodersTimed s = Some enc -> iAxisInfo s = Some ax ->
  m_publisher s = Some topic ->
  (counter s < counter_modulus)%N ->
  exists s' msgs,
    run_all cs s = Some (tt, s', Publish (Some topic) <$> msgs) /\
    length msgs = length cs /\
    header_stamp <$> msgs = cyc_clock <$> cs /\
    Forall (fun m => name m = jointNames s) msgs /\
    counter s' =
      ((counter s + N.of_nat (length cs)) mod counter_modulus)%N /\
    binding s' = binding s /\ running s' = running s /\
    configuration s' = configuration s.
Proof.
  intros Henc Hax Hpub Hlt.
  destruct (run_all_spec cs s enc ax Henc Hax)
    as (s' & msgs & Heq & Hst & Hnm & Hcnt & Hb & _ & Hr & Hcfg & _).
  rewrite Hpub in Heq.
  exists s', msgs. split; [exact Heq|].
  split.
  { apply (f_equal length) in Hst. rewrite !length_fmap in Hst. exact Hst. }
  split; [exact Hst|]. split; [exact Hnm|].
  split; [exact (Hcnt Hlt)|].
  split; [exact Hb|]. split; [exact Hr | exact Hcfg].
Qed.

Lemma run_all_publishes_each_cycle_witness :
  let s := attached VOCAB_JOINTTYPE_PRISMATIC [1; 2; 3]%float in
  let cs := [cycle0; cycle1] in
  (iEncodersTimed s = Some (board_enc [1; 2; 3]%float) /\
   iAxisInfo s = Some (board_ax VOCAB_JOINTTYPE_PRISMATIC) /\
   m_publisher s = Some "/joint_states" /\
   (counter s < counter_modulus)%N) /\
  exists s' msgs,
    run_all cs s = Some (tt, s', Publish (Some "/joint_states") <$> msgs) /\
    length msgs = length cs /\
    header_stamp <$> msgs = cyc_clock <$> cs /\
    Forall (fun m => name m = jointNames s) msgs /\
    counter s' =
      ((counter s + N.of_nat (length cs)) mod counter_modulus)%N /\
    binding s' = binding s /\ running s' = running s /\
    configuration s' = configuration s.
Proof.
  intros s cs.
  assert (H1 : iEncodersTimed s = Some (board_enc [1; 2; 3]%float))
    by (vm_compute; reflexivity).
  assert (H2 : iAxisInfo s = Some (board_ax VOCAB_JOINTTYPE_PRISMATIC))
    by (vm_compute; reflexivity).
  assert (H3 : m_publisher s = Some "/joint_states")
    by (vm_compute; reflexivity).
  assert (H4 : (counter s < counter_modulus)%N)
    by (vm_compute; reflexivity).
  split; [repeat split; assumption|].
  exact (run_all_publishes_each_cycle cs s _ _ _ H1 H2 H3 H4).
Defined.

(** X4: without the torque interface, [run] never writes the effort
    vector: over any number of cycles every published message carries the
    efforts the buffer held before the first of them, and so does the
    buffer afterwards. *)
Theorem run_all_effort_without_torque
    (cs : list Cycle) (s : ControlBoard)
    (enc : IEncodersTimed) (ax : IAxisInfo) :
  iEncodersTimed s = Some enc -> iAxisInfo s = Some ax ->
  iTorqueControl s = None ->
  exists s' msgs,
    run_all cs s = Some (tt, s', Publish (m_publisher s) <$> msgs) /\
    length msgs = length cs /\
    Forall (fun m => effort m = effort (ros_struct s)) msgs /\
    effort (ros_struct s') = effort (ros_struct s).
Proof.
  intros Henc Hax Hnone.
  destruct (run_all_spec cs s enc ax Henc Hax)
    as (s' & msgs & Heq & Hst & _ & _ & _ & _ & _ & _ & Htrq).
  destruct (Htrq Hnone) as [Hall Hlast].
  exists s', msgs. split; [exact Heq|].
  split.
  { apply (f_equal length) in Hst. rewrite !length_fmap in Hst. exact Hst. }
  split; assumption.
Qed.

Lemma run_all_effort_without_torque_witness :
  let s := sticky_attached in
  let cs := [cycle0; cycle1; cycle0] in
  (iEncodersTimed s = Some (board_enc [1; 2; 3]%float) /\
   iAxisInfo s = Some sticky_ax /\ iTorqueControl s = None /\
   effort (ros_struct s) = [0; 0; 0]%float) /\
  exists s' msgs,
    run_all cs s = Some (tt, s', Publish (m_publisher s) <$> msgs) /\
    length msgs = length cs /\
    Forall (fun m => effort m = effort (ros_struct s)) msgs /\
    effort (ros_struct s') = effort (ros_struct s).
Proof.
  intros s cs.
  assert (H1 : iEncodersTimed s = Some (board_enc [1; 2; 3]%float))
    by (vm_compute; reflexivity).
  assert (H2 : iAxisInfo s = Some sticky_ax) by (vm_compute; reflexivity).
  assert (H3 : iTorqueControl s = None) by (vm_compute; reflexivity).
  assert (H4 : effort (ros_struct s) = [0; 0; 0]%float)
    by (vm_compute; reflexivity).
  split; [repeat split; assumption|].
  exact (run_all_effort_without_torque cs s _ _ H1 H2 H3).
Defined.

(** ** open: the stages one by one *)

(** The tail of [open] when both names are there. *)
Lemma open_names_present (env : Env) (config : Property) (s : ControlBoard)
    (vn vt : Value) :
  config !! "nodeName" = Some vn -> config !! "topicName" = Some vt ->
  open_names env config s =
    let s1 := set_m_publisher (Some (asString vt))
                (set_topicName (asString vt)
                   (set_nodeName (asString vn) s)) in
    let ev := [Logs LInfo [AString "nodeName is "; AString (asString vn)];
               Log LWarning "FIXME: nodeName is not currently used!";
               Logs LInfo [AString "topicName is "; AString (asString vt)];
               CreatePublisher (asString vt)] in
    if subdevice_ready s then
      if start_ok env then
        Some (true, set_running true (set_thread_period (period s) s1),
              ev ++ [ThreadStart])
      else
        Some (false, set_thread_period (period s) s1,
              ev ++ [Log LError "Error starting thread"])
    else Some (true, s1, ev).
Proof.
  intros Hn Ht. unfold open_names, check, find, start. exec.
  rewrite Hn, Ht. simpl.
  destruct (subdevice_ready s) eqn:Hr; simpl; rewrite ?Hr;
    [destruct (start_ok env)|]; simpl; reflexivity.
Qed.

(** The period [open] settles on for a configuration it accepts. *)
Lemma open_period_stage (env : Env) (config : Property) (s : ControlBoard) :
  ~ bad_period config ->
  open env config s =
    match
      open_subdevice env config
        (set_period (match config !! "period" with
                     | Some v => asFloat64 v
                     | None => default_period
                     end) s)
    with
    | Some (r, s', ev) =>
        Some (r, s',
              match config !! "period" with
              | Some _ => ev
              | None =>
                  Log LDebug
                    "'period' parameter missing, using default thread period = 0.02s"
                  :: ev
              end)
    | None => None
    end.
Proof.
  intros Hok. unfold open, check, find, bad_period in *. exec.
  destruct (config !! "period") as [v|] eqn:Hp; simpl.
  - destruct (isFloat64 v) eqn:Hf; simpl.
    + destruct (asFloat64 v <=? 0)%float eqn:Hle.
      * exfalso. apply Hok. exists v. tauto.
      * destruct (open_subdevice env config (set_period (asFloat64 v) s))
          as [[[r s'] ev]|]; reflexivity.
    + exfalso. apply Hok. exists v. tauto.
  - destruct (open_subdevice env config (set_period default_period s))
      as [[[r s'] ev]|]; reflexivity.
Qed.

(** X6: the period [open] settles on.  Without a [period] key the member
    [period] becomes the default, 0.02 s; with a float64 value that is not
    [<= 0] it becomes that value, whatever else [open] goes on to do.  The
    test is the C++ comparison [period <= 0], which is false for NaN: a
    NaN period is taken as it is. *)
Theorem open_effective_period
    (env : Env) (config : Property) (s : ControlBoard) :
  (config !! "period" = None ->
   exists r s' ev,
     open env config s = Some (r, s', ev) /\ period s' = default_period) /\
  (forall d,
     config !! "period" = Some (VFloat64 d) -> (d <=? 0)%float = false ->
     exists r s' ev,
       open env config s = Some (r, s', ev) /\ period s' = d).
Proof.
  split.
  - intros Hp.
    assert (Hok : ~ bad_period config)
      by (intros (v & Hv & _); congruence).
    rewrite (open_period_stage env config s Hok), Hp.
    destruct (open_subdevice_frame env config (set_period default_period s))
      as (r & s' & ev & Heq & Hper & _).
    rewrite Heq. eexists _, _, _. split; [reflexivity | exact Hper].
  - intros d Hp Hle.
    assert (Hok : ~ bad_period config).
    { intros (v & Hv & Hbad). rewrite Hp in Hv. injection Hv as <-.
      simpl in Hbad. destruct Hbad; congruence. }
    rewrite (open_period_stage env config s Hok), Hp. simpl.
    destruct (open_subdevice_frame env config (set_period d s))
      as (r & s' & ev & Heq & Hper & _).
    rewrite Heq. eexists _, _, _. split; [reflexivity | exact Hper].
Qed.

Lemma open_effective_period_witness :
  (config_deferred !! "period" = None /\
   exists r s' ev,
     open sim_env config_deferred ControlBoard_nws_ros2 = Some (r, s', ev) /\
     period s' = default_period) /\
  ((<["period" := VFloat64 nan]> config_deferred : Property) !! "period"
     = Some (VFloat64 nan) /\
   (nan <=? 0)%float = false /\
   exists r s' ev,
     open sim_env (<["period" := VFloat64 nan]> config_deferred)
       ControlBoard_nws_ros2 = Some (r, s', ev) /\
     period s' = nan).
Proof.
  assert (H1 : config_deferred !! "period" = None)
    by (vm_compute; reflexivity).
  assert (H2 : (<["period" := VFloat64 nan]> config_deferred : Property)
                 !! "period" = Some (VFloat64 nan))
    by (vm_compute; reflexivity).
  assert (H3 : (nan <=? 0)%float = false) by reflexivity.
  split.
  - split; [exact H1|].
    exact (proj1 (open_effective_period sim_env config_deferred
                    ControlBoard_nws_ros2) H1).
  - split; [exact H2|]. split; [exact H3|].
    exact (proj2 (open_effective_period sim_env
                    (<["period" := VFloat64 nan]> config_deferred)
                    ControlBoard_nws_ros2) nan H2 H3).
Defined.

(** X7: deferred attach.  On a configuration with both names, an
    acceptable period and no subdevice, [open] on a controller whose guard
    flag is clear returns success: it stores the period and the names,
    creates the publisher on the topic, and stops there.  The thread is
    not started and the binding and the buffers are untouched, so the
    controller waits for [attach]. *)
Theorem open_deferred
    (env : Env) (config : Property) (s : ControlBoard) (vn vt : Value) :
  config !! "subdevice" = None ->
  config !! "nodeName" = Some vn -> config !! "topicName" = Some vt ->
  ~ bad_period config ->
  subdevice_ready s = false ->
  exists s' ev,
    open env config s = Some (true, s', ev) /\
    configuration s' =
      (match config !! "period" with
       | Some v => asFloat64 v
       | None => default_period
       end, asString vn, asString vt, Some (asString vt)) /\
    running s' = running s /\ thread_period s' = thread_period s /\
    binding s' = binding s /\ sample_buffer s' = sample_buffer s /\
    filter (fun e => negb (is_log e)) ev = [CreatePublisher (asString vt)].
Proof.
  intros Hsub Hn Ht Hok Hr.
  rewrite (open_period_stage env config s Hok).
  unfold open_subdevice, check. rewrite Hsub. simpl.
  rewrite (open_names_present env config _ vn vt Hn Ht). simpl.
  rewrite Hr. eexists _, _. split; [reflexivity|].
  unfold configuration, binding, sample_buffer. simpl.
  do 5 (split; [reflexivity|]).
  destruct (config !! "period"); reflexivity.
Qed.

Lemma open_deferred_witness :
  (config_deferred !! "subdevice" = None /\
   config_deferred !! "nodeName" = Some (VString "cb_node") /\
   config_deferred !! "topicName" = Some (VString "/joint_states") /\
   ~ bad_period config_deferred /\
   subdevice_ready ControlBoard_nws_ros2 = false) /\
  exists s' ev,
    open sim_env config_deferred ControlBoard_nws_ros2
      = Some (true, s', ev) /\
    configuration s' =
      (match config_deferred !! "period" with
       | Some v => asFloat64 v
       | None => default_period
       end, asString (VString "cb_node"),
       asString (VString "/joint_states"),
       Some (asString (VString "/joint_states"))) /\
    running s' = running ControlBoard_nws_ros2 /\
    thread_period s' = thread_period ControlBoard_nws_ros2 /\
    binding s' = binding ControlBoard_nws_ros2 /\
    sample_buffer s' = sample_buffer ControlBoard_nws_ros2 /\
    filter (fun e => negb (is_log e)) ev
      = [CreatePublisher (asString (VString "/joint_states"))].
Proof.
  assert (H1 : config_deferred !! "subdevice" = None)
    by (vm_compute; reflexivity).
  assert (H2 : config_deferred !! "nodeName" = Some (VString "cb_node"))
    by (vm_compute; reflexivity).
  assert (H3 : config_deferred !! "topicName"
               = Some (VString "/joint_states"))
    by (vm_compute; reflexivity).
  assert (H4 : ~ bad_period config_deferred).
  { intros (v & Hv & _). vm_compute in Hv. discriminate Hv. }
  assert (H5 : subdevice_ready ControlBoard_nws_ros2 = false)
    by reflexivity.
  split; [repeat split; assumption|].
  exact (open_deferred sim_env config_deferred ControlBoard_nws_ros2
           _ _ H1 H2 H3 H4 H5).
Defined.

(** ** setDevice on a complete device *)

Lemma collectAxisNames_lookup (ax : IAxisInfo) (n i : nat)
    (acc v : list string) (k : nat) :
  collectAxisNames ax n i acc = inr v -> k < n ->
  v !! (length acc + k) = getAxisName ax (i + k).
Proof.
  revert i acc k. induction n as [|n IH]; intros i acc k H Hk; [lia|].
  simpl in H. destruct (getAxisName ax i) as [tmp|] eqn:Hi; [|discriminate].
  destruct k as [|k].
  - assert (Hpre : forall m j a w,
      collectAxisNames ax m j a = inr w -> exists rest, w = a ++ rest).
    { clear. intros m. induction m as [|m IHm]; intros j a w Hw; simpl in Hw.
      - injection Hw as <-. exists []. rewrite app_nil_r. reflexivity.
      - destruct (getAxisName ax j) as [t|]; [|discriminate].
        destruct (IHm _ _ _ Hw) as [rest ->].
        exists (t :: rest). rewrite <- app_assoc. reflexivity. }
    destruct (Hpre _ _ _ _ H) as [rest ->].
    rewrite Nat.add_0_r, <- app_assoc. simpl.
    rewrite lookup_app_r by lia. rewrite Nat.sub_diag, Nat.add_0_r.
    simpl. symmetry. exact Hi.
  - specialize (IH (S i) (acc ++ [tmp]) k H ltac:(lia)).
    rewrite length_app in IH. simpl in IH.
    replace (length acc + S k) with (length acc + 1 + k) by lia.
    replace (i + S k) with (S i + k) by lia. exact IH.
Qed.

(** [setDevice] on a device with the mandatory interfaces, a positive
    joint count and a name for every joint. *)
Lemma setDevice_bound (driver : PolyDriver) (owned : bool) (s : ControlBoard)
    (pc : IPositionControl) (enc : IEncodersTimed) (ax : IAxisInfo) (n : Z) :
  view impl_IPositionControl driver = Some pc ->
  view impl_IEncodersTimed driver = Some enc ->
  view impl_IAxisInfo driver = Some ax ->
  getAxes pc = Some n -> (0 < n)%Z ->
  (forall i, i < Z.to_nat n -> is_Some (getAxisName ax i)) ->
  exists names,
    setDevice driver owned s =
      Some (true,
            set_jointNames names (sized (Z.to_nat n) (viewed driver owned s)),
            torque_warning driver s) /\
    length names = Z.to_nat n /\
    (forall i, i < Z.to_nat n -> names !! i = getAxisName ax i).
Proof.
  intros Hpc Henc Hax Hn Hpos Hnames.
  rewrite (setDevice_names driver owned s pc enc ax n) by assumption.
  destruct (collectAxisNames_succeeds ax (Z.to_nat n) 0 []) as [v Hv].
  { intros j Hj. apply Hnames. lia. }
  rewrite Hv. exists v. split; [reflexivity|].
  split.
  - apply collectAxisNames_length in Hv. simpl in Hv. exact Hv.
  - intros i Hi. exact (collectAxisNames_lookup ax _ 0 [] v i Hv Hi).
Qed.

Lemma resize_nil {A : Type} (d : A) (n : nat) : resize d n [] = replicate n d.
Proof.
  unfold resize. rewrite take_nil. simpl. rewrite Nat.sub_0_r. reflexivity.
Qed.

(** X8: a successful bind.  On a device with the three mandatory
    interfaces, a positive joint count [n] and a name for every joint,
    [setDevice] returns success; the Joint Name Table then holds the [n]
    names the device reported, in joint order; the timestamps and the four
    vectors of the message hold [n] entries each, the old contents cut or
    padded with zeros and empty names as [std::vector::resize] does, so a
    buffer that was empty is all zeros. *)
Theorem setDevice_success
    (driver : PolyDriver) (owned : bool) (s : ControlBoard)
    (pc : IPositionControl) (enc : IEncodersTimed) (ax : IAxisInfo) (n : Z) :
  view impl_IPositionControl driver = Some pc ->
  view impl_IEncodersTimed driver = Some enc ->
  view impl_IAxisInfo driver = Some ax ->
  getAxes pc = Some n -> (0 < n)%Z ->
  (forall i, i < Z.to_nat n -> is_Some (getAxisName ax i)) ->
  exists s' ev,
    setDevice driver owned s = Some (true, s', ev) /\
    subdevice_joints s' = Z.to_nat n /\
    length (jointNames s') = Z.to_nat n /\
    (forall i, i < Z.to_nat n -> jointNames s' !! i = getAxisName ax i) /\
    times s' = resize 0%float (Z.to_nat n) (times s) /\
    position (ros_struct s')
      = resize 0%float (Z.to_nat n) (position (ros_struct s)) /\
    velocity (ros_struct s')
      = resize 0%float (Z.to_nat n) (velocity (ros_struct s)) /\
    effort (ros_struct s')
      = resize 0%float (Z.to_nat n) (effort (ros_struct s)) /\
    name (ros_struct s') = resize "" (Z.to_nat n) (name (ros_struct s)) /\
    (effort (ros_struct s) = [] ->
     effort (ros_struct s') = replicate (Z.to_nat n) 0%float) /\
    buffers_sized s'.
Proof.
  intros Hpc Henc Hax Hn Hpos Hnames.
  destruct (setDevice_bound driver owned s pc enc ax n
              Hpc Henc Hax Hn Hpos Hnames) as (names & Heq & Hlen & Hlook).
  rewrite Heq. eexists _, _. split; [reflexivity|].
  unfold sized, viewed, buffers_sized. simpl.
  split; [reflexivity|]. split; [exact Hlen|]. split; [exact Hlook|].
  do 5 (split; [reflexivity|]).
  split; [intros ->; apply resize_nil|].
  rewrite !length_resize. split; [reflexivity|]. right. tauto.
Qed.

Lemma setDevice_success_witness :
  let d := board_poly 1 VOCAB_JOINTTYPE_PRISMATIC [1; 2; 3]%float in
  let ax := board_ax VOCAB_JOINTTYPE_PRISMATIC in
  let s := ControlBoard_nws_ros2 in
  exists s' ev,
    setDevice d false s = Some (true, s', ev) /\
    subdevice_joints s' = Z.to_nat 3 /\
    length (jointNames s') = Z.to_nat 3 /\
    (forall i, i < Z.to_nat 3 -> jointNames s' !! i = getAxisName ax i) /\
    times s' = resize 0%float (Z.to_nat 3) (times s) /\
    position (ros_struct s')
      = resize 0%float (Z.to_nat 3) (position (ros_struct s)) /\
    velocity (ros_struct s')
      = resize 0%float (Z.to_nat 3) (velocity (ros_struct s)) /\
    effort (ros_struct s')
      = resize 0%float (Z.to_nat 3) (effort (ros_struct s)) /\
    name (ros_struct s') = resize "" (Z.to_nat 3) (name (ros_struct s)) /\
    (effort (ros_struct s) = [] ->
     effort (ros_struct s') = replicate (Z.to_nat 3) 0%float) /\
    buffers_sized s'.
Proof.
  intros d ax s.
  eapply (setDevice_success d false s _ _ ax 3%Z);
    [reflexivity | reflexivity | reflexivity | reflexivity | lia |].
  intros i Hi.
  do 3 (destruct i as [|i]; [eexists; reflexivity|]).
  simpl in Hi. lia.
Defined.

(** ** open with a subdevice *)

Lemma openAndAttachSubDevice_eq (env : Env) (prop : Property)
    (s : ControlBoard) :
  openAndAttachSubDevice env prop s =
    match plugins env
            (<["device" := VString (asString (find prop "subdevice"))]>
               (delete "device" prop)) with
    | None =>
        Some (false, s,
              [DeviceNew (fresh_id env);
               Log LDebug "opening subdevice";
               Log LError "opening subdevice... FAILED"])
    | Some impl =>
        match setDevice {| poly_id := fresh_id env; poly_dd := Some impl |}
                true s with
        | Some (r, s', ev) =>
            Some (r, s',
                  DeviceNew (fresh_id env)
                  :: Log LDebug "opening subdevice"
                  :: DeviceOpen (fresh_id env) :: ev)
        | None => None
        end
    end.
Proof.
  unfold openAndAttachSubDevice, isValid. exec.
  destruct (plugins env _) as [impl|]; simpl; [|reflexivity].
  destruct (setDevice _ true s) as [[[r s'] ev]|]; reflexivity.
Qed.

(** X9: when the plugin factory cannot provide the subdevice, [open]
    returns failure right after the period stage: the names are not looked
    at, no publisher is created, no thread is started, and the binding and
    the buffers are as they were.  Besides logging, [open] has created the
    driver object for the subdevice; nothing refers to it afterwards and
    nothing deletes it. *)
Theorem open_subdevice_unavailable
    (env : Env) (config : Property) (s : ControlBoard) (vs : Value) :
  config !! "subdevice" = Some vs ->
  ~ bad_period config ->
  plugins env (<["device" := VString (asString vs)]> (delete "device" config))
    = None ->
  exists s' ev,
    open env config s = Some (false, s', ev) /\
    binding s' = binding s /\ sample_buffer s' = sample_buffer s /\
    running s' = running s /\
    (nodeName s', topicName s', m_publisher s')
      = (nodeName s, topicName s, m_publisher s) /\
    filter (fun e => negb (is_log e)) ev = [DeviceNew (fresh_id env)].
Proof.
  intros Hsub Hok Hnone.
  rewrite (open_period_stage env config s Hok).
  unfold open_subdevice, check. rewrite Hsub. simpl. unfold bind.
  rewrite openAndAttachSubDevice_eq. unfold find. rewrite Hsub. simpl.
  rewrite Hnone. simpl.
  eexists _, _. split; [reflexivity|].
  do 4 (split; [reflexivity|]).
  destruct (config !! "period"); reflexivity.
Qed.

Lemma open_subdevice_unavailable_witness :
  (config_subdevice !! "subdevice" = Some (VString "fakeMotionControl") /\
   ~ bad_period config_subdevice /\
   plugins empty_env
     (<["device" := VString (asString (VString "fakeMotionControl"))]>
        (delete "device" config_subdevice)) = None) /\
  exists s' ev,
    open empty_env config_subdevice ControlBoard_nws_ros2
      = Some (false, s', ev) /\
    binding s' = binding ControlBoard_nws_ros2 /\
    sample_buffer s' = sample_buffer ControlBoard_nws_ros2 /\
    running s' = running ControlBoard_nws_ros2 /\
    (nodeName s', topicName s', m_publisher s')
      = (nodeName ControlBoard_nws_ros2, topicName ControlBoard_nws_ros2,
         m_publisher ControlBoard_nws_ros2) /\
    filter (fun e => negb (is_log e)) ev = [DeviceNew (fresh_id empty_env)].
Proof.
  assert (H1 : config_subdevice !! "subdevice"
               = Some (VString "fakeMotionControl"))
    by (vm_compute; reflexivity).
  assert (H2 : ~ bad_period config_subdevice).
  { intros (v & Hv & _). vm_compute in Hv. discriminate Hv. }
  assert (H3 : plugins empty_env
     (<["device" := VString (asString (VString "fakeMotionControl"))]>
        (delete "device" config_subdevice)) = None) by reflexivity.
  split; [repeat split; assumption|].
  exact (open_subdevice_unavailable empty_env config_subdevice
           ControlBoard_nws_ros2 _ H1 H2 H3).
Defined.

(** X10: [open] with a subdevice that binds.  When the factory provides a
    device with the mandatory interfaces, a positive joint count and all
    joint names, and both names are configured, [open] creates and opens
    the device, binds it as owned, sets the guard flag, creates the publisher, sets the
    thread period to the configured period and starts the thread, in this
    order; its result is the result of the thread start.  If the thread
    does not start, [open] returns failure with the subdevice still open,
    bound, owned and flagged. *)
Theorem open_with_subdevice
    (env : Env) (config : Property) (s : ControlBoard)
    (vs vn vt : Value) (impl : DeviceImpl)
    (pc : IPositionControl) (enc : IEncodersTimed) (ax : IAxisInfo) (n : Z) :
  config !! "subdevice" = Some vs ->
  config !! "nodeName" = Some vn -> config !! "topicName" = Some vt ->
  ~ bad_period config ->
  plugins env (<["device" := VString (asString vs)]> (delete "device" config))
    = Some impl ->
  impl_IPositionControl impl = Some pc ->
  impl_IEncodersTimed impl = Some enc ->
  impl_IAxisInfo impl = Some ax ->
  getAxes pc = Some n -> (0 < n)%Z ->
  (forall i, i < Z.to_nat n -> is_Some (getAxisName ax i)) ->
  exists s' ev,
    open env config s = Some (start_ok env, s', ev) /\
    subdevice_ptr s' = Some {| poly_id := fresh_id env; poly_dd := Some impl |} /\
    subdevice_owned s' = true /\ subdevice_ready s' = true /\
    subdevice_joints s' = Z.to_nat n /\
    length (jointNames s') = Z.to_nat n /\
    m_publisher s' = Some (asString vt) /\
    thread_period s' = period s' /\
    running s' = (if start_ok env then true else running s) /\
    filter (fun e => negb (is_log e)) ev =
      DeviceNew (fresh_id env) :: DeviceOpen (fresh_id env) ::
      CreatePublisher (asString vt) ::
      (if start_ok env then [ThreadStart] else []).
Proof.
  intros Hsub Hn Ht Hok Hplug Hpc Henc Hax Haxes Hpos Hnames.
  rewrite (open_period_stage env config s Hok).
  unfold open_subdevice, check. rewrite Hsub. simpl. unfold bind at 1.
  rewrite openAndAttachSubDevice_eq. unfold find. rewrite Hsub. simpl.
  rewrite Hplug.
  destruct (setDevice_bound
              {| poly_id := fresh_id env; poly_dd := Some impl |} true
              (set_period
                 match config !! "period" with
                 | Some v => asFloat64 v
                 | None => default_period
                 end s) pc enc ax n Hpc Henc Hax Haxes Hpos Hnames)
    as (names & Heq & Hlen & _).
  rewrite Heq. simpl. unfold bind, modify.
  rewrite (open_names_present env config _ vn vt Hn Ht). simpl.
  destruct (start_ok env); simpl;
    (eexists _, _; split; [reflexivity|]; simpl;
     do 3 (split; [reflexivity|]);
     split; [reflexivity|]; split; [exact Hlen|];
     do 3 (split; [reflexivity|]);
     unfold torque_warning;
     destruct (config !! "period");
     destruct (bool_decide (is_Some (view impl_ITorqueControl _)));
     reflexivity).
Qed.

Lemma open_with_subdevice_witness :
  let impl := board VOCAB_JOINTTYPE_PRISMATIC [1; 2; 3]%float in
  let s := ControlBoard_nws_ros2 in
  exists s' ev,
    open stalled_env config_subdevice s = Some (start_ok stalled_env, s', ev) /\
    subdevice_ptr s'
      = Some {| poly_id := fresh_id stalled_env; poly_dd := Some impl |} /\
    subdevice_owned s' = true /\ subdevice_ready s' = true /\
    subdevice_joints s' = Z.to_nat 3 /\
    length (jointNames s') = Z.to_nat 3 /\
    m_publisher s' = Some (asString (VString "/joint_states")) /\
    thread_period s' = period s' /\
    running s' = (if start_ok stalled_env then true else running s) /\
    filter (fun e => negb (is_log e)) ev =
      DeviceNew (fresh_id stalled_env) :: DeviceOpen (fresh_id stalled_env) ::
      CreatePublisher (asString (VString "/joint_states")) ::
      (if start_ok stalled_env then [ThreadStart] else []).
Proof.
  intros impl s.
  eapply (open_with_subdevice stalled_env config_subdevice s
            (VString "fakeMotionControl") (VString "cb_node") _ impl
            _ _ (board_ax VOCAB_JOINTTYPE_PRISMATIC) 3%Z);
    try (vm_compute; reflexivity); try lia.
  - intros (v & Hv & _). vm_compute in Hv. discriminate Hv.
  - intros i Hi.
    do 3 (destruct i as [|i]; [eexists; reflexivity|]).
    simpl in Hi. lia.
Defined.

(** ** attach, detach and the fate of the device *)

Lemma attach_eq (env : Env) (poly : PolyDriver) (s : ControlBoard) :
  subdevice_ready s = false ->
  attach env poly s =
    match setDevice poly false s with
    | Some (true, s1, e1) =>
        if start_ok env then
          Some (true, set_running true (set_thread_period (period s1) s1),
                e1 ++ [ThreadStart])
        else
          Some (false, set_thread_period (period s1) s1,
                e1 ++ [Log LError "Error starting thread"])
    | Some (false, s1, e1) => Some (false, s1, e1 ++ [])
    | None => None
    end.
Proof.
  intros Hr. unfold attach, start. exec. rewrite Hr.
  destruct (setDevice poly false s) as [[[[|] s1] e1]|]; simpl;
    [destruct (start_ok env); simpl| |]; reflexivity.
Qed.

(** X11: an external attach.  With the guard flag clear, [attach] of a
    device with the mandatory interfaces, a positive joint count and all
    joint names binds it as not owned and leaves the guard flag clear; it
    sets the thread period to the configured period and starts the thread,
    and its result is the result of the thread start.  If the thread does
    not start, [attach] returns failure with the device still bound. *)
Theorem attach_binds
    (env : Env) (poly : PolyDriver) (s : ControlBoard)
    (pc : IPositionControl) (enc : IEncodersTimed) (ax : IAxisInfo) (n : Z) :
  subdevice_ready s = false ->
  view impl_IPositionControl poly = Some pc ->
  view impl_IEncodersTimed poly = Some enc ->
  view impl_IAxisInfo poly = Some ax ->
  getAxes pc = Some n -> (0 < n)%Z ->
  (forall i, i < Z.to_nat n -> is_Some (getAxisName ax i)) ->
  exists s' ev,
    attach env poly s = Some (start_ok env, s', ev) /\
    binding s' =
      (Some poly, false, Z.to_nat n, false,
       Some pc, Some enc, view impl_ITorqueControl poly, Some ax) /\
    thread_period s' = period s /\
    configuration s' = configuration s /\
    running s' = (if start_ok env then true else running s) /\
    filter (fun e => negb (is_log e)) ev =
      (if start_ok env then [ThreadStart] else []).
Proof.
  intros Hr Hpc Henc Hax Haxes Hpos Hnames.
  rewrite (attach_eq env poly s Hr).
  destruct (setDevice_bound poly false s pc enc ax n
              Hpc Henc Hax Haxes Hpos Hnames) as (names & Heq & _ & _).
  rewrite Heq.
  destruct (start_ok env);
    (eexists _, _; split; [reflexivity|];
     unfold binding, configuration, sized, viewed; simpl;
     rewrite Hpc, Henc, Hax, Hr;
     do 4 (split; [reflexivity|]);
     unfold torque_warning;
     destruct (bool_decide (is_Some (view impl_ITorqueControl poly)));
     reflexivity).
Qed.

Lemma attach_binds_witness :
  let poly := board_poly 1 VOCAB_JOINTTYPE_PRISMATIC [1; 2; 3]%float in
  let s := ControlBoard_nws_ros2 in
  exists s' ev,
    attach sim_env poly s = Some (start_ok sim_env, s', ev) /\
    binding s' =
      (Some poly, false, Z.to_nat 3, false,
       Some {| getAxes := Some 3%Z |}, Some (board_enc [1; 2; 3]%float),
       view impl_ITorqueControl poly,
       Some (board_ax VOCAB_JOINTTYPE_PRISMATIC)) /\
    thread_period s' = period s /\
    configuration s' = configuration s /\
    running s' = (if start_ok sim_env then true else running s) /\
    filter (fun e => negb (is_log e)) ev =
      (if start_ok sim_env then [ThreadStart] else []).
Proof.
  intros poly s.
  eapply (attach_binds sim_env poly s _ _ _ 3%Z);
    [reflexivity | reflexivity | reflexivity | reflexivity | reflexivity
    | lia |].
  intros i Hi.
  do 3 (destruct i as [|i]; [eexists; reflexivity|]).
  simpl in Hi. lia.
Defined.

(** X12: who destroys the device.  A device that is not owned is never
    closed or deleted: neither [close] nor [detach] emits a device close or
    delete for it.  An owned device is closed and then deleted exactly once
    by [close], after the thread was stopped if it ran and before the
    warning of [closePorts]. *)
Theorem close_destroys_only_owned (s : ControlBoard) :
  owned_is_bound s ->
  (subdevice_owned s = false ->
   filter is_destroy (effects (close s)) = [] /\
   filter is_destroy (effects (detach s)) = []) /\
  (forall d, subdevice_owned s = true -> subdevice_ptr s = Some d ->
   effects (close s) =
     stopped s ++
     [DeviceClose (poly_id d); DeviceDelete (poly_id d);
      Log LWarning "FIXME: closePorts() is not implemented yet!"] /\
   effects (detach s) = []).
Proof.
  intros Hinv. rewrite (close_eq s Hinv), detach_eq.
  unfold destroyed, stopped. split.
  - intros Ho. rewrite Ho. destruct (running s); split; reflexivity.
  - intros d Ho Hd. rewrite Ho, Hd. split; reflexivity.
Qed.

Lemma close_destroys_only_owned_witness :
  let own := after (CallOpen sim_env config_subdevice) ControlBoard_nws_ros2 in
  let ext := attached VOCAB_JOINTTYPE_PRISMATIC [1; 2; 3]%float in
  (owned_is_bound ext /\ subdevice_owned ext = false /\
   filter is_destroy (effects (close ext)) = [] /\
   filter is_destroy (effects (detach ext)) = []) /\
  (owned_is_bound own /\ subdevice_owned own = true /\
   exists d, subdevice_ptr own = Some d /\
   effects (close own) =
     stopped own ++
     [DeviceClose (poly_id d); DeviceDelete (poly_id d);
      Log LWarning "FIXME: closePorts() is not implemented yet!"] /\
   effects (detach own) = []).
Proof.
  intros own ext.
  assert (H1 : owned_is_bound ext) by (intros H; vm_compute in H; discriminate H).
  assert (H2 : subdevice_owned ext = false) by (vm_compute; reflexivity).
  assert (H3 : owned_is_bound own)
    by (intros _; vm_compute; eexists; reflexivity).
  assert (H4 : subdevice_owned own = true) by (vm_compute; reflexivity).
  split.
  - split; [exact H1|]. split; [exact H2|].
    exact (proj1 (close_destroys_only_owned ext H1) H2).
  - split; [exact H3|]. split; [exact H4|].
    destruct (subdevice_ptr own) as [d|] eqn:Hd;
      [|exfalso; vm_compute in Hd; discriminate Hd].
    exists d. split; [reflexivity|].
    exact (proj2 (close_destroys_only_owned own H3) d H4 Hd).
Defined.

(** What a successful [attach] leaves: a running thread on a device that
    is not owned, and the configuration as it was. *)
Lemma attach_true (env : Env) (poly : PolyDriver) (s s1 : ControlBoard)
    (ev : list Event) :
  attach env poly s = Some (true, s1, ev) ->
  running s1 = true /\ subdevice_owned s1 = false /\
  configuration s1 = configuration s /\
  filter (fun e => negb (is_log e)) ev = [ThreadStart].
Proof.
  intros Hatt. destruct (subdevice_ready s) eqn:Hr.
  { unfold attach in Hatt. revert Hatt. exec. rewrite Hr. discriminate. }
  rewrite (attach_eq env poly s Hr) in Hatt.
  destruct (setDevice_frame poly false s)
    as (r & s0 & e0 & Heq & Hframe & _ & Hown & Hlog).
  rewrite Heq in Hatt.
  destruct Hframe as (_ & _ & Hcfg & _).
  destruct r; [destruct (start_ok env)|]; try discriminate Hatt.
  injection Hatt as <- <-.
  unfold configuration in *. simpl.
  split; [reflexivity|]. split; [exact Hown|]. split; [exact Hcfg|].
  rewrite filter_app.
  assert (Hnone : filter (fun e => negb (is_log e)) e0 = []).
  { clear -Hlog. induction e0 as [|e e0 IH]; [reflexivity|].
    simpl in Hlog. apply andb_true_iff in Hlog as [He Hrest].
    rewrite filter_cons, decide_False by (rewrite He; simpl; tauto).
    apply IH. exact Hrest. }
  rewrite Hnone. reflexivity.
Qed.

(** X13: attach and detach undo each other.  After any successful
    [attach] on an unbound controller, [detach] returns success, stops the
    thread, destroys nothing, and gives back a controller that is not
    running, with the binding and the configuration it had before the
    [attach]. *)
Theorem attach_detach_round_trip
    (env : Env) (poly : PolyDriver) (s s1 : ControlBoard) (ev : list Event) :
  Unbound s ->
  attach env poly s = Some (true, s1, ev) ->
  exists s2,
    detach s1 = Some (true, s2, [ThreadStop]) /\
    running s2 = false /\
    binding s2 = binding s /\
    configuration s2 = configuration s.
Proof.
  intros Hun Hatt.
  destruct (attach_true env poly s s1 ev Hatt) as (Hrun & Hown & Hcfg & _).
  rewrite detach_eq, Hown. unfold stopped. rewrite Hrun.
  eexists. split; [reflexivity|].
  split; [reflexivity|].
  split; [|exact Hcfg].
  unfold binding. simpl.
  destruct Hun as (-> & -> & -> & -> & _ & -> & -> & -> & ->).
  reflexivity.
Qed.

Lemma attach_detach_round_trip_witness :
  let poly := board_poly 1 VOCAB_JOINTTYPE_PRISMATIC [1; 2; 3]%float in
  let s := opened in
  let s1 := attached VOCAB_JOINTTYPE_PRISMATIC [1; 2; 3]%float in
  (Unbound s /\ attach sim_env poly s = Some (true, s1, [ThreadStart])) /\
  exists s2,
    detach s1 = Some (true, s2, [ThreadStop]) /\
    running s2 = false /\
    binding s2 = binding s /\
    configuration s2 = configuration s.
Proof.
  intros poly s s1.
  assert (H1 : Unbound s) by (vm_compute; repeat split).
  assert (H2 : attach sim_env poly s = Some (true, s1, [ThreadStart]))
    by (vm_compute; reflexivity).
  split; [split; assumption|].
  exact (attach_detach_round_trip sim_env poly s s1 _ H1 H2).
Defined.

(** X14: a refused [attach] is not without effect.  With the guard flag
    clear, [attach] of a device that has the position interface but not the
    timed encoders returns failure after it has replaced the device and
    cleared [iEncodersTimed]; the thread is left as it was, and the next
    [run] fails its first assertion. *)
Theorem attach_without_encoders_disarms_run
    (env : Env) (poly : PolyDriver) (s : ControlBoard)
    (pc : IPositionControl) :
  subdevice_ready s = false ->
  view impl_IPositionControl poly = Some pc ->
  view impl_IEncodersTimed poly = None ->
  exists s' ev,
    attach env poly s = Some (false, s', ev) /\
    running s' = running s /\
    subdevice_ptr s' = Some poly /\
    iEncodersTimed s' = None /\
    subdevice_joints s' = subdevice_joints s /\
    forall c, run c s' = None.
Proof.
  intros Hr Hpc Henc. rewrite (attach_eq env poly s Hr).
  unfold setDevice. exec. rewrite Hpc, Henc. simpl.
  eexists _, _. split; [reflexivity|].
  do 4 (split; [reflexivity|]).
  intros c. apply run_aborts. left. reflexivity.
Qed.

Lemma attach_without_encoders_disarms_run_witness :
  let s := attached VOCAB_JOINTTYPE_PRISMATIC [1; 2; 3]%float in
  (subdevice_ready s = false /\ running s = true /\
   (exists u s1 ev1, run cycle0 s = Some (u, s1, ev1))) /\
  exists s' ev,
    attach sim_env blind_poly s = Some (false, s', ev) /\
    running s' = running s /\
    subdevice_ptr s' = Some blind_poly /\
    iEncodersTimed s' = None /\
    subdevice_joints s' = subdevice_joints s /\
    forall c, run c s' = None.
Proof.
  intros s.
  assert (H1 : subdevice_ready s = false) by (vm_compute; reflexivity).
  assert (H2 : running s = true) by (vm_compute; reflexivity).
  split.
  - split; [exact H1|]. split; [exact H2|].
    eexists _, _, _. vm_compute. reflexivity.
  - exact (attach_without_encoders_disarms_run sim_env blind_poly s
             {| getAxes := Some 3%Z |} H1 eq_refl eq_refl).
Defined.

(** ** What holds of every reachable object *)

Lemma buffers_sized_sized (n : nat) (s : ControlBoard) :
  buffers_sized (sized n s).
Proof.
  unfold buffers_sized, sized. simpl. rewrite !length_resize.
  split; [reflexivity|]. right. tauto.
Qed.

(** [setDevice] either leaves the joint count and the buffers alone and
    fails, or sizes the buffers for a positive joint count. *)
Lemma setDevice_shape (driver : PolyDriver) (owned : bool) (s : ControlBoard) :
  exists r s' ev,
    setDevice driver owned s = Some (r, s', ev) /\
    running s' = running s /\
    subdevice_ready s' = subdevice_ready s /\
    subdevice_owned s' = owned /\
    ((r = false /\ subdevice_joints s' = subdevice_joints s /\
      sample_buffer s' = sample_buffer s) \/
     (0 < subdevice_joints s' /\ buffers_sized s')).
Proof.
  destruct (view impl_IPositionControl driver) as [pc|] eqn:Hpc;
    [destruct (view impl_IEncodersTimed driver) as [enc|] eqn:Henc;
      [destruct (view impl_IAxisInfo driver) as [ax|] eqn:Hax;
        [destruct (getAxes pc) as [n|] eqn:Hn;
          [destruct (n <=? 0)%Z eqn:Hle|]|]|]|].
  6: { unfold setDevice. exec. rewrite Hpc. simpl.
       eexists _, _, _. split; [reflexivity|].
       do 3 (split; [reflexivity|]).
       left. unfold sample_buffer. simpl. tauto. }
  5: { unfold setDevice. exec. rewrite Hpc, Henc. simpl.
       eexists _, _, _. split; [reflexivity|].
       do 3 (split; [reflexivity|]).
       left. unfold sample_buffer. simpl. tauto. }
  4: { unfold setDevice. exec. rewrite Hpc, Henc, Hax. simpl.
       destruct (view impl_ITorqueControl driver); simpl;
         (eexists _, _, _; split; [reflexivity|];
          do 3 (split; [reflexivity|]);
          left; unfold sample_buffer; simpl; tauto). }
  3: { unfold setDevice. exec. rewrite Hpc, Henc, Hax, Hn. simpl.
       destruct (view impl_ITorqueControl driver); simpl;
         (eexists _, _, _; split; [reflexivity|];
          do 3 (split; [reflexivity|]);
          left; unfold sample_buffer; simpl; tauto). }
  1: { unfold setDevice. exec. rewrite Hpc, Henc, Hax, Hn, Hle. simpl.
       destruct (view impl_ITorqueControl driver); simpl;
         (eexists _, _, _; split; [reflexivity|];
          do 3 (split; [reflexivity|]);
          left; unfold sample_buffer; simpl; tauto). }
  rewrite (setDevice_names driver owned s pc enc ax n) by (assumption || lia).
  assert (Hpos : 0 < Z.to_nat n) by lia.
  destruct (collectAxisNames ax (Z.to_nat n) 0 []) as [i|v];
    (eexists _, _, _; split; [reflexivity|];
     do 3 (split; [reflexivity|]); right;
     unfold buffers_sized, sized; simpl; rewrite !length_resize;
     split; [exact Hpos|]; split; [reflexivity | right; tauto]).
Qed.

(** Whatever keeps the binding and the buffers, and starts the thread only
    where it ran or the guard flag was set, keeps [well_formed]. *)
Lemma well_formed_frame (s s' : ControlBoard) :
  binding s' = binding s -> sample_buffer s' = sample_buffer s ->
  (running s' = true -> running s = true \/ subdevice_ready s = true) ->
  well_formed s -> well_formed s'.
Proof.
  unfold binding, sample_buffer, well_formed, buffers_sized.
  intros Hb Hbuf Hrun (Hready & Hr & Hsz).
  injection Hb as _ Ho Hj Hrd _ _ _ _. injection Hbuf as Ht Hros.
  rewrite Ho, Hj, Hrd, Ht, Hros.
  split; [exact Hready|]. split; [|exact Hsz].
  intros H. destruct (Hrun H) as [H1|H1]; [apply Hr | apply Hready]; exact H1.
Qed.

Lemma setDevice_well_formed (driver : PolyDriver) (owned : bool)
    (s s' : ControlBoard) (r : bool) (ev : list Event) :
  well_formed s ->
  (owned = false -> subdevice_ready s = false) ->
  setDevice driver owned s = Some (r, s', ev) ->
  well_formed s' /\ running s' = running s /\
  subdevice_ready s' = subdevice_ready s /\ subdevice_owned s' = owned /\
  (r = true -> 0 < subdevice_joints s').
Proof.
  intros (Hready & Hr & Hsz) Hext Hset.
  destruct (setDevice_shape driver owned s)
    as (r0 & s0 & e0 & Heq & Hrun & Hrd & Ho & Hcase).
  rewrite Heq in Hset. injection Hset as <- <- _.
  split; [|repeat split; try assumption].
  - unfold well_formed. rewrite Hrun, Hrd, Ho.
    destruct Hcase as [(_ & Hj & Hbuf)|(Hpos & Hsized)].
    + unfold sample_buffer in Hbuf. injection Hbuf as Ht Hros.
      unfold buffers_sized. rewrite Hj, Ht, Hros.
      split; [|split; assumption].
      intros H. destruct owned; [split; [reflexivity | apply Hready; exact H]|].
      rewrite Hext in H by reflexivity. discriminate H.
    + split; [|split; [intros _; exact Hpos | exact Hsized]].
      intros H. destruct owned; [split; [reflexivity | exact Hpos]|].
      rewrite Hext in H by reflexivity. discriminate H.
  - intros ->. destruct Hcase as [(H & _)|(Hpos & _)];
      [discriminate H | exact Hpos].
Qed.

Lemma open_names_well_formed (env : Env) (config : Property)
    (s s' : ControlBoard) (r : bool) (ev : list Event) :
  well_formed s -> open_names env config s = Some (r, s', ev) ->
  well_formed s'.
Proof.
  intros Hwf Heq. revert Heq.
  unfold open_names, check, start. exec.
  destruct (config !! "nodeName") as [vn|]; simpl;
    [|intros H; injection H as _ <- _; exact Hwf].
  destruct (config !! "topicName") as [vt|]; simpl;
    [|intros H; injection H as _ <- _;
      apply (well_formed_frame s); try reflexivity; [tauto | exact Hwf]].
  destruct (subdevice_ready s) eqn:Hr; [destruct (start_ok env)|]; simpl;
    intros H; injection H as _ <- _;
    (apply (well_formed_frame s); try reflexivity; [|exact Hwf]);
    simpl; tauto.
Qed.

Lemma open_subdevice_well_formed (env : Env) (config : Property)
    (s s' : ControlBoard) (r : bool) (ev : list Event) :
  well_formed s -> open_subdevice env config s = Some (r, s', ev) ->
  well_formed s'.
Proof.
  intros Hwf. unfold open_subdevice, check.
  destruct (config !! "subdevice") as [vs|]; simpl;
    [|apply open_names_well_formed; exact Hwf].
  unfold bind at 1. rewrite openAndAttachSubDevice_eq.
  destruct (plugins env _) as [impl|];
    [|simpl; intros H; injection H as _ <- _; exact Hwf].
  destruct (setDevice _ true s) as [[[r1 s1] e1]|] eqn:Hset;
    [|discriminate].
  destruct (setDevice_well_formed _ true s s1 r1 e1 Hwf
              ltac:(discriminate) Hset)
    as (Hwf1 & Hrun1 & Hrd1 & Ho1 & Hpos1).
  destruct r1; simpl.
  - unfold bind, modify.
    destruct (open_names env config (set_subdevice_ready true s1))
      as [[[r2 s2] e2]|] eqn:Hnames; [|discriminate].
    intros H. injection H as _ <- _.
    apply (open_names_well_formed env config (set_subdevice_ready true s1)
             s2 r2 e2); [|exact Hnames].
    destruct Hwf1 as (_ & Hr1 & Hsz1).
    split; [intros _; simpl; split; [exact Ho1 | apply Hpos1; reflexivity]|].
    split; [exact Hr1 | exact Hsz1].
  - unfold bind, yCError, emit, ret. intros H. injection H as _ <- _.
    exact Hwf1.
Qed.

Lemma well_formed_set_period (d : double) (s : ControlBoard) :
  well_formed s -> well_formed (set_period d s).
Proof. intros H. exact H. Qed.

Lemma open_well_formed (env : Env) (config : Property)
    (s s' : ControlBoard) (r : bool) (ev : list Event) :
  well_formed s -> open env config s = Some (r, s', ev) -> well_formed s'.
Proof.
  intros Hwf. unfold open, check, find. exec.
  destruct (config !! "period") as [v|]; simpl.
  - destruct (isFloat64 v); simpl;
      [|intros H; injection H as _ <- _; exact Hwf].
    destruct (asFloat64 v <=? 0)%float; simpl;
      [intros H; injection H as _ <- _;
       apply well_formed_set_period; exact Hwf|].
    destruct (open_subdevice env config (set_period (asFloat64 v) s))
      as [[[r1 s1] e1]|] eqn:Hsub; [|discriminate].
    intros H. injection H as _ <- _.
    exact (open_subdevice_well_formed env config _ s1 r1 e1
             (well_formed_set_period _ s Hwf) Hsub).
  - destruct (open_subdevice env config (set_period default_period s))
      as [[[r1 s1] e1]|] eqn:Hsub; [|discriminate].
    intros H. injection H as _ <- _.
    exact (open_subdevice_well_formed env config _ s1 r1 e1
             (well_formed_set_period _ s Hwf) Hsub).
Qed.

Lemma attach_well_formed (env : Env) (poly : PolyDriver)
    (s s' : ControlBoard) (r : bool) (ev : list Event) :
  well_formed s -> attach env poly s = Some (r, s', ev) -> well_formed s'.
Proof.
  intros Hwf. destruct (subdevice_ready s) eqn:Hr.
  { unfold attach. exec. rewrite Hr. intros H. injection H as _ <- _.
    exact Hwf. }
  rewrite (attach_eq env poly s Hr).
  destruct (setDevice poly false s) as [[[r1 s1] e1]|] eqn:Hset;
    [|discriminate].
  destruct (setDevice_well_formed poly false s s1 r1 e1 Hwf
              ltac:(intros _; exact Hr) Hset)
    as (Hwf1 & Hrun1 & Hrd1 & Ho1 & Hpos1).
  destruct r1; [destruct (start_ok env)|];
    intros H; injection H as _ <- _; try exact Hwf1.
  destruct Hwf1 as (Hready1 & _ & Hsz1).
  split; [exact Hready1|].
  split; [intros _; apply Hpos1; reflexivity | exact Hsz1].
Qed.

Lemma attachAll_well_formed (env : Env) (p : list (string * PolyDriver))
    (s s' : ControlBoard) (r : bool) (ev : list Event) :
  well_formed s -> attachAll env p s = Some (r, s', ev) -> well_formed s'.
Proof.
  intros Hwf. unfold attachAll. exec.
  destruct p as [|[key poly] [|q p]];
    try (intros H; injection H as _ <- _; exact Hwf).
  destruct (isValid poly); simpl;
    [apply attach_well_formed; exact Hwf
    |intros H; injection H as _ <- _; exact Hwf].
Qed.

Lemma released_well_formed (s : ControlBoard) :
  well_formed (released (set_running false s)).
Proof.
  unfold well_formed, buffers_sized. simpl.
  split; [discriminate|]. split; [discriminate|]. split; [reflexivity|].
  left. reflexivity.
Qed.

Lemma run_well_formed (c : Cycle) (s s' : ControlBoard) (ev : list Event) :
  well_formed s -> run c s = Some (tt, s', ev) -> well_formed s'.
Proof.
  intros (Hready & Hr & Ht & Hsz) Hrun.
  destruct (iEncodersTimed s) as [enc|] eqn:Henc;
    [destruct (iAxisInfo s) as [ax|] eqn:Hax|].
  2: { rewrite (run_aborts c s) in Hrun by (right; exact Hax).
       discriminate Hrun. }
  2: { rewrite (run_aborts c s) in Hrun by (left; exact Henc).
       discriminate Hrun. }
  rewrite (run_eq c s enc ax Henc Hax) in Hrun. injection Hrun as <- _.
  unfold well_formed, buffers_sized, sampled, outgoing, converted. simpl.
  destruct (convertLoop_length ax (subdevice_joints s) 0 (cyc_jType c)
              (raw_position c enc s) (raw_velocity c enc s)) as [Hp Hv].
  rewrite Hp, Hv. unfold raw_times, raw_position, raw_velocity.
  rewrite !length_poke.
  assert (He : length (raw_effort c s) = length (effort (ros_struct s))).
  { unfold raw_effort. destruct (iTorqueControl s);
      [apply length_poke | reflexivity]. }
  rewrite He. tauto.
Qed.

Lemma perform_well_formed (c : Call) (s s' : ControlBoard)
    (r : bool) (ev : list Event) :
  owned_is_bound s -> well_formed s ->
  perform c s = Some (r, s', ev) -> well_formed s'.
Proof.
  intros Hinv Hwf Hstep.
  destruct c as [env config| |env poly|env p| | |c]; simpl in Hstep.
  - exact (open_well_formed env config s s' r ev Hwf Hstep).
  - rewrite (close_eq s Hinv) in Hstep. injection Hstep as _ <- _.
    apply released_well_formed.
  - exact (attach_well_formed env poly s s' r ev Hwf Hstep).
  - exact (attachAll_well_formed env p s s' r ev Hwf Hstep).
  - rewrite detach_eq in Hstep. destruct (subdevice_owned s);
      injection Hstep as _ <- _;
      [exact Hwf | apply released_well_formed].
  - unfold detachAll in Hstep. rewrite detach_eq in Hstep.
    destruct (subdevice_owned s); injection Hstep as _ <- _;
      [exact Hwf | apply released_well_formed].
  - unfold bind, ret in Hstep.
    destruct (run c s) as [[[[] s1] e1]|] eqn:Hrun; [|discriminate].
    injection Hstep as _ <- _.
    exact (run_well_formed c s s1 e1 Hwf Hrun).
Qed.

Lemma reachable_invariant (s : ControlBoard) :
  reachable s -> well_formed s.
Proof.
  induction 1 as [|s c r s' ev Hs IH _ Hstep].
  - unfold well_formed, buffers_sized. simpl.
    split; [discriminate|]. split; [discriminate|].
    split; [reflexivity | left; reflexivity].
  - exact (perform_well_formed c s s' r ev
             (reachable_owned_is_bound s Hs) IH Hstep).
Qed.



(** X16: [close] cannot fail.  On every object the host can reach, the
    assertion of [closeDevice] holds, so [close] returns, returns true, and
    leaves the controller not running and unbound. *)
Theorem reachable_close_succeeds (s : ControlBoard) :
  reachable s ->
  exists s' ev,
    close s = Some (true, s', ev) /\ Closed s' /\
    (subdevice_owned s = true -> is_Some (subdevice_ptr s)).
Proof.
  intros Hs.
  pose proof (reachable_owned_is_bound s Hs) as Hinv.
  rewrite (close_eq s Hinv).
  eexists _, _. split; [reflexivity|].
  split; [split; [reflexivity | apply released_Unbound] | exact Hinv].
Qed.

Lemma reachable_close_succeeds_witness :
  let s := after (CallRun cycle0)
             (attached VOCAB_JOINTTYPE_PRISMATIC [1; 2; 3]%float) in
  reachable s /\
  exists s' ev,
    close s = Some (true, s', ev) /\ Closed s' /\
    (subdevice_owned s = true -> is_Some (subdevice_ptr s)).
Proof.
  intros s.
  assert (H0 : reachable opened).
  { apply (reach_step ControlBoard_nws_ros2
             (CallOpen sim_env config_deferred) true opened
             (effects (open sim_env config_deferred ControlBoard_nws_ros2))
             reach_init I).
    vm_compute. reflexivity. }
  assert (H1 : reachable
                 (attached VOCAB_JOINTTYPE_PRISMATIC [1; 2; 3]%float)).
  { apply (reach_step opened
             (CallAttach sim_env
                (board_poly 1 VOCAB_JOINTTYPE_PRISMATIC [1; 2; 3]%float))
             true _ [ThreadStart] H0 I).
    vm_compute. reflexivity. }
  assert (H : reachable s).
  { apply (reach_step _ (CallRun cycle0) true s
             (effects (perform (CallRun cycle0)
                (attached VOCAB_JOINTTYPE_PRISMATIC [1; 2; 3]%float))) H1).
    - vm_compute. reflexivity.
    - vm_compute. reflexivity. }
  split; [exact H | exact (reachable_close_succeeds s H)].
Defined.

(** X17: a controller that owns its subdevice can only be closed.  On
    every reachable object whose guard flag is set, [attach] and [detach]
    both return false and change nothing. *)
Theorem owned_subdevice_refuses_attach_and_detach
    (env : Env) (poly : PolyDriver) (s : ControlBoard) :
  reachable s -> subdevice_ready s = true ->
  attach env poly s = Some (false, s, []) /\
  detach s = Some (false, s, []) /\
  detachAll s = Some (false, s, []).
Proof.
  intros Hreach Hr.
  destruct (reachable_invariant s Hreach) as (Hready & _).
  destruct (Hready Hr) as [Ho _].
  split; [unfold attach; exec; rewrite Hr; reflexivity|].
  unfold detachAll. rewrite detach_eq, Ho. split; reflexivity.
Qed.

Lemma owned_subdevice_refuses_attach_and_detach_witness :
  let s := after (CallOpen sim_env config_subdevice) ControlBoard_nws_ros2 in
  let poly := board_poly 2 VOCAB_JOINTTYPE_PRISMATIC [1; 2; 3]%float in
  (reachable s /\ subdevice_ready s = true) /\
  attach sim_env poly s = Some (false, s, []) /\
  detach s = Some (false, s, []) /\
  detachAll s = Some (false, s, []).
Proof.
  intros s poly.
  assert (H1 : reachable s).
  { apply (reach_step ControlBoard_nws_ros2
             (CallOpen sim_env config_subdevice) true s
             (effects (open sim_env config_subdevice ControlBoard_nws_ros2))
             reach_init I).
    vm_compute. reflexivity. }
  assert (H2 : subdevice_ready s = true) by (vm_compute; reflexivity).
  split; [split; assumption|].
  exact (owned_subdevice_refuses_attach_and_detach sim_env poly s H1 H2).
Defined.

(** ** updateAxisName and setDevice, exactly *)

Lemma collectAxisNames_inr_all (ax : IAxisInfo) (n i : nat)
    (acc v : list string) :
  collectAxisNames ax n i acc = inr v ->
  forall j, i <= j < i + n -> is_Some (getAxisName ax j).
Proof.
  revert i acc. induction n as [|n IH]; intros i acc H j Hj; [lia|].
  simpl in H. destruct (getAxisName ax i) as [tmp|] eqn:Hi; [|discriminate].
  destruct (decide (j = i)) as [->|Hne]; [rewrite Hi; eexists; reflexivity|].
  apply (IH (S i) (acc ++ [tmp]) H). lia.
Qed.

(** Where the collection stops: at the first joint without a name. *)
Lemma collectAxisNames_inl (ax : IAxisInfo) (n i : nat)
    (acc : list string) (k : nat) :
  collectAxisNames ax n i acc = inl k ->
  i <= k < i + n /\ getAxisName ax k = None /\
  forall j, i <= j < k -> is_Some (getAxisName ax j).
Proof.
  revert i acc. induction n as [|n IH]; intros i acc H; simpl in H;
    [discriminate|].
  destruct (getAxisName ax i) as [tmp|] eqn:Hi.
  - destruct (IH _ _ H) as (Hk & Hnone & Hbefore).
    split; [lia|]. split; [exact Hnone|].
    intros j Hj. destruct (decide (j = i)) as [->|Hne].
    + rewrite Hi. eexists. reflexivity.
    + apply Hbefore. lia.
  - injection H as <-. split; [lia|]. split; [exact Hi|].
    intros j Hj. lia.
Qed.

(** X18: [updateAxisName] is all or nothing.  It succeeds exactly when
    every joint below the joint count has a name; then the Joint Name Table
    is replaced by these names in joint order and nothing else changes.
    Otherwise the object, table included, is untouched, and the one error
    line it logs carries the index of the first joint without a name, as
    the argument of its format. *)
Theorem updateAxisName_all_or_nothing (s : ControlBoard) (ax : IAxisInfo) :
  iAxisInfo s = Some ax ->
  exists r s' ev,
    updateAxisName s = Some (r, s', ev) /\
    (r = true <->
     forall i, i < subdevice_joints s -> is_Some (getAxisName ax i)) /\
    (r = false ->
     s' = s /\
     exists k,
       k < subdevice_joints s /\ getAxisName ax k = None /\
       (forall i, i < k -> is_Some (getAxisName ax i)) /\
       ev = [Logf LError "Joint name for axis %zu not found!" [ASize k]]) /\
    (r = true ->
     s' = set_jointNames (jointNames s') s /\ ev = [] /\
     length (jointNames s') = subdevice_joints s /\
     forall i, i < subdevice_joints s ->
       jointNames s' !! i = getAxisName ax i).
Proof.
  intros Hax. rewrite (updateAxisName_eq s ax Hax).
  destruct (collectAxisNames ax (subdevice_joints s) 0 []) as [k|v] eqn:Hc.
  - eexists _, _, _. split; [reflexivity|].
    split; [|split; [|discriminate]].
    + split; [discriminate|].
      intros Hall.
      destruct (collectAxisNames_succeeds ax (subdevice_joints s) 0 [])
        as [v Hv]; [intros j Hj; apply Hall; lia|].
      congruence.
    + intros _. split; [reflexivity|].
      destruct (collectAxisNames_inl ax _ 0 [] k Hc)
        as (Hk & Hnone & Hbefore).
      exists k. split; [lia|]. split; [exact Hnone|].
      split; [intros i Hi; apply Hbefore; lia | reflexivity].
  - eexists _, _, _. split; [reflexivity|].
    split; [|split; [discriminate|]].
    + split; [|reflexivity]. intros _ i Hi.
      apply (collectAxisNames_inr_all ax _ 0 [] v Hc). lia.
    + intros _. simpl. split; [reflexivity|]. split; [reflexivity|].
      split.
      * apply collectAxisNames_length in Hc. exact Hc.
      * intros i Hi. exact (collectAxisNames_lookup ax _ 0 [] v i Hc Hi).
Qed.

Lemma updateAxisName_all_or_nothing_witness :
  let s := after (CallAttach sim_env nameless_poly) opened in
  (iAxisInfo s = Some nameless_ax /\ subdevice_joints s = 2 /\
   jointNames s = [] /\
   updateAxisName s =
     Some (false, s,
           [Logf LError "Joint name for axis %zu not found!" [ASize 1]])) /\
  exists r s' ev,
    updateAxisName s = Some (r, s', ev) /\
    (r = true <->
     forall i, i < subdevice_joints s -> is_Some (getAxisName nameless_ax i)) /\
    (r = false ->
     s' = s /\
     exists k,
       k < subdevice_joints s /\ getAxisName nameless_ax k = None /\
       (forall i, i < k -> is_Some (getAxisName nameless_ax i)) /\
       ev = [Logf LError "Joint name for axis %zu not found!" [ASize k]]) /\
    (r = true ->
     s' = set_jointNames (jointNames s') s /\ ev = [] /\
     length (jointNames s') = subdevice_joints s /\
     forall i, i < subdevice_joints s ->
       jointNames s' !! i = getAxisName nameless_ax i).
Proof.
  intros s.
  assert (H : iAxisInfo s = Some nameless_ax) by (vm_compute; reflexivity).
  split; [|exact (updateAxisName_all_or_nothing s nameless_ax H)].
  split; [exact H|]. repeat split; vm_compute; reflexivity.
Defined.

(** [setDevice] succeeds on the bindable devices and on no other. *)
Lemma setDevice_true_bindable
    (driver : PolyDriver) (owned : bool) (s s' : ControlBoard)
    (ev : list Event) :
  setDevice driver owned s = Some (true, s', ev) -> bindable driver.
Proof.
  unfold bindable. intros Hset.
  destruct (view impl_IPositionControl driver) as [pc|] eqn:Hpc;
    [destruct (view impl_IEncodersTimed driver) as [enc|] eqn:Henc;
      [destruct (view impl_IAxisInfo driver) as [ax|] eqn:Hax;
        [destruct (getAxes pc) as [n|] eqn:Hn;
          [destruct (n <=? 0)%Z eqn:Hle|]|]|]|].
  6: { revert Hset. unfold setDevice. exec. rewrite Hpc. discriminate. }
  5: { revert Hset. unfold setDevice. exec. rewrite Hpc, Henc.
       discriminate. }
  4: { revert Hset. unfold setDevice. exec. rewrite Hpc, Henc, Hax. simpl.
       destruct (view impl_ITorqueControl driver); discriminate. }
  3: { revert Hset. unfold setDevice. exec. rewrite Hpc, Henc, Hax, Hn.
       simpl. destruct (view impl_ITorqueControl driver); discriminate. }
  1: { revert Hset. unfold setDevice. exec.
       rewrite Hpc, Henc, Hax, Hn, Hle. simpl.
       destruct (view impl_ITorqueControl driver); discriminate. }
  exists pc, enc, ax, n.
  do 3 (split; [reflexivity|]). split; [exact Hn|]. split; [lia|].
  rewrite (setDevice_names driver owned s pc enc ax n) in Hset
    by (assumption || lia).
  destruct (collectAxisNames ax (Z.to_nat n) 0 []) as [k|v] eqn:Hc;
    [discriminate Hset|].
  intros i Hi. apply (collectAxisNames_inr_all ax _ 0 [] v Hc). lia.
Qed.

Lemma bindable_setDevice
    (driver : PolyDriver) (owned : bool) (s : ControlBoard) :
  bindable driver ->
  exists s' ev, setDevice driver owned s = Some (true, s', ev).
Proof.
  intros (pc & enc & ax & n & Hpc & Henc & Hax & Hn & Hpos & Hnames).
  destruct (setDevice_bound driver owned s pc enc ax n
              Hpc Henc Hax Hn Hpos Hnames) as (names & Heq & _).
  eexists _, _. exact Heq.
Qed.

Lemma setDevice_bindable
    (driver : PolyDriver) (owned : bool) (s : ControlBoard) :
  (exists s' ev, setDevice driver owned s = Some (true, s', ev)) <->
  bindable driver.
Proof.
  split.
  - intros (s' & ev & Hset).
    exact (setDevice_true_bindable driver owned s s' ev Hset).
  - exact (bindable_setDevice driver owned s).
Qed.

(** X19: when a bind succeeds.  [setDevice] returns true exactly when the
    device has the position, timed-encoder and axis-info interfaces, its
    joint count query succeeds with a positive count, and every joint below
    that count has a name.  The torque interface, the ownership flag and
    the previous state of the controller play no part. *)
Theorem setDevice_succeeds_iff
    (driver : PolyDriver) (owned : bool) (s : ControlBoard) :
  (exists s' ev, setDevice driver owned s = Some (true, s', ev)) <->
  (exists pc enc ax n,
     view impl_IPositionControl driver = Some pc /\
     view impl_IEncodersTimed driver = Some enc /\
     view impl_IAxisInfo driver = Some ax /\
     getAxes pc = Some n /\ (0 < n)%Z /\
     forall i, i < Z.to_nat n -> is_Some (getAxisName ax i)).
Proof.
  split.
  - intros (s' & ev & Hset).
    exact (setDevice_true_bindable driver owned s s' ev Hset).
  - intros (pc & enc & ax & n & Hpc & Henc & Hax & Hn & Hpos & Hnames).
    destruct (setDevice_bound driver owned s pc enc ax n
                Hpc Henc Hax Hn Hpos Hnames) as (names & Heq & _).
    eexists _, _. exact Heq.
Qed.

(** X20: what [close] leaves in place.  [closePorts] is not implemented
    and [closeDevice] clears only the binding and the timestamps: after
    [close] the period, the names and the publisher are still those of the
    last [open], and the message vectors, the Joint Name Table, the
    envelope time and the counter are what the last cycle left. *)
Theorem close_keeps_configuration (s : ControlBoard) :
  owned_is_bound s ->
  exists s' ev,
    close s = Some (true, s', ev) /\
    configuration s' = configuration s /\
    thread_period s' = thread_period s /\
    ros_struct s' = ros_struct s /\ jointNames s' = jointNames s /\
    time s' = time s /\ counter s' = counter s /\
    times s' = [].
Proof.
  intros Hinv. rewrite (close_eq s Hinv).
  eexists _, _. split; [reflexivity|].
  do 6 (split; [reflexivity|]). reflexivity.
Qed.

Lemma close_keeps_configuration_witness :
  let s := after (CallRun cycle0)
             (after (CallOpen sim_env config_subdevice)
                ControlBoard_nws_ros2) in
  (owned_is_bound s /\ m_publisher s = Some "/joint_states" /\
   counter s = 1%N) /\
  exists s' ev,
    close s = Some (true, s', ev) /\
    configuration s' = configuration s /\
    thread_period s' = thread_period s /\
    ros_struct s' = ros_struct s /\ jointNames s' = jointNames s /\
    time s' = time s /\ counter s' = counter s /\
    times s' = [].
Proof.
  intros s.
  assert (H : owned_is_bound s)
    by (intros _; vm_compute; eexists; reflexivity).
  split; [split; [exact H | split; vm_compute; reflexivity]|].
  exact (close_keeps_configuration s H).
Defined.

(** ** open on a configuration it refuses *)

Lemma filter_logs_nil (ev : list Event) :
  forallb is_log ev = true -> filter (fun e => negb (is_log e)) ev = [].
Proof.
  induction ev as [|e ev IH]; [reflexivity|].
  simpl. intros Hlog. apply andb_true_iff in Hlog as [He Hrest].
  rewrite filter_cons, decide_False by (rewrite He; simpl; tauto).
  apply IH. exact Hrest.
Qed.

(** The tail of [open] when a name is missing. *)
Lemma open_names_missing (env : Env) (config : Property) (s : ControlBoard) :
  config !! "nodeName" = None \/ config !! "topicName" = None ->
  open_names env config s =
    match config !! "nodeName" with
    | None =>
        Some (false, s,
              [Logs LError [AString (nodeName s);
                            AString " cannot find nodeName parameter"]])
    | Some vn =>
        Some (false, set_nodeName (asString vn) s,
              [Logs LInfo [AString "nodeName is "; AString (asString vn)];
               Log LWarning "FIXME: nodeName is not currently used!";
               Logs LError [AString (asString vn);
                            AString " cannot find topicName parameter"]])
    end.
Proof.
  intros Hmiss. unfold open_names, check, find. exec.
  destruct (config !! "nodeName") as [vn|] eqn:Hn; simpl; [|reflexivity].
  destruct Hmiss as [Hm|Hm]; [discriminate Hm|].
  rewrite Hm. simpl. reflexivity.
Qed.

(** The subdevice stage of [open], case by case. *)
Lemma open_subdevice_eq (env : Env) (config : Property) (s : ControlBoard) :
  open_subdevice env config s =
    match config !! "subdevice" with
    | None => open_names env config s
    | Some _ =>
        if isValid (subdevice_of env config) then
          match setDevice (subdevice_of env config) true s with
          | Some (true, s1, e1) =>
              match open_names env config (set_subdevice_ready true s1) with
              | Some (r, s2, e2) =>
                  Some (r, s2,
                        [DeviceNew (fresh_id env);
                         Log LDebug "opening subdevice";
                         DeviceOpen (fresh_id env)] ++ e1 ++ e2)
              | None => None
              end
          | Some (false, s1, e1) =>
              Some (false, s1,
                    [DeviceNew (fresh_id env);
                     Log LDebug "opening subdevice";
                     DeviceOpen (fresh_id env)] ++ e1 ++
                    [Log LError "Error while opening subdevice"])
          | None => None
          end
        else
          Some (false, s,
                [DeviceNew (fresh_id env);
                 Log LDebug "opening subdevice";
                 Log LError "opening subdevice... FAILED";
                 Log LError "Error while opening subdevice"])
    end.
Proof.
  unfold open_subdevice, openAndAttachSubDevice, subdevice_of, check. exec.
  destruct (config !! "subdevice") as [vs|] eqn:Hsub; simpl; [|reflexivity].
  destruct (isValid _) eqn:Hv; simpl; [|reflexivity].
  destruct (setDevice _ true s) as [[[[|] s1] e1]|]; simpl; [| |reflexivity].
  - destruct (open_names env config (set_subdevice_ready true s1))
      as [[[r s2] e2]|]; simpl; [|reflexivity].
    reflexivity.
  - reflexivity.
Qed.

(** The subdevice and name stages on a configuration that lacks a name. *)
Lemma open_subdevice_refuses (env : Env) (config : Property)
    (s : ControlBoard) :
  config !! "nodeName" = None \/ config !! "topicName" = None ->
  exists s' ev,
    open_subdevice env config s = Some (false, s', ev) /\
    running s' = running s /\ thread_period s' = thread_period s /\
    m_publisher s' = m_publisher s /\ topicName s' = topicName s /\
    period s' = period s /\
    (config !! "subdevice" = None -> forallb is_log ev = true) /\
    (is_Some (config !! "subdevice") ->
     filter (fun e => negb (is_log e)) ev =
       DeviceNew (fresh_id env) ::
       (if isValid (subdevice_of env config)
        then [DeviceOpen (fresh_id env)] else [])) /\
    (config !! "subdevice" = None \/
     isValid (subdevice_of env config) = false ->
     binding s' = binding s /\ sample_buffer s' = sample_buffer s /\
     jointNames s' = jointNames s) /\
    (is_Some (config !! "subdevice") ->
     isValid (subdevice_of env config) = true ->
     subdevice_ptr s' = Some (subdevice_of env config) /\
     subdevice_owned s' = true /\
     (bindable (subdevice_of env config) -> subdevice_ready s' = true) /\
     (~ bindable (subdevice_of env config) ->
      subdevice_ready s' = subdevice_ready s)) /\
    (config !! "subdevice" = None \/ bindable (subdevice_of env config) ->
     nodeName s' = match config !! "nodeName" with
                   | Some vn => asString vn
                   | None => nodeName s
                   end) /\
    (is_Some (config !! "subdevice") /\
     ~ bindable (subdevice_of env config) ->
     nodeName s' = nodeName s).
Proof.
  intros Hmiss. rewrite open_subdevice_eq.
  assert (Hvalid : bindable (subdevice_of env config) ->
                   isValid (subdevice_of env config) = true).
  { intros (pc & _ & _ & _ & Hpc & _). unfold isValid, view in *.
    destruct (poly_dd (subdevice_of env config)); [reflexivity|].
    discriminate Hpc. }
  destruct (config !! "subdevice") as [vs|] eqn:Hsub.
  - destruct (isValid (subdevice_of env config)) eqn:Hv.
    + destruct (setDevice_frame (subdevice_of env config) true s)
        as (r & s1 & e1 & Heq & Hframe & Hptr & Hown & Hlog).
      assert (Hiff : r = true <-> bindable (subdevice_of env config)).
      { rewrite <- (setDevice_bindable _ true s). split.
        - intros ->. eexists _, _. exact Heq.
        - intros (s2 & e2 & Heq2). congruence. }
      rewrite Heq.
      destruct Hframe as (Hrun & Hthr & Hcfg & Hrdy & _ & _).
      unfold configuration in Hcfg.
      injection Hcfg as Hper Hnn Htn Hpub.
      assert (Hfilter : forall tail,
        forallb is_log tail = true ->
        filter (fun e => negb (is_log e))
          ([DeviceNew (fresh_id env); Log LDebug "opening subdevice";
            DeviceOpen (fresh_id env)] ++ e1 ++ tail)
        = [DeviceNew (fresh_id env); DeviceOpen (fresh_id env)]).
      { intros tail Htail. rewrite !filter_app.
        rewrite (filter_logs_nil e1 Hlog), (filter_logs_nil tail Htail).
        reflexivity. }
      destruct r.
      * assert (Hb : bindable (subdevice_of env config))
          by (apply Hiff; reflexivity).
        rewrite (open_names_missing env config _ Hmiss).
        destruct (config !! "nodeName") as [vn|] eqn:Hn;
          (eexists _, _; split; [reflexivity|]; simpl;
           do 5 (split; [assumption|]);
           split; [intros H; discriminate H|];
           split; [intros _; apply Hfilter; reflexivity|];
           split; [intros [H|H]; discriminate H|];
           split;
           [intros _ _;
            split; [exact Hptr|]; split; [exact Hown|];
            split; [reflexivity | intros Hnb; destruct (Hnb Hb)]|];
           split; [intros _; first [reflexivity | exact Hnn]|];
           intros [_ Hnb]; destruct (Hnb Hb)).
      * assert (Hnb : ~ bindable (subdevice_of env config)).
        { intros Hb. apply Hiff in Hb. discriminate Hb. }
        eexists _, _. split; [reflexivity|].
        do 5 (split; [assumption|]).
        split; [intros H; discriminate H|].
        split; [intros _; apply Hfilter; reflexivity|].
        split; [intros [H|H]; discriminate H|].
        split.
        { intros _ _.
          split; [exact Hptr|]. split; [exact Hown|].
          split; [intros Hb; destruct (Hnb Hb) | intros _; exact Hrdy]. }
        split; [intros [H|Hb]; [discriminate H | destruct (Hnb Hb)]|].
        intros _. exact Hnn.
    + eexists _, _. split; [reflexivity|].
      do 5 (split; [reflexivity|]).
      split; [intros H; discriminate H|].
      split; [intros _; reflexivity|].
      split; [intros _; repeat split|].
      split; [intros _ H; discriminate H|].
      split.
      { intros [H|Hb]; [discriminate H|].
        pose proof (Hvalid Hb) as Hv2. congruence. }
      intros _. reflexivity.
  - rewrite (open_names_missing env config s Hmiss).
    destruct (config !! "nodeName") as [vn|] eqn:Hn;
      (eexists _, _; split; [reflexivity|]; simpl;
       do 5 (split; [reflexivity|]);
       split; [intros _; reflexivity|];
       split; [intros [x Hx]; discriminate Hx|];
       split; [intros _; repeat split|];
       split; [intros [x Hx]; discriminate Hx|];
       split; [intros _; reflexivity|];
       intros [[x Hx] _]; discriminate Hx).
Qed.

(** C3 (as the code has it): on a configuration without [nodeName] or
    without [topicName], or whose [period] is present but not a float64 or
    not positive, [open] returns failure; it has started no thread, created
    no publisher and assigned no topic.  Nothing is undone.  The member
    [period] keeps the value read, unless that was not a float64.  When
    the period is at fault or no subdevice is named, [open] has only
    logged.  With an acceptable period and a subdevice named, [open] has
    created the driver for it and, when the factory provides the device,
    opened it, before the names were looked at; these are its only effects
    besides log lines, and neither is undone.  When the period is at fault,
    no subdevice is named or the factory cannot provide it, the binding,
    the Sample Buffer and the Joint Name Table are what they were, so a
    Closed controller is still Closed.  A subdevice that was opened stays
    stored as the owned device, the controller is not Closed, and the guard
    flag is set if the device could be bound.  [nodeName] is assigned when
    it is present and [open] got as far as the names, that is with an
    acceptable period and no subdevice or a subdevice that could be bound;
    otherwise it is what it was. *)
Theorem open_bad_config (env : Env) (config : Property) (s : ControlBoard) :
  bad_config config ->
  exists s' ev,
    open env config s = Some (false, s', ev) /\
    running s' = running s /\ thread_period s' = thread_period s /\
    m_publisher s' = m_publisher s /\ topicName s' = topicName s /\
    period s' = match config !! "period" with
                | None => default_period
                | Some v => if isFloat64 v then asFloat64 v else period s
                end /\
    (bad_period config \/ config !! "subdevice" = None ->
     forallb is_log ev = true) /\
    (~ bad_period config -> is_Some (config !! "subdevice") ->
     filter (fun e => negb (is_log e)) ev =
       DeviceNew (fresh_id env) ::
       (if isValid (subdevice_of env config)
        then [DeviceOpen (fresh_id env)] else [])) /\
    (bad_period config \/ config !! "subdevice" = None \/
     isValid (subdevice_of env config) = false ->
     binding s' = binding s /\ sample_buffer s' = sample_buffer s /\
     jointNames s' = jointNames s /\ (Closed s -> Closed s')) /\
    (~ bad_period config -> is_Some (config !! "subdevice") ->
     isValid (subdevice_of env config) = true ->
     subdevice_ptr s' = Some (subdevice_of env config) /\
     subdevice_owned s' = true /\ ~ Closed s' /\
     (bindable (subdevice_of env config) -> subdevice_ready s' = true) /\
     (~ bindable (subdevice_of env config) ->
      subdevice_ready s' = subdevice_ready s)) /\
    (~ bad_period config ->
     config !! "subdevice" = None \/ bindable (subdevice_of env config) ->
     nodeName s' = match config !! "nodeName" with
                   | Some vn => asString vn
                   | None => nodeName s
                   end) /\
    (bad_period config \/
     (is_Some (config !! "subdevice") /\
      ~ bindable (subdevice_of env config)) ->
     nodeName s' = nodeName s).
Proof.
  intros Hbad.
  assert (Hstop : forall s0 text,
    bad_period config ->
    period s0 = match config !! "period" with
                | None => default_period
                | Some v => if isFloat64 v then asFloat64 v else period s
                end ->
    running s0 = running s -> thread_period s0 = thread_period s ->
    configuration s0 = (period s0, nodeName s, topicName s, m_publisher s) ->
    binding s0 = binding s -> sample_buffer s0 = sample_buffer s ->
    jointNames s0 = jointNames s ->
    open env config s = Some (false, s0, [text]) -> is_log text = true ->
    exists s' ev,
      open env config s = Some (false, s', ev) /\
      running s' = running s /\ thread_period s' = thread_period s /\
      m_publisher s' = m_publisher s /\ topicName s' = topicName s /\
      period s' = match config !! "period" with
                  | None => default_period
                  | Some v => if isFloat64 v then asFloat64 v else period s
                  end /\
      (bad_period config \/ config !! "subdevice" = None ->
       forallb is_log ev = true) /\
      (~ bad_period config -> is_Some (config !! "subdevice") ->
       filter (fun e => negb (is_log e)) ev =
         DeviceNew (fresh_id env) ::
         (if isValid (subdevice_of env config)
          then [DeviceOpen (fresh_id env)] else [])) /\
      (bad_period config \/ config !! "subdevice" = None \/
       isValid (subdevice_of env config) = false ->
       binding s' = binding s /\ sample_buffer s' = sample_buffer s /\
       jointNames s' = jointNames s /\ (Closed s -> Closed s')) /\
      (~ bad_period config -> is_Some (config !! "subdevice") ->
       isValid (subdevice_of env config) = true ->
       subdevice_ptr s' = Some (subdevice_of env config) /\
       subdevice_owned s' = true /\ ~ Closed s' /\
       (bindable (subdevice_of env config) -> subdevice_ready s' = true) /\
       (~ bindable (subdevice_of env config) ->
        subdevice_ready s' = subdevice_ready s)) /\
      (~ bad_period config ->
       config !! "subdevice" = None \/ bindable (subdevice_of env config) ->
       nodeName s' = match config !! "nodeName" with
                     | Some vn => asString vn
                     | None => nodeName s
                     end) /\
      (bad_period config \/
       (is_Some (config !! "subdevice") /\
        ~ bindable (subdevice_of env config)) ->
       nodeName s' = nodeName s)).
  { intros s0 text Hbp Hper Hrun Hthr Hcfg Hb Hbuf Hjn Heq Htext.
    unfold configuration in Hcfg. injection Hcfg as Hnn Htn Hpub.
    exists s0, [text]. split; [exact Heq|].
    do 5 (split; [assumption|]).
    split; [intros _; simpl; rewrite Htext; reflexivity|].
    split; [intros Hok; destruct (Hok Hbp)|].
    split.
    { intros _. do 3 (split; [assumption|]).
      apply Closed_frame; assumption. }
    split; [intros Hok; destruct (Hok Hbp)|].
    split; [intros Hok; destruct (Hok Hbp)|].
    intros _. exact Hnn. }
  destruct (config !! "period") as [v|] eqn:Hp.
  - destruct (isFloat64 v) eqn:Hf.
    + destruct (asFloat64 v <=? 0)%float eqn:Hle.
      * apply (Hstop (set_period (asFloat64 v) s)
                 (Logs LError
                    [AString "'period' parameter is not valid, read value is";
                     ADouble (asFloat64 v)]));
          try reflexivity.
        -- exists v. tauto.
        -- unfold open, check, find. exec. rewrite Hp. simpl.
           rewrite Hf. simpl. rewrite Hle. reflexivity.
      * assert (Hok : ~ bad_period config).
        { intros (v' & Hv' & Hcase). rewrite Hp in Hv'.
          injection Hv' as <-. destruct Hcase; congruence. }
        assert (Hmiss : config !! "nodeName" = None \/
                        config !! "topicName" = None).
        { destruct Hbad as [H|[H|H]]; [tauto | tauto | destruct (Hok H)]. }
        rewrite (open_period_stage env config s Hok), Hp.
        destruct (open_subdevice_refuses env config
                    (set_period (asFloat64 v) s) Hmiss)
          as (s' & ev & Heq & Hrun & Hthr & Hpub & Htn & Hper & Hlogs
              & Hfil & Hsame & Hopened & Hname & Hkept).
        rewrite Heq. exists s', ev. split; [reflexivity|].
        do 5 (split; [assumption|]).
        split.
        { intros [Hbp|Hcase]; [destruct (Hok Hbp) | exact (Hlogs Hcase)]. }
        split; [intros _ Hsub; exact (Hfil Hsub)|].
        split.
        { intros [Hbp|Hcase]; [destruct (Hok Hbp)|].
          destruct (Hsame Hcase) as (Hb & Hbuf & Hjn).
          do 3 (split; [assumption|]).
          apply Closed_frame; assumption. }
        split.
        { intros _ Hsub Hv.
          destruct (Hopened Hsub Hv) as (Hptr & Hown & Hrdy & Hnrdy).
          do 2 (split; [assumption|]).
          split; [|split; assumption].
          intros (_ & Hnone & _). congruence. }
        split; [intros _; exact Hname|].
        intros [Hbp|Hcase]; [destruct (Hok Hbp) | exact (Hkept Hcase)].
    + apply (Hstop s (Log LError "'period' parameter is not a double value"));
        try reflexivity.
      * exists v. tauto.
      * unfold open, check, find. exec. rewrite Hp. simpl.
        rewrite Hf. reflexivity.
  - assert (Hok : ~ bad_period config).
    { intros (v' & Hv' & _). congruence. }
    assert (Hmiss : config !! "nodeName" = None \/
                    config !! "topicName" = None).
    { destruct Hbad as [H|[H|H]]; [tauto | tauto | destruct (Hok H)]. }
    rewrite (open_period_stage env config s Hok), Hp.
    destruct (open_subdevice_refuses env config
                (set_period default_period s) Hmiss)
      as (s' & ev & Heq & Hrun & Hthr & Hpub & Htn & Hper & Hlogs
          & Hfil & Hsame & Hopened & Hname & Hkept).
    rewrite Heq. eexists s', _. split; [reflexivity|].
    do 5 (split; [assumption|]).
    split.
    { intros [Hbp|Hcase]; [destruct (Hok Hbp)|].
      simpl. exact (Hlogs Hcase). }
    split.
    { intros _ Hsub.
      rewrite filter_cons, decide_False by (simpl; tauto).
      exact (Hfil Hsub). }
    split.
    { intros [Hbp|Hcase]; [destruct (Hok Hbp)|].
      destruct (Hsame Hcase) as (Hb & Hbuf & Hjn).
      do 3 (split; [assumption|]).
      apply Closed_frame; assumption. }
    split.
    { intros _ Hsub Hv.
      destruct (Hopened Hsub Hv) as (Hptr & Hown & Hrdy & Hnrdy).
      do 2 (split; [assumption|]).
      split; [|split; assumption].
      intros (_ & Hnone & _). congruence. }
    split; [intros _; exact Hname|].
    intros [Hbp|Hcase]; [destruct (Hok Hbp) | exact (Hkept Hcase)].
Qed.

Lemma open_bad_config_witness :
  let env := sim_env in
  let config := config_no_nodeName in
  let s := ControlBoard_nws_ros2 in
  (bad_config config /\ ~ bad_period config /\
   is_Some (config !! "subdevice") /\
   isValid (subdevice_of env config) = true) /\
  exists s' ev,
    open env config s = Some (false, s', ev) /\
    running s' = running s /\ thread_period s' = thread_period s /\
    m_publisher s' = m_publisher s /\ topicName s' = topicName s /\
    period s' = match config !! "period" with
                | None => default_period
                | Some v => if isFloat64 v then asFloat64 v else period s
                end /\
    (bad_period config \/ config !! "subdevice" = None ->
     forallb is_log ev = true) /\
    (~ bad_period config -> is_Some (config !! "subdevice") ->
     filter (fun e => negb (is_log e)) ev =
       DeviceNew (fresh_id env) ::
       (if isValid (subdevice_of env config)
        then [DeviceOpen (fresh_id env)] else [])) /\
    (bad_period config \/ config !! "subdevice" = None \/
     isValid (subdevice_of env config) = false ->
     binding s' = binding s /\ sample_buffer s' = sample_buffer s /\
     jointNames s' = jointNames s /\ (Closed s -> Closed s')) /\
    (~ bad_period config -> is_Some (config !! "subdevice") ->
     isValid (subdevice_of env config) = true ->
     subdevice_ptr s' = Some (subdevice_of env config) /\
     subdevice_owned s' = true /\ ~ Closed s' /\
     (bindable (subdevice_of env config) -> subdevice_ready s' = true) /\
     (~ bindable (subdevice_of env config) ->
      subdevice_ready s' = subdevice_ready s)) /\
    (~ bad_period config ->
     config !! "subdevice" = None \/ bindable (subdevice_of env config) ->
     nodeName s' = match config !! "nodeName" with
                   | Some vn => asString vn
                   | None => nodeName s
                   end) /\
    (bad_period config \/
     (is_Some (config !! "subdevice") /\
      ~ bindable (subdevice_of env config)) ->
     nodeName s' = nodeName s).
Proof.
  intros env config s.
  assert (H : bad_config config) by (left; vm_compute; reflexivity).
  assert (H1 : ~ bad_period config).
  { intros (v & Hv & _). vm_compute in Hv. discriminate Hv. }
  assert (H2 : is_Some (config !! "subdevice"))
    by (vm_compute; eexists; reflexivity).
  assert (H3 : isValid (subdevice_of env config) = true)
    by (vm_compute; reflexivity).
  split; [repeat split; assumption|].
  exact (open_bad_config env config s H).
Defined.

(** C3, the claim as written fails.  Without [nodeName] but with a
    subdevice, [open] returns failure after the subdevice was opened and
    bound: the controller is no longer Closed, and the device is neither
    closed nor deleted.  Without [topicName], [open] returns failure after [nodeName]
    was assigned.  With a negative period, [open] returns failure after the
    member [period] took the value. *)
Lemma open_failure_keeps_partial_state :
  (config_no_nodeName !! "nodeName" = None /\
   Closed ControlBoard_nws_ros2 /\
   exists s' ev,
     open sim_env config_no_nodeName ControlBoard_nws_ros2
       = Some (false, s', ev) /\
     ~ Closed s' /\
     filter (fun e => negb (is_log e)) ev = [DeviceNew 7; DeviceOpen 7] /\
     poly_id <$> subdevice_ptr s' = Some 7 /\
     subdevice_owned s' = true /\ subdevice_ready s' = true /\
     subdevice_joints s' = 3 /\ times s' = [0; 0; 0]%float) /\
  (config_no_topicName !! "topicName" = None /\
   nodeName ControlBoard_nws_ros2 <> "cb_node" /\
   exists s' ev,
     open sim_env config_no_topicName ControlBoard_nws_ros2
       = Some (false, s', ev) /\
     nodeName s' = "cb_node") /\
  (bad_period config_negative_period /\
   period ControlBoard_nws_ros2 = default_period /\
   exists s' ev,
     open sim_env config_negative_period ControlBoard_nws_ros2
       = Some (false, s', ev) /\
     period s' = (-1)%float /\
     s' <> ControlBoard_nws_ros2).
Proof.
  split; [|split].
  - split; [vm_compute; reflexivity|].
    split; [split; [reflexivity | repeat split]|].
    eexists _, _. split; [vm_compute; reflexivity|].
    split; [|repeat split].
    intros (_ & H & _). discriminate H.
  - split; [vm_compute; reflexivity|].
    split; [discriminate|].
    eexists _, _. split; [vm_compute; reflexivity|]. reflexivity.
  - split.
    { exists (VFloat64 (-1)%float).
      split; [vm_compute; reflexivity | right; vm_compute; reflexivity]. }
    split; [reflexivity|].
    eexists _, _. split; [vm_compute; reflexivity|].
    split; [reflexivity|].
    intros H. apply (f_equal (fun x => (period x <? 0)%float)) in H.
    vm_compute in H. discriminate H.
Qed.

(** ** attachAll *)

Lemma bindable_isValid (driver : PolyDriver) :
  bindable driver -> isValid driver = true.
Proof.
  intros (pc & _ & _ & _ & Hpc & _). unfold isValid, view in *.
  destruct (poly_dd driver); [reflexivity | discriminate Hpc].
Qed.

(** X5: [attachAll] takes exactly one valid device.  An empty list, a list
    of two or more, or a single device that is not valid gives failure with
    one error line, which for the invalid device carries its key, and the
    object untouched; a single valid device is handed to [attach].  So
    [attachAll] succeeds exactly when the list holds one device, the guard
    flag is clear, the device has the three mandatory interfaces, a
    positive joint count and all joint names, and the thread starts; the
    controller is then running on a device it does not own. *)
Theorem attachAll_one_valid_device
    (env : Env) (p : list (string * PolyDriver)) (s : ControlBoard) :
  (p = [] ->
   attachAll env p s = Some (false, s, [Log LError "No devices found"])) /\
  (1 < length p ->
   attachAll env p s
     = Some (false, s, [Log LError "Cannot attach more than one device"])) /\
  (forall key poly, p = [(key, poly)] ->
   isValid poly = false ->
   attachAll env p s
     = Some (false, s, [Logf LError "Device %s is not valid" [AString key]])) /\
  (forall key poly, p = [(key, poly)] ->
   isValid poly = true ->
   attachAll env p s = attach env poly s) /\
  ((exists s' ev, attachAll env p s = Some (true, s', ev)) <->
   (exists key poly,
      p = [(key, poly)] /\ subdevice_ready s = false /\
      bindable poly /\ start_ok env = true)) /\
  (forall s' ev, attachAll env p s = Some (true, s', ev) ->
   running s' = true /\ subdevice_owned s' = false /\
   (exists key poly, p = [(key, poly)] /\ subdevice_ptr s' = Some poly) /\
   filter (fun e => negb (is_log e)) ev = [ThreadStart]).
Proof.
  assert (Hone : forall key poly, p = [(key, poly)] ->
            isValid poly = true -> attachAll env p s = attach env poly s).
  { intros key poly -> Hv. unfold attachAll. rewrite Hv. reflexivity. }
  assert (Hsingle : forall s' ev, attachAll env p s = Some (true, s', ev) ->
            exists key poly, p = [(key, poly)] /\
              attach env poly s = Some (true, s', ev)).
  { intros s' ev H. destruct p as [|[key poly] [|q p]];
      [discriminate H| |discriminate H].
    exists key, poly. split; [reflexivity|].
    destruct (isValid poly) eqn:Hv.
    - rewrite <- (Hone key poly eq_refl Hv). exact H.
    - revert H. unfold attachAll. exec. rewrite Hv. discriminate. }
  split; [intros ->; reflexivity|].
  split.
  { intros Hlen. destruct p as [|[key poly] [|q p]]; simpl in Hlen;
      [lia | lia | reflexivity]. }
  split.
  { intros key poly -> Hv. unfold attachAll. exec. rewrite Hv. reflexivity. }
  split; [exact Hone|].
  split.
  - split.
    + intros (s' & ev & H).
      destruct (Hsingle s' ev H) as (key & poly & -> & Hatt).
      exists key, poly. split; [reflexivity|].
      destruct (subdevice_ready s) eqn:Hr.
      { revert Hatt. unfold attach. exec. rewrite Hr. discriminate. }
      split; [reflexivity|].
      rewrite (attach_eq env poly s Hr) in Hatt.
      destruct (setDevice poly false s) as [[[[|] s1] e1]|] eqn:Hset;
        [|discriminate Hatt|discriminate Hatt].
      split.
      * apply (setDevice_bindable poly false s). eexists _, _. exact Hset.
      * destruct (start_ok env); [reflexivity | discriminate Hatt].
    + intros (key & poly & -> & Hr & Hb & Hs).
      rewrite (Hone key poly eq_refl (bindable_isValid poly Hb)).
      rewrite (attach_eq env poly s Hr).
      destruct (proj2 (setDevice_bindable poly false s) Hb)
        as (s1 & e1 & Hset).
      rewrite Hset, Hs. eexists _, _. reflexivity.
  - intros s' ev H.
    destruct (Hsingle s' ev H) as (key & poly & -> & Hatt).
    destruct (attach_true env poly s s' ev Hatt) as (Hrun & Hown & _ & Hev).
    split; [exact Hrun|]. split; [exact Hown|]. split; [|exact Hev].
    exists key, poly. split; [reflexivity|].
    destruct (subdevice_ready s) eqn:Hr.
    { revert Hatt. unfold attach. exec. rewrite Hr. discriminate. }
    rewrite (attach_eq env poly s Hr) in Hatt.
    destruct (setDevice_frame poly false s)
      as (r & s1 & e1 & Hset & _ & Hptr & _).
    rewrite Hset in Hatt.
    destruct r; [destruct (start_ok env)|]; try discriminate Hatt.
    injection Hatt as <- _. simpl. exact Hptr.
Qed.

Lemma attachAll_one_valid_device_witness :
  let d := board_poly 1 VOCAB_JOINTTYPE_PRISMATIC [1; 2; 3]%float in
  let broken := {| poly_id := 13; poly_dd := None |} in
  let s := opened in
  (isValid broken = false /\
   attachAll sim_env [("left_arm", broken)] s
     = Some (false, s,
             [Logf LError "Device %s is not valid" [AString "left_arm"]])) /\
  ((subdevice_ready s = false /\ bindable d /\ start_ok sim_env = true) /\
   exists s' ev, attachAll sim_env [("left_arm", d)] s = Some (true, s', ev)).
Proof.
  intros d broken s.
  assert (H1 : isValid broken = false) by reflexivity.
  assert (H2 : subdevice_ready s = false) by (vm_compute; reflexivity).
  assert (H3 : bindable d).
  { exists {| getAxes := Some 3%Z |}, (board_enc [1; 2; 3]%float),
      (board_ax VOCAB_JOINTTYPE_PRISMATIC), 3%Z.
    do 4 (split; [reflexivity|]). split; [lia|].
    intros i Hi.
    do 3 (destruct i as [|i]; [eexists; reflexivity|]).
    simpl in Hi. lia. }
  assert (H4 : start_ok sim_env = true) by reflexivity.
  split.
  - split; [exact H1|].
    exact (proj1 (proj2 (proj2 (attachAll_one_valid_device sim_env
             [("left_arm", broken)] s))) _ _ eq_refl H1).
  - split; [split; [exact H2 | split; [exact H3 | exact H4]]|].
    apply (proj2 (proj1 (proj2 (proj2 (proj2 (proj2
             (attachAll_one_valid_device sim_env [("left_arm", d)] s))))))).
    exists "left_arm", d.
    split; [reflexivity | split; [exact H2 | split; [exact H3 | exact H4]]].
Defined.
